(** * dheu-agent: the generate -> publish -> log pipelines, the weekly
    aggregator and the letter generator, embedded and verified.

    The Python sources are embedded shallowly:
    - a run state is the dictionary the workflow engine threads through the
      nodes, a finite map from key to Python value (a key may be missing, or
      present with the value [None]);
    - every node is a computation in a small state-and-exception monad over a
      [World] that records, in order, each externally visible action (console
      line, generation-service call, delivery attempt, SQL statement) and
      holds the contents of the two log tables;
    - what the external collaborators answer (the generation service, the
      channel clients, the SQLite connection, the clock) is read from an
      [Env] of oracles, so that every theorem quantifies over all their
      behaviours, failures included. *)

From Stdlib Require Import String Ascii ZArith List Lia Bool DecimalString.
From Stdlib Require Import Floats.PrimFloat.
From stdpp Require Import base option list gmap strings sorting.

Local Open Scope Z_scope.

(** ** Python values, exceptions and results *)

(** The values a tweet or post run state holds: [None] or a [str]. *)
Inductive pyval : Type :=
| PyNone
| PyStr (s : string).

Global Instance pyval_eq_dec : EqDecision pyval.
Proof. solve_decision. Defined.

(** [bool(v)]: [None] and the empty string are falsy. *)
Definition truthy (v : pyval) : bool :=
  match v with
  | PyNone => false
  | PyStr "" => false
  | PyStr _ => true
  end.

(** [format(v)], as an f-string replacement field renders the value. *)
Definition py_format (v : pyval) : string :=
  match v with
  | PyNone => "None"
  | PyStr s => s
  end.

(** One entry of [weekly_tweets]: the dictionary with the keys
    ['content'], ['datetime'] and ['data_summary']. *)
Record weekly_tweet : Type := WeeklyTweet {
  content : string;
  datetime : string;
  wt_data_summary : pyval
}.

(** The values a [WeeklySummaryState] holds: [None], a [str] or a list of
    such dictionaries. *)
Inductive sval : Type :=
| SNone
| SStr (s : string)
| SList (l : list weekly_tweet).

(** [bool(v)] on these values *)
Definition struthy (v : sval) : bool :=
  match v with
  | SNone | SStr "" | SList [] => false
  | _ => true
  end.

(** [KeyError] carries the key that was missing, a [str] or, for a
    subscript by position, an [int]. *)
Inductive exn : Type :=
| KeyError (key : string)
| KeyErrorInt (key : Z)
| IndexError (msg : string)
| TypeError (msg : string)
| HTTPError (status : Z) (msg : string)
| GraphRecursionError
| ExternalError (msg : string).

Definition squote : string := String "039"%char EmptyString.
Definition dquote : string := String "034"%char EmptyString.
Definition newline : string := String "010"%char EmptyString.

Definition has_char (c : ascii) (s : string) : bool :=
  existsb (Ascii.eqb c) (list_ascii_of_string s).

Definition hex_digit (n : N) : ascii :=
  nth (N.to_nat n) (list_ascii_of_string "0123456789abcdef") "0"%char.

(** One character of [repr(s)] between the quotes [quote]: the backslash and
    the quote are escaped, the control characters written as [\t], [\n],
    [\r] or [\xNN]. Bytes outside ASCII stand for printable characters
    and are kept. *)
Definition repr_char (quote c : ascii) : string :=
  let n := N_of_ascii c in
  if Ascii.eqb c "\"%char then "\\"
  else if Ascii.eqb c quote then String "\"%char (String c EmptyString)
  else if (n =? 9)%N then "\t"
  else if (n =? 10)%N then "\n"
  else if (n =? 13)%N then "\r"
  else if ((n <? 32) || (n =? 127))%N then
    "\x" +:+ String (hex_digit (n / 16)) (String (hex_digit (n mod 16))
                                                  EmptyString)
  else String c EmptyString.

(** [repr(s)] of a string: in double quotes when the string holds a single
    quote and no double quote, in single quotes otherwise. *)
Definition py_repr (s : string) : string :=
  let quote :=
    if has_char "039"%char s && negb (has_char "034"%char s)
    then "034"%char else "039"%char in
  String quote
    (String.concat EmptyString
                   (repr_char quote <$> list_ascii_of_string s)
     +:+ String quote EmptyString).

(** [str(n)] of an integer *)
Definition str_of_Z (n : Z) : string :=
  NilZero.string_of_int (Z.to_int n).

(** [str(e)], as [print(f"...{e}")] renders a caught exception: for a
    [KeyError] the [repr] of its key. *)
Definition exn_str (e : exn) : string :=
  match e with
  | KeyError k => py_repr k
  | KeyErrorInt k => str_of_Z k
  | IndexError m => m
  | TypeError m => m
  | HTTPError _ m => m
  | GraphRecursionError => "Recursion limit reached"
  | ExternalError m => m
  end.

Inductive result (A : Type) : Type :=
| Ok (a : A)
| Raise (e : exn).
Arguments Ok {A} a.
Arguments Raise {A} e.

Definition is_ok {A} (r : result A) : bool :=
  match r with Ok _ => true | Raise _ => false end.

(** ** Python string helpers *)

(** A Python [str] is held as the bytes of its UTF-8 encoding. *)
Definition bytes (codes : list N) : string :=
  string_of_list_ascii (ascii_of_N <$> codes).

(** The white-space characters of [str.strip] and [str.isspace], by their
    encodings: U+0009 to U+000D, U+001C to U+001F, U+0020, U+0085, U+00A0,
    U+1680, U+2000 to U+200A, U+2028, U+2029, U+202F, U+205F and U+3000. *)
Definition white_space : list string :=
  bytes <$>
    [[9]; [10]; [11]; [12]; [13]; [28]; [29]; [30]; [31]; [32];
     [194; 133]; [194; 160];
     [225; 154; 128];
     [226; 128; 128]; [226; 128; 129]; [226; 128; 130]; [226; 128; 131];
     [226; 128; 132]; [226; 128; 133]; [226; 128; 134]; [226; 128; 135];
     [226; 128; 136]; [226; 128; 137]; [226; 128; 138];
     [226; 128; 168]; [226; 128; 169]; [226; 128; 175];
     [226; 129; 159];
     [227; 128; 128]]%N.

(** [s] without the prefix [p], when it starts with it *)
Fixpoint without_prefix (p s : string) : option string :=
  match p with
  | EmptyString => Some s
  | String a p' =>
      match s with
      | String b s' => if Ascii.eqb a b then without_prefix p' s' else None
      | EmptyString => None
      end
  end.

(** [s] without its first character, when that is one of [chars] *)
Fixpoint without_first (chars : list string) (s : string) : option string :=
  match chars with
  | [] => None
  | c :: chars' =>
      match without_prefix c s with
      | Some rest => Some rest
      | None => without_first chars' s
      end
  end.

Fixpoint drop_leading (chars : list string) (fuel : nat) (s : string)
    : string :=
  match fuel with
  | O => s
  | S fuel' =>
      match without_first chars s with
      | Some rest => drop_leading chars fuel' rest
      | None => s
      end
  end.

(** [s.lstrip()], [s.rstrip()] and [s.strip()]; the end of the string is
    stripped on the reversed bytes. *)
Definition lstrip (s : string) : string :=
  drop_leading white_space (String.length s) s.

Definition rstrip (s : string) : string :=
  String.rev (drop_leading (String.rev <$> white_space) (String.length s)
                           (String.rev s)).

Definition strip (s : string) : string := rstrip (lstrip s).

(** [sep.join(parts)] *)
Definition join (sep : string) (parts : list string) : string :=
  String.concat sep parts.

(** [needle in haystack] *)
Definition contains (haystack needle : string) : Prop :=
  ∃ pre post : string, haystack = pre +:+ needle +:+ post.

Definition is_digit (c : ascii) : bool :=
  let n := N_of_ascii c in ((48 <=? n) && (n <=? 57))%N.

(** [s] follows [pattern], in which [d] stands for any digit *)
Fixpoint has_shape (pattern s : string) : bool :=
  match pattern, s with
  | EmptyString, EmptyString => true
  | String p pattern', String c s' =>
      (if Ascii.eqb p "d"%char then is_digit c else Ascii.eqb p c)
      && has_shape pattern' s'
  | _, _ => false
  end.

(** The shape of [datetime.isoformat()] for a naive datetime:
    YYYY-MM-DDTHH:MM:SS, followed by the six digits of the microseconds
    unless they are zero. *)
Definition is_isoformat (s : string) : bool :=
  has_shape "dddd-dd-ddTdd:dd:dd" s
  || has_shape "dddd-dd-ddTdd:dd:dd.dddddd" s.

(** Text of ASCII characters only *)
Definition ascii_text (s : string) : bool :=
  forallb (λ c, (N_of_ascii c <? 128)%N) (list_ascii_of_string s).

(** ** Rows of the two log tables *)

(** [tweets_log (id, tweet_content NOT NULL, post_datetime NOT NULL,
    data_summary)] *)
Record tweet_row : Type := TweetRow {
  tweet_id : Z;
  tweet_content : string;
  tweet_datetime : string;
  data_summary : pyval
}.

(** [posts_log (id, post_content NOT NULL, post_datetime NOT NULL, event,
    coordinates)] *)
Record post_row : Type := PostRow {
  post_id : Z;
  post_content : string;
  post_datetime : string;
  post_event : pyval;
  post_coordinates : pyval
}.

Global Instance tweet_row_eq_dec : EqDecision tweet_row.
Proof. solve_decision. Defined.
Global Instance post_row_eq_dec : EqDecision post_row.
Proof. solve_decision. Defined.

(** ** The world: the ordered record of actions and the stores *)

Inductive event : Type :=
| Stdout (line : string)
| EnterNode (name : string)
| LlmInvoke (prompt : string)
| CreateTweet (text : string)
| PutObject (parent_object connection_name message : string)
| SqlInsertTweet (content datetime : string) (summary : pyval)
| SqlInsertPost (content datetime : string) (ev coords : pyval)
| SqlCommit
| SqlSelectSince (since : string)
| HttpPost (url user_text : string).

Global Instance event_eq_dec : EqDecision event.
Proof. solve_decision. Defined.

(** A table is the rows already committed plus the rows inserted on the
    connection and not committed yet. *)
Record World : Type := mkWorld {
  trace : list event;
  tweets_log : list tweet_row;
  tweets_pending : list tweet_row;
  posts_log : list post_row;
  posts_pending : list post_row
}.

Definition empty_world : World := mkWorld [] [] [] [] [].

(** ** The environment: what the external collaborators answer *)

Record Env : Type := mkEnv {
  (** [str(llm.invoke(prompt).content)], or the exception the call raises *)
  llm_invoke : string → result string;
  (** the module-level tweepy [client]: [None] when its construction failed,
      otherwise what [client.create_tweet(text=...)] does *)
  client : option (string → result unit);
  (** what [poster.put_object("me", "feed", message=...)] does *)
  poster_put_object : string → result unit;
  (** what [cursor.execute] answers to an INSERT, what [connection.commit]
      answers, and what [cursor.execute] answers to the weekly SELECT *)
  sql_insert : result unit;
  sql_commit : result unit;
  sql_select : result unit;
  (** [datetime.now()], in microseconds, with the renderings of the
      standard library *)
  now : Z;
  isoformat : Z → string;
  strftime : string → Z → string;
  (** [repr] of a final run state and of a list of dictionaries, as an
      f-string renders them *)
  repr_state : gmap string pyval → string;
  repr_list : list weekly_tweet → string
}.

(** [format(v)] for the values of a weekly summary state *)
Definition sval_format (env : Env) (v : sval) : string :=
  match v with
  | SNone => "None"
  | SStr s => s
  | SList l => repr_list env l
  end.

(** ** The monad of node bodies *)

Definition M (A : Type) : Type := World → result A * World.

Global Instance M_ret : MRet M := λ A a w, (Ok a, w).
Global Instance M_bind : MBind M := λ A B f m w,
  match m w with
  | (Ok a, w') => f a w'
  | (Raise e, w') => (Raise e, w')
  end.

Definition raise {A} (e : exn) : M A := λ w, (Raise e, w).

(** [try: body / except Exception as e: handler e] *)
Definition try_except {A} (body : M A) (handler : exn → M A) : M A := λ w,
  match body w with
  | (Ok a, w') => (Ok a, w')
  | (Raise e, w') => handler e w'
  end.

(** The world after some more actions were recorded, the stores untouched. *)
Definition add_events (w : World) (evs : list event) : World :=
  mkWorld (trace w ++ evs) (tweets_log w) (tweets_pending w)
          (posts_log w) (posts_pending w).

Definition emit (e : event) : M unit := λ w, (Ok tt, add_events w [e]).

(** [print(line)] *)
Definition py_print (line : string) : M unit := emit (Stdout line).

Definition lift {A} (r : result A) : M A := λ w, (r, w).

(** ** Run states and the workflow engine *)

(** [state.get(key)] *)
Definition dict_get (state : gmap string pyval) (key : string) : pyval :=
  default PyNone (state !! key).

(** [state.get(key, dflt)]: the default only replaces a missing key *)
Definition dict_get_default (state : gmap string pyval) (key : string)
    (dflt : pyval) : pyval :=
  default dflt (state !! key).

(** [state[key]] *)
Definition dict_index {V} (state : gmap string V) (key : string) : M V :=
  match state !! key with
  | Some v => mret v
  | None => raise (KeyError key)
  end.

Definition START : string := "__start__".
Definition END : string := "__end__".

(** The workflow engine is the LangGraph library. What it does with the
    graphs built in these sources is modelled as follows: the nodes reached
    from [START] run superstep by superstep; a node receives the current
    state and returns a partial update, which is merged into the state (the
    update's keys win) before the next superstep; the run ends when only
    [END] is reached, and an exception raised by a node ends the run with
    that exception.

    A state graph as [add_node] and [add_edge] build it. A node returns a
    partial update ([Some] dictionary) or nothing ([None], a bare [return]). *)
Record StateGraph (V : Type) : Type := mkGraph {
  nodes : list (string * (gmap string V → M (option (gmap string V))));
  edges : list (string * string)
}.
Arguments mkGraph {V} nodes edges.
Arguments nodes {V} _.
Arguments edges {V} _.

Section Engine.
Context {V : Type}.

Definition find_node (g : StateGraph V) (name : string) :=
  snd <$> List.find (λ p, String.eqb (fst p) name) (nodes g).

Definition successors (g : StateGraph V) (name : string) : list string :=
  snd <$> List.filter (λ e, String.eqb (fst e) name) (edges g).

(** shallow merge of a partial update, the update's keys win *)
Definition merge_update (state : gmap string V)
    (upd : option (gmap string V)) : gmap string V :=
  match upd with
  | Some u => u ∪ state
  | None => state
  end.

(** One superstep: every node of the frontier runs on the same state. *)
Fixpoint run_nodes (g : StateGraph V) (names : list string)
    (state : gmap string V) : M (list (option (gmap string V))) :=
  match names with
  | [] => mret []
  | name :: rest =>
      match find_node g name with
      | None => raise (KeyError name)
      | Some body =>
          emit (EnterNode name);;
          upd ← body state;
          upds ← run_nodes g rest state;
          mret (upd :: upds)
      end
  end.

Fixpoint supersteps (limit : nat) (g : StateGraph V)
    (frontier : list string) (state : gmap string V)
    : M (gmap string V) :=
  match List.filter (λ n, negb (String.eqb n END)) frontier with
  | [] => mret state
  | active =>
      match limit with
      | O => raise GraphRecursionError
      | S limit' =>
          upds ← run_nodes g active state;
          supersteps limit' g (active ≫= successors g)
                     (foldl merge_update state upds)
      end
  end.

Definition recursion_limit : nat := 25.

(** [graph.compile().invoke(initial_state)] *)
Definition invoke (g : StateGraph V) (initial_state : gmap string V)
    : M (gmap string V) :=
  supersteps recursion_limit g (successors g START) initial_state.
End Engine.

(** The node names of a trace, in the order the engine entered them. *)
Definition entered (tr : list event) : list string :=
  omap (λ e, match e with EnterNode n => Some n | _ => None end) tr.

Definition llm_prompts (tr : list event) : list string :=
  omap (λ e, match e with LlmInvoke p => Some p | _ => None end) tr.

Definition tweets_sent (tr : list event) : list string :=
  omap (λ e, match e with CreateTweet t => Some t | _ => None end) tr.

Definition posts_sent (tr : list event) : list string :=
  omap (λ e, match e with PutObject _ _ m => Some m | _ => None end) tr.

Definition tweet_inserts (tr : list event) : list (string * string * pyval) :=
  omap (λ e, match e with
             | SqlInsertTweet c d s => Some (c, d, s)
             | _ => None
             end) tr.

Definition post_inserts (tr : list event)
    : list (string * string * pyval * pyval) :=
  omap (λ e, match e with
             | SqlInsertPost c d ev co => Some (c, d, ev, co)
             | _ => None
             end) tr.

Definition printed (tr : list event) : list string :=
  omap (λ e, match e with Stdout l => Some l | _ => None end) tr.

(** ** The tweets_log table on the shared connection *)

(** The id an AUTOINCREMENT column gives the next row: one more than the
    largest id in use (no statement of these sources deletes a row). *)
Definition next_tweet_id (w : World) : Z :=
  1 + foldr Z.max 0 (tweet_id <$> (tweets_log w ++ tweets_pending w)).

Definition next_post_id (w : World) : Z :=
  1 + foldr Z.max 0 (post_id <$> (posts_log w ++ posts_pending w)).

(** [cursor.execute('INSERT INTO tweets_log ... VALUES (?, ?, ?)', ...)] *)
Definition execute_insert_tweet (env : Env) (content datetime : string)
    (summary : pyval) : M unit := λ w,
  let tr := trace w ++ [SqlInsertTweet content datetime summary] in
  match sql_insert env with
  | Ok _ =>
      (Ok tt,
       mkWorld tr (tweets_log w)
               (tweets_pending w ++
                  [TweetRow (next_tweet_id w) content datetime summary])
               (posts_log w) (posts_pending w))
  | Raise e =>
      (Raise e,
       mkWorld tr (tweets_log w) (tweets_pending w)
               (posts_log w) (posts_pending w))
  end.

(** [connection.commit()] on the connection to ocean_tweets.db *)
Definition commit_tweets (env : Env) : M unit := λ w,
  let tr := trace w ++ [SqlCommit] in
  match sql_commit env with
  | Ok _ =>
      (Ok tt,
       mkWorld tr (tweets_log w ++ tweets_pending w) []
               (posts_log w) (posts_pending w))
  | Raise e =>
      (Raise e,
       mkWorld tr (tweets_log w) (tweets_pending w)
               (posts_log w) (posts_pending w))
  end.

(** [cursor.execute('INSERT INTO posts_log ... VALUES (?, ?, ?, ?)', ...)] *)
Definition execute_insert_post (env : Env) (content datetime : string)
    (ev coords : pyval) : M unit := λ w,
  let tr := trace w ++ [SqlInsertPost content datetime ev coords] in
  match sql_insert env with
  | Ok _ =>
      (Ok tt,
       mkWorld tr (tweets_log w) (tweets_pending w) (posts_log w)
               (posts_pending w ++
                  [PostRow (next_post_id w) content datetime ev coords]))
  | Raise e =>
      (Raise e,
       mkWorld tr (tweets_log w) (tweets_pending w)
               (posts_log w) (posts_pending w))
  end.

(** [connection.commit()] on the connection to ocean_posts.db *)
Definition commit_posts (env : Env) : M unit := λ w,
  let tr := trace w ++ [SqlCommit] in
  match sql_commit env with
  | Ok _ =>
      (Ok tt,
       mkWorld tr (tweets_log w) (tweets_pending w)
               (posts_log w ++ posts_pending w) [])
  | Raise e =>
      (Raise e,
       mkWorld tr (tweets_log w) (tweets_pending w)
               (posts_log w) (posts_pending w))
  end.

(** [llm.invoke(prompt)], then [str(....content)] *)
Definition llm_call (env : Env) (prompt : string) : M string :=
  emit (LlmInvoke prompt);; lift (llm_invoke env prompt).

(** [client.create_tweet(text=text)] on a live client *)
Definition create_tweet (send : string → result unit) (text : string)
    : M unit :=
  emit (CreateTweet text);; lift (send text).

(** * agent.py: the tweet workflow *)

Module Agent.

Definition DB_NAME : string := "ocean_tweets.db".

Definition tweet_prompt (data : pyval) : string :=
  "You are the **ocean** and you have to generate a tweet about your current condition based on the images captured by satellite and data analyzed by a machine learning model. **Only generate the tweet pretending to be the ocean and don't generate anything else.** Use hashtags if needed."
  +:+ newline +:+ "    Data: " +:+ py_format data.

Definition no_data_sentinel : string := "Error: No data to generate tweet.".

Definition generate_tweet (env : Env) (state : gmap string pyval)
    : M (option (gmap string pyval)) :=
  py_print "...Generating tweet...";;
  data ← dict_index state "data";
  let prompt := tweet_prompt data in
  tweet ← (if truthy (dict_get state "data")
           then content ← llm_call env prompt; mret (strip content)
           else mret no_data_sentinel);
  mret (Some {["tweet" := PyStr tweet]}).

Definition post_tweet (env : Env) (state : gmap string pyval)
    : M (option (gmap string pyval)) :=
  py_print "...Attempting to post tweet...";;
  let tweet_content := dict_get state "tweet" in
  returned ←
    match client env with
    | Some send =>
        if truthy tweet_content then
          try_except
            (create_tweet send (py_format tweet_content);;
             py_print ("**SUCCESS:** Tweet content generated and ready to post: "
                       +:+ newline +:+ squote +:+ py_format tweet_content
                       +:+ squote);;
             mret true)
            (λ e, py_print ("Error posting tweet: " +:+ exn_str e);;
                  mret false)
        else mret false
    | None => mret false
    end;
  if returned : bool then mret None
  else
    py_print "Error...no tweet or client connection found to post!";;
    mret None.

Definition log_tweet (env : Env) (state : gmap string pyval)
    : M (option (gmap string pyval)) :=
  let tweet_content := dict_get state "tweet" in
  let data_summary :=
    dict_get_default state "data" (PyStr "No data provided") in
  (if truthy tweet_content then
     let now := now env in
     try_except
       (execute_insert_tweet env (py_format tweet_content)
                             (isoformat env now) data_summary;;
        commit_tweets env;;
        py_print ("...Tweet successfully logged in " +:+ DB_NAME +:+ " at "
                  +:+ strftime env "%Y-%m-%d %H:%M:%S" now))
       (λ e, py_print ("Error logging tweet to database: " +:+ exn_str e))
   else mret tt);;
  mret (Some ∅).

Definition graph (env : Env) : StateGraph pyval :=
  mkGraph
    [("generate_tweet", generate_tweet env);
     ("post_tweet", post_tweet env);
     ("log_tweet", log_tweet env)]
    [(START, "generate_tweet");
     ("generate_tweet", "post_tweet");
     ("post_tweet", "log_tweet");
     ("log_tweet", END)].

Definition workflow (env : Env) : gmap string pyval → M (gmap string pyval) :=
  invoke (graph env).

Definition run_ocean_tweet_workflow (env : Env) (satellite_data : pyval)
    : M (gmap string pyval) :=
  let initial_state : gmap string pyval :=
    <["data" := satellite_data]> (<["tweet" := PyNone]> ∅) in
  py_print "--- Starting Ocean Tweet Workflow ---";;
  final_state ← workflow env initial_state;
  py_print "--- Workflow Finished ---";;
  py_print ("Final State: " +:+ repr_state env final_state);;
  py_print ("Check " +:+ squote +:+ DB_NAME +:+ squote
            +:+ " for the logged entry.");;
  mret final_state.

End Agent.


(** * agent_fb.py: the Facebook workflow *)

Module AgentFb.

Definition DB_NAME : string := "ocean_posts.db".

Definition post_prompt (event coordinates : pyval) : string :=
  newline
  +:+ "    You are the **ocean**. Generate a Facebook post about your current condition "
  +:+ newline
  +:+ "    based on satellite imagery and ML analysis. Pretend to be the ocean. Use hashtags if needed."
  +:+ newline +:+ "    Event: " +:+ py_format event
  +:+ newline +:+ "    Coordinates: " +:+ py_format coordinates
  +:+ newline +:+ "    ".

Definition generate_post (env : Env) (state : gmap string pyval)
    : M (option (gmap string pyval)) :=
  event ← dict_index state "event";
  coordinates ← dict_index state "coordinates";
  let prompt := post_prompt event coordinates in
  content ← llm_call env prompt;
  let post := strip content in
  mret (Some {["post" := PyStr post]}).

(** [poster.put_object("me", "feed", message=message)] *)
Definition put_object (env : Env) (message : string) : M unit :=
  emit (PutObject "me" "feed" message);;
  lift (poster_put_object env message).

Definition post_facebook_node (env : Env) (state : gmap string pyval)
    : M (option (gmap string pyval)) :=
  let post_content := dict_get state "post" in
  (if truthy post_content then
     try_except
       (put_object env (py_format post_content);;
        py_print ("✅ Posted to Facebook Page:" +:+ newline
                  +:+ py_format post_content))
       (λ e, py_print ("❌ Error posting to Facebook: " +:+ exn_str e))
   else mret tt);;
  mret (Some ∅).

Definition log_post (env : Env) (state : gmap string pyval)
    : M (option (gmap string pyval)) :=
  let post_content := dict_get state "post" in
  (if truthy post_content then
     let now := now env in
     try_except
       (execute_insert_post env (py_format post_content)
                            (isoformat env now)
                            (dict_get state "event")
                            (dict_get state "coordinates");;
        commit_posts env)
       (λ e, py_print ("❌ Error logging post: " +:+ exn_str e))
   else mret tt);;
  mret (Some ∅).

Definition graph (env : Env) : StateGraph pyval :=
  mkGraph
    [("generate_post", generate_post env);
     ("post_facebook", post_facebook_node env);
     ("log_post", log_post env)]
    [(START, "generate_post");
     ("generate_post", "post_facebook");
     ("post_facebook", "log_post");
     ("log_post", END)].

Definition workflow (env : Env) : gmap string pyval → M (gmap string pyval) :=
  invoke (graph env).

Definition post_update (env : Env) (event coordinates : pyval)
    : M (gmap string pyval) :=
  let initial_state : gmap string pyval :=
    <["event" := event]>
      (<["coordinates" := coordinates]> (<["post" := PyNone]> ∅)) in
  final_state ← workflow env initial_state;
  mret final_state.

End AgentFb.

(** * summary_agent.py: the weekly aggregator *)

Module SummaryAgent.

Definition timedelta_days (days : Z) : Z := days * 86400 * 1000000.

(** The post_datetime column is declared TIMESTAMP, which gives it NUMERIC
    affinity: a text that is a number literal would be stored and compared
    as a number, every other text is stored as text and compared byte by
    byte. The timestamps of these sources are [datetime.isoformat()]
    strings, which are never number literals; the query below is the SELECT
    on such text. *)
Definition newer_first (a b : tweet_row) : Prop :=
  String.le (tweet_datetime b) (tweet_datetime a).

Global Instance newer_first_dec : RelDecision newer_first.
Proof. intros a b. unfold newer_first. apply _. Defined.

(** [ORDER BY post_datetime DESC]: the sorter keeps the rows with equal
    timestamps in the order of the scan, which is the order of the rowids;
    a row goes behind every row that is at least as new. *)
Fixpoint insert_newer_first (r : tweet_row) (sorted : list tweet_row)
    : list tweet_row :=
  match sorted with
  | [] => [r]
  | x :: rest =>
      if bool_decide (newer_first x r) then x :: insert_newer_first r rest
      else r :: sorted
  end.

Definition order_newer_first (rows : list tweet_row) : list tweet_row :=
  foldl (λ sorted r, insert_newer_first r sorted) [] rows.

(** [SELECT tweet_content, post_datetime, data_summary FROM tweets_log
     WHERE post_datetime >= ? ORDER BY post_datetime DESC] *)
Definition select_since (since : string) (table : list tweet_row)
    : list tweet_row :=
  order_newer_first
    (List.filter (λ r, bool_decide (String.le since (tweet_datetime r)))
                 table).

Definition fetch_since (since : string) : M (list tweet_row) := λ w,
  (Ok (select_since since (tweets_log w)), w).

(** [cursor.execute(SELECT ..., (since,))] then [cursor.fetchall()]; the
    reader's connection sees the committed rows. *)
Definition execute_select (env : Env) (since : string)
    : M (list tweet_row) :=
  emit (SqlSelectSince since);;
  lift (sql_select env);;
  fetch_since since.

Definition str_of_nat (n : nat) : string :=
  NilZero.string_of_uint (Nat.to_uint n).

Definition retrieve_weekly_tweets (env : Env) (state : gmap string sval)
    : M (option (gmap string sval)) :=
  py_print "...Retrieving tweets from last 7 days...";;
  let seven_days_ago := isoformat env (now env - timedelta_days 7) in
  tweets ← execute_select env seven_days_ago;
  let weekly_tweets :=
    (λ r, WeeklyTweet (tweet_content r) (tweet_datetime r) (data_summary r))
      <$> tweets in
  py_print ("Found " +:+ str_of_nat (length weekly_tweets)
            +:+ " tweets from the last 7 days");;
  mret (Some {["weekly_tweets" := SList weekly_tweets]}).

Definition fallback_summary : string :=
  "🌊 This week I've been quietly observing... No major incidents to report, but I'm always here, always watching. #Ocean #WeeklySummary".

Definition summary_prompt (tweets_text : string) : string :=
  "You are the **ocean** and you need to create a weekly summary tweet based on all the tweets you posted in the last 7 days. **Only generate the summary tweet pretending to be the ocean and don't generate anything else.** Keep it concise (under 280 characters), reflective, and use hashtags. Make it feel like a weekly reflection from the ocean's perspective."
  +:+ newline +:+ newline +:+ "Previous tweets this week:" +:+ newline
  +:+ tweets_text.

Definition generate_summary_tweet (env : Env) (state : gmap string sval)
    : M (option (gmap string sval)) :=
  py_print "...Generating weekly summary tweet...";;
  let weekly_tweets := default (SList []) (state !! "weekly_tweets") in
  match weekly_tweets with
  | SNone | SStr "" | SList [] =>
      let summary_tweet := fallback_summary in
      mret (Some {["summary_tweet" := SStr summary_tweet]})
  | SStr _ =>
      (* iterating a string yields characters, which have no key *)
      raise (TypeError "string indices must be integers, not 'str'")
  | SList tweets =>
      let tweets_text :=
        join newline ((λ tweet, "- " +:+ content tweet) <$> tweets) in
      let prompt := summary_prompt tweets_text in
      reply ← llm_call env prompt;
      let summary_tweet := strip reply in
      mret (Some {["summary_tweet" := SStr summary_tweet]})
  end.

Definition post_summary_tweet (env : Env) (state : gmap string sval) : M (option (gmap string sval)) :=
  py_print "...Attempting to post weekly summary tweet...";;
  let tweet_content := default SNone (state !! "summary_tweet") in
  returned ←
    match client env with
    | Some send =>
        if struthy tweet_content then
          try_except
            (create_tweet send (sval_format env tweet_content);;
             py_print ("**SUCCESS:** Weekly summary tweet posted: "
                       +:+ newline +:+ squote
                       +:+ sval_format env tweet_content +:+ squote);;
             mret true)
            (λ e, py_print ("Error posting summary tweet: " +:+ exn_str e);;
                  mret false)
        else mret false
    | None => mret false
    end;
  if returned : bool then mret None
  else
    py_print "Error...no tweet or client connection found to post!";;
    mret None.

Definition summary_graph (env : Env) : StateGraph sval :=
  mkGraph
    [("retrieve_weekly_tweets", retrieve_weekly_tweets env);
     ("generate_summary_tweet", generate_summary_tweet env);
     ("post_summary_tweet", post_summary_tweet env)]
    [(START, "retrieve_weekly_tweets");
     ("retrieve_weekly_tweets", "generate_summary_tweet");
     ("generate_summary_tweet", "post_summary_tweet");
     ("post_summary_tweet", END)].

Definition summary_workflow (env : Env) : gmap string sval → M (gmap string sval) :=
  invoke (summary_graph env).

Definition run_weekly_summary_workflow (env : Env) : M (gmap string sval) :=
  let initial_state : gmap string sval :=
    <["weekly_tweets" := SList []]> (<["summary_tweet" := SNone]> ∅) in
  py_print "--- Starting Weekly Ocean Summary Workflow ---";;
  final_state ← summary_workflow env initial_state;
  py_print "--- Weekly Summary Workflow Finished ---";;
  py_print ("Summary tweet posted: "
            +:+ sval_format env (default (SStr "No summary generated")
                                         (final_state !! "summary_tweet")));;
  mret final_state.

End SummaryAgent.


(** * marine-ai.py: the letter generator *)

Module MarineAi.

Record OrganizationProfile : Type := mkOrganizationProfile {
  name : string;
  target_audience : string;
  tone : string;
  focus_areas : list string;
  call_to_action : string;
  contact_info : string
}.

Record MarineHealthData : Type := mkMarineHealthData {
  current_index : float;
  region : string;
  coordinates : string;
  severity_level : string;
  urgency : string;
  recent_changes : string;
  key_issues : list string
}.

(** A decoded JSON document, as [response.json()] returns it. *)
#[warnings="-register-all"]
Inductive json : Type :=
| JNull
| JBool (b : bool)
| JNum (n : Z)
| JFloat (x : float)
| JStr (s : string)
| JArr (items : list json)
| JObj (fields : list (string * json)).

(** [type(v).__name__] *)
Definition type_name (v : json) : string :=
  match v with
  | JNull => "NoneType"
  | JBool _ => "bool"
  | JNum _ => "int"
  | JFloat _ => "float"
  | JStr _ => "str"
  | JArr _ => "list"
  | JObj _ => "dict"
  end.

(** The message of the [TypeError] a subscript raises on a value that has
    none *)
Definition not_subscriptable (v : json) : string :=
  squote +:+ type_name v +:+ squote +:+ " object is not subscriptable".

Record http_response : Type := mkResponse {
  status_code : Z;
  (** the message [raise_for_status] builds for an error status, such as
      "503 Server Error: Service Unavailable for url: ..." *)
  status_message : string;
  (** what [response.json()] gives: the document, or the decoding error *)
  json_body : result json
}.

(** What the letter generator reads from outside. *)
Record LetterEnv : Type := mkLetterEnv {
  (** [requests.post(url, ...)] for a request with this user text *)
  http_post : string → string → result http_response;
  (** [f"{x:.1f}"] *)
  format_1f : float → string;
  (** [datetime.now().strftime("%B %d, %Y")] *)
  today : string
}.

Definition base_url : string :=
  "https://openrouter.ai/api/v1/chat/completions".

(** [self.organizations], as [__init__] fills it *)
Definition organizations : gmap string OrganizationProfile :=
  <["policy_makers" :=
      mkOrganizationProfile
        "Ocean Policy Institute"
        "Government Officials, Policy Makers, Environmental Agencies"
        "formal, evidence-based, diplomatic"
        ["policy reform"; "international cooperation";
         "regulatory frameworks"; "funding allocation"]
        "implement stronger marine protection policies and increase funding"
        "dheunsac@gmail.com"]>
  (<["industry_leaders" :=
      mkOrganizationProfile
        "Sustainable Marine Industries Coalition"
        "Corporate Leaders, Manufacturing, Shipping, Energy Companies"
        "business-focused, solution-oriented, collaborative"
        ["sustainable practices"; "green technology";
         "corporate responsibility"; "economic benefits"]
        "adopt sustainable practices and invest in clean marine technologies"
        "dheunsac@gmail.com"]>
  (<["communities" :=
      mkOrganizationProfile
        "Coastal Communities Alliance"
        "Local Communities, Volunteers, Community Leaders, Residents"
        "passionate, community-focused, inspiring"
        ["grassroots action"; "local impact"; "community engagement";
         "educational programs"]
        "join local conservation efforts and engage in community marine protection"
        "dheunsac@gmail.com"]> ∅)).

(** [str.lower] and [str.title] on ASCII text ([ascii_text]), where the
    cased characters are the letters A-Z and a-z; the organization table
    and the issues of [get_current_marine_data] are such text. Bytes
    outside ASCII are left as they are. *)
Definition is_upper (c : ascii) : bool :=
  let n := N_of_ascii c in ((65 <=? n) && (n <=? 90))%N.
Definition is_lower (c : ascii) : bool :=
  let n := N_of_ascii c in ((97 <=? n) && (n <=? 122))%N.
Definition to_lower (c : ascii) : ascii :=
  if is_upper c then ascii_of_N (N_of_ascii c + 32) else c.
Definition to_upper (c : ascii) : ascii :=
  if is_lower c then ascii_of_N (N_of_ascii c - 32) else c.

Fixpoint lower (s : string) : string :=
  match s with
  | EmptyString => EmptyString
  | String c s' => String (to_lower c) (lower s')
  end.

Fixpoint title_from (previous_is_cased : bool) (s : string) : string :=
  match s with
  | EmptyString => EmptyString
  | String c s' =>
      if is_lower c then
        String (if previous_is_cased then c else to_upper c)
               (title_from true s')
      else if is_upper c then
        String (if previous_is_cased then to_lower c else c)
               (title_from true s')
      else String c (title_from false s')
  end.

(** [s.title()] *)
Definition title (s : string) : string := title_from false s.

(** [xs[i]] on a list *)
Definition list_index {A} (xs : list A) (i : nat) : M A :=
  match xs !! i with
  | Some x => mret x
  | None => raise (IndexError "list index out of range")
  end.

(** [v[key]] with a string key; the messages are those of CPython 3.11 and
    later *)
Definition subscript_key (v : json) (key : string) : M json :=
  match v with
  | JObj fields =>
      match List.find (λ p, String.eqb (fst p) key) fields with
      | Some (_, x) => mret x
      | None => raise (KeyError key)
      end
  | JArr _ => raise (TypeError "list indices must be integers or slices, not str")
  | JStr _ => raise (TypeError "string indices must be integers, not 'str'")
  | _ => raise (TypeError (not_subscriptable v))
  end.

(** [v[0]] *)
Definition subscript_zero (v : json) : M json :=
  match v with
  | JArr items =>
      match items with
      | x :: _ => mret x
      | [] => raise (IndexError "list index out of range")
      end
  | JStr s =>
      match s with
      | String c _ => mret (JStr (String c EmptyString))
      | EmptyString => raise (IndexError "string index out of range")
      end
  | JObj _ => raise (KeyErrorInt 0)
  | _ => raise (TypeError (not_subscriptable v))
  end.

Definition letter_prompt (lenv : LetterEnv) (org : OrganizationProfile)
    (marine_data : MarineHealthData) : string :=
  newline
  +:+ "Write a professional advocacy letter for marine conservation from "
  +:+ name org +:+ " to " +:+ target_audience org +:+ ". " +:+ newline
  +:+ "Don't use any personal names or positions. After " +:+ dquote
  +:+ "Sincerely yours," +:+ dquote
  +:+ " just write SARgonauts and their email address." +:+ newline
  +:+ newline
  +:+ "CURRENT MARINE HEALTH DATA:" +:+ newline
  +:+ "- SARgonauts Index: " +:+ format_1f lenv (current_index marine_data)
  +:+ "/100" +:+ newline
  +:+ "- Status: " +:+ severity_level marine_data +:+ newline
  +:+ "- Region: " +:+ region marine_data +:+ " ("
  +:+ coordinates marine_data +:+ ")" +:+ newline
  +:+ "- Urgency Level: " +:+ urgency marine_data +:+ newline
  +:+ "- Recent Changes: " +:+ recent_changes marine_data +:+ newline
  +:+ "- Key Issues: " +:+ join ", " (key_issues marine_data) +:+ newline
  +:+ newline
  +:+ "ORGANIZATION PROFILE:" +:+ newline
  +:+ "- Name: " +:+ name org +:+ newline
  +:+ "- Target Audience: " +:+ target_audience org +:+ newline
  +:+ "- Tone: " +:+ tone org +:+ newline
  +:+ "- Focus Areas: " +:+ join ", " (focus_areas org) +:+ newline
  +:+ "- Main Call to Action: " +:+ call_to_action org +:+ newline
  +:+ "- Contact: " +:+ contact_info org +:+ newline
  +:+ newline
  +:+ "Make it compelling, data-driven, professional, 400-600 words. Prepend the current date at the top of the letter programmatically. No need to add the word count here."
  +:+ newline.

(** The text of the fallback template once its three focus areas are
    known. *)
Definition fallback_text (lenv : LetterEnv) (org : OrganizationProfile)
    (marine_data : MarineHealthData) (area0 area1 area2 : string) : string :=
  let date := today lenv in
  newline
  +:+ "Date: " +:+ date +:+ newline
  +:+ name org +:+ newline
  +:+ "Marine Conservation Advocacy Division" +:+ newline
  +:+ newline
  +:+ "Dear " +:+ target_audience org +:+ "," +:+ newline
  +:+ newline
  +:+ "Subject: Urgent Action Required - Marine Health Status Update for "
  +:+ region marine_data +:+ newline
  +:+ newline
  +:+ "Our latest marine health assessment reveals a SARgonauts Index of "
  +:+ format_1f lenv (current_index marine_data) +:+ "/100 for the "
  +:+ region marine_data +:+ " region, indicating "
  +:+ lower (severity_level marine_data) +:+ " conditions." +:+ newline
  +:+ newline
  +:+ "KEY ISSUES:" +:+ newline
  +:+ join newline ((λ issue, "• " +:+ title issue) <$> key_issues marine_data)
  +:+ newline
  +:+ newline
  +:+ "RECOMMENDED IMMEDIATE ACTIONS:" +:+ newline
  +:+ "1. " +:+ title area0 +:+ " - Implement enhanced monitoring systems"
  +:+ newline
  +:+ "2. " +:+ title area1 +:+ " - Increase resource allocation"
  +:+ newline
  +:+ "3. " +:+ title area2 +:+ " - Establish new partnerships" +:+ newline
  +:+ newline
  +:+ "We urge you to " +:+ call_to_action org
  +:+ " within the next 30 days." +:+ newline
  +:+ newline
  +:+ "Sincerely yours," +:+ newline
  +:+ "SARgonauts" +:+ newline
  +:+ contact_info org +:+ newline.

Definition _fallback_letter (lenv : LetterEnv) (org_key : string)
    (marine_data : MarineHealthData) : M string :=
  org ← dict_index organizations org_key;
  area0 ← list_index (focus_areas org) 0;
  area1 ← list_index (focus_areas org) 1;
  area2 ← list_index (focus_areas org) 2;
  mret (fallback_text lenv org marine_data area0 area1 area2).

(** [response.raise_for_status()] *)
Definition raise_for_status (response : http_response) : M unit :=
  if (400 <=? status_code response) && (status_code response <? 600)
  then raise (HTTPError (status_code response) (status_message response))
  else mret tt.

Definition system_content : string :=
  "You are an expert marine conservation advocate and professional letter writer.".

(** The body of the [try] block: the request and the walk through the
    decoded answer. *)
Definition request_letter (lenv : LetterEnv) (prompt_text : string)
    : M json :=
  emit (HttpPost base_url prompt_text);;
  response ← lift (http_post lenv base_url prompt_text);
  raise_for_status response;;
  data ← lift (json_body response);
  choices ← subscript_key data "choices";
  first ← subscript_zero choices;
  message ← subscript_key first "message";
  subscript_key message "content".

Definition generate_letter_with_grok (lenv : LetterEnv) (org_key : string)
    (marine_data : MarineHealthData) : M json :=
  org ← dict_index organizations org_key;
  let prompt_text := letter_prompt lenv org marine_data in
  try_except
    (request_letter lenv prompt_text)
    (λ e,
       py_print ("Error calling OpenRouter API: " +:+ exn_str e);;
       letter ← _fallback_letter lenv org_key marine_data;
       mret (JStr letter)).

End MarineAi.


(** * The pipelines as sequential compositions *)

(** One step of a linear pipeline: the engine enters the node, runs its body
    on the current state and merges the partial update it returns. *)
Definition run_step {V} (name : string)
    (body : gmap string V → M (option (gmap string V)))
    (state : gmap string V) : M (gmap string V) :=
  emit (EnterNode name);;
  upd ← body state;
  mret (merge_update state upd).

Definition pipeline3 {V}
    (n1 : string) (f1 : gmap string V → M (option (gmap string V)))
    (n2 : string) (f2 : gmap string V → M (option (gmap string V)))
    (n3 : string) (f3 : gmap string V → M (option (gmap string V)))
    (state : gmap string V) : M (gmap string V) :=
  s1 ← run_step n1 f1 state;
  s2 ← run_step n2 f2 s1;
  run_step n3 f3 s2.

(** * What each publish and log step records

    The lists and worlds below spell out, case by case on what the
    collaborators answer, what the monadic bodies above compute; each is
    proved equal to its body further down. *)

(** What [post_tweet] records. *)
Definition post_tweet_events (env : Env) (state : gmap string pyval)
    : list event :=
  let tweet_content := dict_get state "tweet" in
  let skipped :=
    [Stdout "Error...no tweet or client connection found to post!"] in
  Stdout "...Attempting to post tweet..." ::
  match client env with
  | Some send =>
      if truthy tweet_content then
        CreateTweet (py_format tweet_content) ::
        match send (py_format tweet_content) with
        | Ok _ =>
            [Stdout ("**SUCCESS:** Tweet content generated and ready to post: "
                     +:+ newline +:+ squote +:+ py_format tweet_content
                     +:+ squote)]
        | Raise e =>
            Stdout ("Error posting tweet: " +:+ exn_str e) :: skipped
        end
      else skipped
  | None => skipped
  end.

(** What [post_summary_tweet] records. *)
Definition post_summary_events (env : Env) (state : gmap string sval)
    : list event :=
  let tweet_content := default SNone (state !! "summary_tweet") in
  let skipped :=
    [Stdout "Error...no tweet or client connection found to post!"] in
  Stdout "...Attempting to post weekly summary tweet..." ::
  match client env with
  | Some send =>
      if struthy tweet_content then
        CreateTweet (sval_format env tweet_content) ::
        match send (sval_format env tweet_content) with
        | Ok _ =>
            [Stdout ("**SUCCESS:** Weekly summary tweet posted: "
                     +:+ newline +:+ squote +:+ sval_format env tweet_content
                     +:+ squote)]
        | Raise e =>
            Stdout ("Error posting summary tweet: " +:+ exn_str e) :: skipped
        end
      else skipped
  | None => skipped
  end.

(** What [post_facebook_node] records. *)
Definition post_facebook_events (env : Env) (state : gmap string pyval)
    : list event :=
  let post_content := dict_get state "post" in
  if truthy post_content then
    PutObject "me" "feed" (py_format post_content) ::
    match poster_put_object env (py_format post_content) with
    | Ok _ =>
        [Stdout ("✅ Posted to Facebook Page:" +:+ newline
                 +:+ py_format post_content)]
    | Raise e => [Stdout ("❌ Error posting to Facebook: " +:+ exn_str e)]
    end
  else [].

(** The context summary [log_tweet] binds to its INSERT. *)
Definition logged_summary (state : gmap string pyval) : pyval :=
  match state !! "data" with
  | Some v => v
  | None => PyStr "No data provided"
  end.

(** The INSERT statement of [log_tweet] and the row it adds. *)
Definition tweet_insert_of (env : Env) (state : gmap string pyval)
    : string * string * pyval :=
  (py_format (dict_get state "tweet"), isoformat env (now env),
   logged_summary state).

Definition logged_tweet_row (env : Env) (state : gmap string pyval)
    (w : World) : tweet_row :=
  TweetRow (next_tweet_id w) (py_format (dict_get state "tweet"))
           (isoformat env (now env)) (logged_summary state).

(** The world [log_tweet] leaves. *)
Definition log_tweet_world (env : Env) (state : gmap string pyval)
    (w : World) : World :=
  if truthy (dict_get state "tweet") then
    let ins := SqlInsertTweet (py_format (dict_get state "tweet"))
                              (isoformat env (now env))
                              (logged_summary state) in
    match sql_insert env with
    | Raise e =>
        add_events w
          [ins; Stdout ("Error logging tweet to database: " +:+ exn_str e)]
    | Ok _ =>
        match sql_commit env with
        | Raise e =>
            mkWorld
              (trace w ++
                 [ins; SqlCommit;
                  Stdout ("Error logging tweet to database: " +:+ exn_str e)])
              (tweets_log w) (tweets_pending w ++ [logged_tweet_row env state w])
              (posts_log w) (posts_pending w)
        | Ok _ =>
            mkWorld
              (trace w ++
                 [ins; SqlCommit;
                  Stdout ("...Tweet successfully logged in "
                          +:+ Agent.DB_NAME +:+ " at "
                          +:+ strftime env "%Y-%m-%d %H:%M:%S" (now env))])
              (tweets_log w ++ tweets_pending w ++ [logged_tweet_row env state w])
              []
              (posts_log w) (posts_pending w)
        end
    end
  else w.

(** The INSERT statement of [log_post] and the row it adds. *)
Definition post_insert_of (env : Env) (state : gmap string pyval)
    : string * string * pyval * pyval :=
  (py_format (dict_get state "post"), isoformat env (now env),
   dict_get state "event", dict_get state "coordinates").

Definition logged_post_row (env : Env) (state : gmap string pyval)
    (w : World) : post_row :=
  PostRow (next_post_id w) (py_format (dict_get state "post"))
          (isoformat env (now env)) (dict_get state "event")
          (dict_get state "coordinates").

(** The world [log_post] leaves. *)
Definition log_post_world (env : Env) (state : gmap string pyval)
    (w : World) : World :=
  if truthy (dict_get state "post") then
    let ins := SqlInsertPost (py_format (dict_get state "post"))
                             (isoformat env (now env))
                             (dict_get state "event")
                             (dict_get state "coordinates") in
    match sql_insert env with
    | Raise e =>
        add_events w [ins; Stdout ("❌ Error logging post: " +:+ exn_str e)]
    | Ok _ =>
        match sql_commit env with
        | Raise e =>
            mkWorld
              (trace w ++
                 [ins; SqlCommit;
                  Stdout ("❌ Error logging post: " +:+ exn_str e)])
              (tweets_log w) (tweets_pending w)
              (posts_log w) (posts_pending w ++ [logged_post_row env state w])
        | Ok _ =>
            mkWorld
              (trace w ++ [ins; SqlCommit])
              (tweets_log w) (tweets_pending w)
              (posts_log w ++ posts_pending w ++ [logged_post_row env state w])
              []
        end
    end
  else w.

(** The same environment with another channel client, or another Facebook
    poster: only the publish boundary differs. *)
Definition with_client (env : Env) (c : option (string → result unit)) : Env :=
  mkEnv (llm_invoke env) c (poster_put_object env) (sql_insert env)
        (sql_commit env) (sql_select env) (now env) (isoformat env)
        (strftime env) (repr_state env) (repr_list env).

Definition with_poster (env : Env) (p : string → result unit) : Env :=
  mkEnv (llm_invoke env) (client env) p (sql_insert env)
        (sql_commit env) (sql_select env) (now env) (isoformat env)
        (strftime env) (repr_state env) (repr_list env).

(** The aggregator's prompt material: one line per retrieved record. *)
Definition tweets_text (tweets : list weekly_tweet) : string :=
  join newline ((λ tweet, "- " +:+ content tweet) <$> tweets).

(** The dictionaries [retrieve_weekly_tweets] builds from the rows. *)
Definition weekly_of_rows (rows : list tweet_row) : list weekly_tweet :=
  (λ r, WeeklyTweet (tweet_content r) (tweet_datetime r) (data_summary r))
    <$> rows.

(** The cutoff the retrieval step computes: now minus seven days. *)
Definition seven_days_ago (env : Env) : string :=
  isoformat env (now env - SummaryAgent.timedelta_days 7).

(** The delivery attempts one call of a publisher makes: one when the client
    is live and the content is truthy, none otherwise. *)
Definition attempts (live_client nonempty : bool) (text : string)
    : list string :=
  if live_client && nonempty then [text] else [].

(** * Concrete scenarios

    Environments and inputs on which the definitions are evaluated. *)

(** Noon of 20 September 2025 and the same hour a week earlier, in
    microseconds, with their ISO renderings. *)
Definition noon : Z := 63893966400000000.

Definition iso_table (t : Z) : string :=
  if t =? noon then "2025-09-20T12:00:00"
  else if t =? noon - SummaryAgent.timedelta_days 7 then "2025-09-13T12:00:00"
  else "1970-01-01T00:00:00".

(** Every collaborator answers. *)
Definition env_all_up : Env :=
  mkEnv (λ _, Ok " The tide is heavy today. #Ocean ")
        (Some (λ _, Ok tt)) (λ _, Ok tt)
        (Ok tt) (Ok tt) (Ok tt)
        noon iso_table (λ _ _, "2025-09-20 12:00:00")
        (λ _, "{...}") (λ _, "[...]").

(** The generation service is out of quota. *)
Definition env_llm_down : Env :=
  mkEnv (λ _, Raise (ExternalError "429 quota exceeded"))
        (Some (λ _, Ok tt)) (λ _, Ok tt)
        (Ok tt) (Ok tt) (Ok tt)
        noon iso_table (λ _ _, "2025-09-20 12:00:00")
        (λ _, "{...}") (λ _, "[...]").

(** The database refuses the INSERT. *)
Definition env_store_down : Env :=
  mkEnv (λ _, Ok " The tide is heavy today. #Ocean ")
        (Some (λ _, Ok tt)) (λ _, Ok tt)
        (Raise (ExternalError "database is locked")) (Ok tt) (Ok tt)
        noon iso_table (λ _ _, "2025-09-20 12:00:00")
        (λ _, "{...}") (λ _, "[...]").

(** The channel rejects every delivery. *)
Definition env_channel_down : Env :=
  mkEnv (λ _, Ok " The tide is heavy today. #Ocean ")
        (Some (λ _, Raise (ExternalError "403 Forbidden")))
        (λ _, Raise (ExternalError "403 Forbidden"))
        (Ok tt) (Ok tt) (Ok tt)
        noon iso_table (λ _ _, "2025-09-20 12:00:00")
        (λ _, "{...}") (λ _, "[...]").

Definition oil_spill : string := "oil spill detected near Chittagong".

(** The state [post_update] starts from when both payload fields are empty
    strings. *)
Definition empty_post_state : gmap string pyval :=
  <["event" := PyStr ""]>
    (<["coordinates" := PyStr ""]> (<["post" := PyNone]> ∅)).

(** A tweet state whose payload is a single blank. *)
Definition blank_data_state : gmap string pyval :=
  <["data" := PyStr " "]> (<["tweet" := PyNone]> ∅).

(** A tweet state that has no ['data'] key at all. *)
Definition no_data_state : gmap string pyval := <["tweet" := PyNone]> ∅.

(** A log table of three rows, the middle one older than a week before
    [noon], and the records the weekly query retrieves from it. *)
Definition three_rows : list tweet_row :=
  [TweetRow 1 "Warm currents today. #Ocean" "2025-09-14T08:30:00.120000"
            (PyStr "sea surface temperature anomaly");
   TweetRow 2 "An old swell." "2025-09-01T10:00:00" PyNone;
   TweetRow 3 "Oil on my skin near Chittagong. #OilSpill"
            "2025-09-19T23:59:59.999999" (PyStr oil_spill)].

Definition three_rows_world : World := mkWorld [] three_rows [] [] [].

Definition two_records : list weekly_tweet :=
  [WeeklyTweet "Oil on my skin near Chittagong. #OilSpill"
               "2025-09-19T23:59:59.999999" (PyStr oil_spill);
   WeeklyTweet "Warm currents today. #Ocean" "2025-09-14T08:30:00.120000"
               (PyStr "sea surface temperature anomaly")].

(** The state the tweet workflow hands to its logging step in the nominal
    scenario. *)
Definition generated_state : gmap string pyval :=
  <["tweet" := PyStr "The tide is heavy today. #Ocean"]>
    (<["data" := PyStr oil_spill]> ∅).

(** Both sinks fail: the channel rejects the delivery and the database
    refuses the INSERT. *)
Definition env_sinks_down : Env :=
  mkEnv (λ _, Ok " The tide is heavy today. #Ocean ")
        (Some (λ _, Raise (ExternalError "403 Forbidden")))
        (λ _, Raise (ExternalError "403 Forbidden"))
        (Raise (ExternalError "database is locked")) (Ok tt) (Ok tt)
        noon iso_table (λ _ _, "2025-09-20 12:00:00")
        (λ _, "{...}") (λ _, "[...]").

(** The state [run_ocean_tweet_workflow] starts from. *)
Definition initial_tweet_state (satellite_data : pyval) : gmap string pyval :=
  <["data" := satellite_data]> (<["tweet" := PyNone]> ∅).

(** Marine data as [get_current_marine_data] may return it, a letter
    environment whose service answers 503, and one whose answer lacks the
    ['choices'] key. *)
Definition bay_of_bengal : MarineAi.MarineHealthData :=
  MarineAi.mkMarineHealthData
    78.5%float "Bay of Bengal" "21.0000° N, 90.0000° E" "Good"
    "MAINTAIN CURRENT EFFORTS"
    "Index changed by +0.1 points in the last 30 days"
    ["microplastic contamination increasing by 12%";
     "coral bleaching events in 34% of monitored reefs";
     "fish population decline in commercial zones"].

Definition lenv_unavailable : MarineAi.LetterEnv :=
  MarineAi.mkLetterEnv
    (λ _ _, Ok (MarineAi.mkResponse
                  503 "503 Server Error: Service Unavailable"
                  (Ok MarineAi.JNull)))
    (λ _, "78.5") "September 20, 2025".

Definition lenv_malformed : MarineAi.LetterEnv :=
  MarineAi.mkLetterEnv
    (λ _ _, Ok (MarineAi.mkResponse
                  200 "" (Ok (MarineAi.JObj
                             [("error", MarineAi.JStr "rate limited")]))))
    (λ _, "78.5") "September 20, 2025".

(** * Further observations on the runs *)

(** What the generation step of the tweet workflow produces for a payload
    that is present in the state: the sentinel for a falsy payload, the
    stripped reply of the service otherwise, or the exception the service
    raises. *)
Definition generated_tweet (env : Env) (data : pyval) : result string :=
  if truthy data then
    match llm_invoke env (Agent.tweet_prompt data) with
    | Ok reply => Ok (strip reply)
    | Raise e => Raise e
    end
  else Ok Agent.no_data_sentinel.

(** What the generation step of the Facebook workflow produces. *)
Definition generated_post (env : Env) (event coordinates : pyval)
    : result string :=
  match llm_invoke env (AgentFb.post_prompt event coordinates) with
  | Ok reply => Ok (strip reply)
  | Raise e => Raise e
  end.

(** [bool(s)] for a string *)
Definition nonempty (s : string) : bool := truthy (PyStr s).

(** The state [post_update] starts from. *)
Definition initial_post_state (event coordinates : pyval)
    : gmap string pyval :=
  <["event" := event]>
    (<["coordinates" := coordinates]> (<["post" := PyNone]> ∅)).

(** The state [run_weekly_summary_workflow] starts from. *)
Definition initial_summary_state : gmap string sval :=
  <["weekly_tweets" := SList []]> (<["summary_tweet" := SNone]> ∅).

(** The records the retrieval step hands on, and what the generation step of
    the aggregator makes of them. *)
Definition retrieved (env : Env) (w : World) : list weekly_tweet :=
  weekly_of_rows
    (SummaryAgent.select_since (seven_days_ago env) (tweets_log w)).

Definition generated_summary (env : Env) (tweets : list weekly_tweet)
    : result string :=
  match tweets with
  | [] => Ok SummaryAgent.fallback_summary
  | _ :: _ =>
      match llm_invoke env (SummaryAgent.summary_prompt (tweets_text tweets))
      with
      | Ok reply => Ok (strip reply)
      | Raise e => Raise e
      end
  end.

(** The requests of a trace, by the user text they carry. *)
Definition http_posts (tr : list event) : list string :=
  omap (λ e, match e with HttpPost _ text => Some text | _ => None end) tr.

(** The SQL statements of a trace, reads apart. *)
Definition sql_writes (tr : list event) : list event :=
  List.filter (λ e, match e with
                    | SqlInsertTweet _ _ _ | SqlInsertPost _ _ _ _
                    | SqlCommit => true
                    | _ => false
                    end) tr.

(** White space only: a blank, U+00A0, U+3000 and a line feed. *)
Definition unicode_blanks : string :=
  " " +:+ bytes [194; 160]%N +:+ bytes [227; 128; 128]%N +:+ newline.

(** The generation service answers with white space only. *)
Definition env_blank_reply : Env :=
  mkEnv (λ _, Ok unicode_blanks)
        (Some (λ _, Ok tt)) (λ _, Ok tt)
        (Ok tt) (Ok tt) (Ok tt)
        noon iso_table (λ _ _, "2025-09-20 12:00:00")
        (λ _, "{...}") (λ _, "[...]").

(** The database refuses the weekly query. *)
Definition env_query_down : Env :=
  mkEnv (λ _, Ok " The tide is heavy today. #Ocean ")
        (Some (λ _, Ok tt)) (λ _, Ok tt)
        (Ok tt) (Ok tt) (Raise (ExternalError "no such table: tweets_log"))
        noon iso_table (λ _ _, "2025-09-20 12:00:00")
        (λ _, "{...}") (λ _, "[...]").

(** [d.get(key)] on the fields of a decoded JSON object *)
Definition field (fields : list (string * MarineAi.json)) (key : string)
    : option MarineAi.json :=
  snd <$> List.find (λ p, String.eqb (fst p) key) fields.

(** A well-formed answer of the letter service carrying [answer] as its
    content, with further fields around it. *)
Definition chat_completion (answer : MarineAi.json) : MarineAi.json :=
  MarineAi.JObj
    [("id", MarineAi.JStr "gen-1");
     ("choices",
      MarineAi.JArr
        [MarineAi.JObj
           [("finish_reason", MarineAi.JStr "stop");
            ("message",
             MarineAi.JObj [("role", MarineAi.JStr "assistant");
                            ("content", answer)])]])].

(** A letter service that answers 200 with a null content, and one that
    answers 500 with a well-formed body. *)
Definition lenv_null_content : MarineAi.LetterEnv :=
  MarineAi.mkLetterEnv
    (λ _ _, Ok (MarineAi.mkResponse
                  200 "" (Ok (chat_completion MarineAi.JNull))))
    (λ _, "78.5") "September 20, 2025".

Definition lenv_error_with_body : MarineAi.LetterEnv :=
  MarineAi.mkLetterEnv
    (λ _ _, Ok (MarineAi.mkResponse
                  500 "500 Server Error: Internal Server Error"
                  (Ok (chat_completion (MarineAi.JStr "Dear all, ...")))))
    (λ _, "78.5") "September 20, 2025".


(** A letter service whose answer has an object where the list of choices
    should be, and one whose answer is the document null. *)
Definition lenv_choices_object : MarineAi.LetterEnv :=
  MarineAi.mkLetterEnv
    (λ _ _, Ok (MarineAi.mkResponse
                  200 ""
                  (Ok (MarineAi.JObj
                         [("choices",
                           MarineAi.JObj
                             [("message", MarineAi.JStr "...")])]))))
    (λ _, "78.5") "September 20, 2025".

Definition lenv_null_document : MarineAi.LetterEnv :=
  MarineAi.mkLetterEnv
    (λ _ _, Ok (MarineAi.mkResponse 200 "" (Ok MarineAi.JNull)))
    (λ _, "78.5") "September 20, 2025".

(** Rows logged within one second, with equal timestamps. *)
Definition same_second_rows : list tweet_row :=
  [TweetRow 1 "first" "2025-09-20T12:00:00" PyNone;
   TweetRow 2 "second" "2025-09-20T12:00:00" PyNone;
   TweetRow 3 "later" "2025-09-20T12:00:01" PyNone;
   TweetRow 4 "third" "2025-09-20T12:00:00" PyNone].
(** * The letter batch: the marine data, the loop over the organizations,
    the daily report and the entry point of marine-ai.py *)

Module MarineBatch.

(** What a batch does to the file system and the clock, in order: every
    call is recorded, also one that raises. *)
Inductive file_event : Type :=
| Makedirs (path : string)
| OpenWrite (path : string) (content : string)
| Sleep (seconds : Z).

(** The world of a batch: the console and the requests as before, and the
    file actions. *)
Record Host : Type := mkHost {
  world : World;
  files : list file_event
}.

Definition empty_host : Host := mkHost empty_world [].

(** What the batch reads from outside. The service and the clock may answer
    differently from one organization to the next, the file system
    differently after every action. *)
Record HostEnv : Type := mkHostEnv {
  (** [os.getenv("OPENROUTER_API_KEY")] *)
  getenv_api_key : option string;
  (** [requests.post] with the headers built from this API key, while the
      letter of this organization is written *)
  http_post : string → string → string → string
              → result MarineAi.http_response;
  (** [f"{x:.1f}"] and [f"{x:+.1f}"] *)
  format_1f : float → string;
  format_signed_1f : float → string;
  (** [random.uniform(-5, 5)] and [random.sample(issues, 3)] *)
  uniform : float;
  sample3 : list string → list string;
  (** [datetime.now().strftime("%B %d, %Y")] inside the fallback template
      and in the loop, and [datetime.now().strftime('%Y%m%d_%H%M%S')], for
      the letter of this organization *)
  fallback_date : string → string;
  letter_date : string → string;
  file_stamp : string → string;
  (** [datetime.now().strftime("%Y-%m-%d")] and [datetime.now().isoformat()]
      of the report *)
  report_date : string;
  report_isoformat : string;
  (** [os.makedirs(path, exist_ok=True)], and [open(path, 'w')] followed by
      the write of the content, after these file actions *)
  fs_makedirs : list file_event → string → result unit;
  fs_write : list file_event → string → string → result unit;
  (** [format(v)] of a decoded value that is neither a string, a boolean
      nor null *)
  json_repr : MarineAi.json → string;
  (** what [json.dump(report, f, indent=2, ensure_ascii=False)] writes for
      this generation date and these letters *)
  json_dump : string → gmap string string → string
}.

Definition MH (A : Type) : Type := Host → result A * Host.

Global Instance MH_ret : MRet MH := λ A a h, (Ok a, h).
Global Instance MH_bind : MBind MH := λ A B f m h,
  match m h with
  | (Ok a, h') => f a h'
  | (Raise e, h') => (Raise e, h')
  end.

(** A computation of the letter generator, run inside a batch *)
Definition in_world {A} (m : M A) : MH A := λ h,
  match m (world h) with
  | (r, w) => (r, mkHost w (files h))
  end.

Definition hprint (line : string) : MH unit := in_world (py_print line).

Definition os_makedirs (env : HostEnv) (path : string) : MH unit := λ h,
  (fs_makedirs env (files h) path,
   mkHost (world h) (files h ++ [Makedirs path])).

(** [with open(path, 'w', encoding='utf-8') as f: f.write(content)] *)
Definition write_text (env : HostEnv) (path content : string) : MH unit :=
  λ h,
  (fs_write env (files h) path content,
   mkHost (world h) (files h ++ [OpenWrite path content])).

Definition time_sleep (seconds : Z) : MH unit := λ h,
  (Ok tt, mkHost (world h) (files h ++ [Sleep seconds])).

(** 78.4 as a double *)
Definition base_index : float := 0x1.399999999999ap+6%float.

(** [min(100, x)] and [max(0, x)]: the builtin keeps its first argument
    unless the second compares strictly better. *)
Definition min_100 (x : float) : float :=
  if (x <? 100)%float then x else 100%float.
Definition max_0 (x : float) : float :=
  if (0 <? x)%float then x else 0%float.

Definition severity_and_urgency (current_index : float) : string * string :=
  if (80 <=? current_index)%float then
    ("Excellent", "CONTINUE EXCELLENT PRACTICES")
  else if (60 <=? current_index)%float then
    ("Good", "MAINTAIN CURRENT EFFORTS")
  else if (40 <=? current_index)%float then
    ("Fair", "IMPROVEMENT NEEDED")
  else if (20 <=? current_index)%float then
    ("Poor", "URGENT ACTION REQUIRED")
  else ("Critical", "IMMEDIATE INTERVENTION").

Definition issues : list string :=
  ["microplastic contamination increasing by 12%";
   "coral bleaching events in 34% of monitored reefs";
   "fish population decline in commercial zones";
   "coastal water quality improvements in urban areas";
   "successful marine protected area expansions";
   "renewable energy adoption in shipping industry"].

Definition get_current_marine_data (env : HostEnv)
    : MarineAi.MarineHealthData :=
  let variation := uniform env in
  let current_index := max_0 (min_100 (base_index + variation)%float) in
  let sev := severity_and_urgency current_index in
  MarineAi.mkMarineHealthData
    current_index "Bay of Bengal" "21.0000° N, 90.0000° E"
    (fst sev) (snd sev)
    ("Index changed by " +:+ format_signed_1f env variation
     +:+ " points in the last 30 days")
    (sample3 env issues).

(** The keys of [self.organizations] in the order [__init__] inserts them,
    which is the order [items()] yields them in. *)
Definition organization_keys : list string :=
  ["policy_makers"; "industry_leaders"; "communities"].

Definition organization_items
    : list (string * MarineAi.OrganizationProfile) :=
  omap (λ key, (λ org, (key, org)) <$> MarineAi.organizations !! key)
       organization_keys.

(** What the letter generator reads while the letter of one organization
    is written. *)
Definition lenv_of (env : HostEnv) (api_key org_key : string)
    : MarineAi.LetterEnv :=
  MarineAi.mkLetterEnv (http_post env api_key org_key) (format_1f env)
                       (fallback_date env org_key).

(** [f"{letter}"] *)
Definition letter_str (env : HostEnv) (letter : MarineAi.json) : string :=
  match letter with
  | MarineAi.JStr s => s
  | MarineAi.JNull => "None"
  | MarineAi.JBool true => "True"
  | MarineAi.JBool false => "False"
  | _ => json_repr env letter
  end.

Definition dated_letter (env : HostEnv) (org_key : string)
    (letter : MarineAi.json) : string :=
  "Date: " +:+ letter_date env org_key +:+ newline +:+ newline
  +:+ letter_str env letter.

Definition letter_filename (env : HostEnv) (org_key : string) : string :=
  "output/letter_" +:+ org_key +:+ "_" +:+ file_stamp env org_key
  +:+ ".txt".

(** One round of the loop of [generate_all_letters] *)
Definition letter_round (env : HostEnv) (api_key : string)
    (marine_data : MarineAi.MarineHealthData)
    (letters : gmap string string)
    (item : string * MarineAi.OrganizationProfile)
    : MH (gmap string string) :=
  let org_key := fst item in
  let org := snd item in
  hprint ("Generating letter for " +:+ MarineAi.name org +:+ "...");;
  letter ← in_world (MarineAi.generate_letter_with_grok
                       (lenv_of env api_key org_key) org_key marine_data);
  let letter := dated_letter env org_key letter in
  let letters := <[org_key := letter]> letters in
  let filename := letter_filename env org_key in
  write_text env filename letter;;
  hprint ("   Saved to " +:+ filename);;
  time_sleep 1;;
  mret letters.

(** [for x in items: s = body(s, x)] *)
Fixpoint for_each {A S : Type} (body : S → A → MH S) (s : S)
    (items : list A) : MH S :=
  match items with
  | [] => mret s
  | x :: rest => s' ← body s x; for_each body s' rest
  end.

Definition generate_all_letters (env : HostEnv) (api_key : string)
    : MH (gmap string string) :=
  let marine_data := get_current_marine_data env in
  hprint "Current Marine Health Data:";;
  hprint ("   Index: "
          +:+ format_1f env (MarineAi.current_index marine_data)
          +:+ "/100 (" +:+ MarineAi.severity_level marine_data +:+ ")");;
  hprint ("   Region: " +:+ MarineAi.region marine_data);;
  hprint ("   Status: " +:+ MarineAi.urgency marine_data);;
  hprint ("   Recent: " +:+ MarineAi.recent_changes marine_data);;
  hprint EmptyString;;
  os_makedirs env "output";;
  for_each (letter_round env api_key marine_data) ∅ organization_items.

Definition report_filename (env : HostEnv) : string :=
  "output/daily_report_" +:+ report_date env +:+ ".json".

Definition save_daily_report (env : HostEnv) (letters : gmap string string)
    : MH unit :=
  os_makedirs env "output";;
  write_text env (report_filename env)
             (json_dump env (report_isoformat env) letters);;
  hprint ("Daily report saved to " +:+ report_filename env).

(** ["=" * 50] *)
Definition rule : string :=
  "==================================================".

Definition main (env : HostEnv) : MH unit :=
  hprint "Marine Health AI Letter Generator Starting...";;
  hprint rule;;
  let api_key := getenv_api_key env in
  if negb (truthy (from_option PyStr PyNone api_key)) then
    hprint "Error: OPENROUTER_API_KEY not found in .env"
  else
    letters ← generate_all_letters env (default EmptyString api_key);
    save_daily_report env letters;;
    hprint "All letters generated successfully!";;
    hprint "Check the 'output' folder for generated files";;
    hprint rule.

End MarineBatch.

(** The paths and contents the batch tried to write, in order. *)
Definition written (fs : list MarineBatch.file_event)
    : list (string * string) :=
  omap (λ ev, match ev with
              | MarineBatch.OpenWrite path content => Some (path, content)
              | _ => None
              end) fs.

(** The three requests of a batch, by their user text. *)
Definition batch_prompts (env : MarineBatch.HostEnv) (api_key : string)
    : list string :=
  (λ item, MarineAi.letter_prompt
             (MarineBatch.lenv_of env api_key (fst item)) (snd item)
             (MarineBatch.get_current_marine_data env))
    <$> MarineBatch.organization_items.

(** The console lines [generate_all_letters] opens with. *)
Definition batch_header (env : MarineBatch.HostEnv) : list event :=
  let marine_data := MarineBatch.get_current_marine_data env in
  [Stdout "Current Marine Health Data:";
   Stdout ("   Index: "
           +:+ MarineBatch.format_1f
                 env (MarineAi.current_index marine_data)
           +:+ "/100 (" +:+ MarineAi.severity_level marine_data +:+ ")");
   Stdout ("   Region: " +:+ MarineAi.region marine_data);
   Stdout ("   Status: " +:+ MarineAi.urgency marine_data);
   Stdout ("   Recent: " +:+ MarineAi.recent_changes marine_data);
   Stdout EmptyString].

(** The console line and the request that open one round of the loop,
    with what the letter generator records after its request. *)
Definition round_events (env : MarineBatch.HostEnv) (api_key : string)
    (item : string * MarineAi.OrganizationProfile) (evs : list event)
    : list event :=
  [Stdout ("Generating letter for " +:+ MarineAi.name (snd item) +:+ "...");
   HttpPost MarineAi.base_url
            (MarineAi.letter_prompt
               (MarineBatch.lenv_of env api_key (fst item)) (snd item)
               (MarineBatch.get_current_marine_data env))]
  ++ evs.

(** What the letter generator returns for an organization, read off a run
    from the empty world. *)
Definition letter_answer (env : MarineBatch.HostEnv)
    (api_key org_key : string) : result MarineAi.json :=
  fst (MarineAi.generate_letter_with_grok
         (MarineBatch.lenv_of env api_key org_key) org_key
         (MarineBatch.get_current_marine_data env) empty_world).

(** A request that ends in the [except] branch at once: the call raised,
    or the answer carries an error status. *)
Definition request_fails (r : result MarineAi.http_response) : bool :=
  match r with
  | Raise _ => true
  | Ok resp => (400 <=? MarineAi.status_code resp)
               && (MarineAi.status_code resp <? 600)
  end.

(** The letters of a batch by organization, and the files they go to. *)
Definition batch_letters_of (env : MarineBatch.HostEnv)
    (bodies : list MarineAi.json) : list string :=
  zip_with (MarineBatch.dated_letter env) MarineBatch.organization_keys
           bodies.

Definition letter_files (env : MarineBatch.HostEnv)
    (bodies : list MarineAi.json) : list (string * string) :=
  zip (MarineBatch.letter_filename env <$> MarineBatch.organization_keys)
      (batch_letters_of env bodies).

(** A host whose file system never refuses, behind a service that answers
    503, and the same host with a disk that is full from the second file
    on. *)
Definition host_service_down : MarineBatch.HostEnv :=
  MarineBatch.mkHostEnv
    (Some "sk-or-v1-0000")
    (λ _ _ _ _, Ok (MarineAi.mkResponse
                      503 "503 Server Error: Service Unavailable"
                      (Ok MarineAi.JNull)))
    (λ _, "78.5") (λ _, "+0.1") 0.5%float (take 3)
    (λ _, "September 20, 2025") (λ _, "September 20, 2025")
    (λ _, "20250920_120000")
    "2025-09-20" "2025-09-20T12:00:03.000000"
    (λ _ _, Ok tt) (λ _ _ _, Ok tt)
    (λ _, "...") (λ _ _, "{...}").

Definition host_disk_full : MarineBatch.HostEnv :=
  MarineBatch.mkHostEnv
    (Some "sk-or-v1-0000")
    (λ _ _ _ _, Ok (MarineAi.mkResponse
                      503 "503 Server Error: Service Unavailable"
                      (Ok MarineAi.JNull)))
    (λ _, "78.5") (λ _, "+0.1") 0.5%float (take 3)
    (λ _, "September 20, 2025") (λ _, "September 20, 2025")
    (λ _, "20250920_120000")
    "2025-09-20" "2025-09-20T12:00:03.000000"
    (λ _ _, Ok tt)
    (λ hist _ _, if (length (written hist) <? 1)%nat then Ok tt
                 else Raise (ExternalError
                               "[Errno 28] No space left on device"))
    (λ _, "...") (λ _ _, "{...}").

Definition host_no_key : MarineBatch.HostEnv :=
  MarineBatch.mkHostEnv
    None
    (λ _ _ _ _, Ok (MarineAi.mkResponse 200 "" (Ok MarineAi.JNull)))
    (λ _, "78.5") (λ _, "+0.1") 0.5%float (take 3)
    (λ _, "September 20, 2025") (λ _, "September 20, 2025")
    (λ _, "20250920_120000")
    "2025-09-20" "2025-09-20T12:00:03.000000"
    (λ _ _, Ok tt) (λ _ _ _, Ok tt)
    (λ _, "...") (λ _ _, "{...}").
(** * The definitions on concrete inputs *)

Example strip_trims_both_ends : strip " The tide. #Ocean  " = "The tide. #Ocean".
Proof. reflexivity. Qed.

Example strip_removes_unicode_white_space :
  strip (bytes [194; 160]%N +:+ " The tide. #Ocean" +:+ bytes [227; 128; 128]%N
         +:+ newline)
  = "The tide. #Ocean"
  ∧ strip unicode_blanks = "".
Proof. split; reflexivity. Qed.

Example strip_keeps_inner_white_space :
  strip ("high" +:+ bytes [194; 160]%N +:+ "tide ") =
  "high" +:+ bytes [194; 160]%N +:+ "tide".
Proof. reflexivity. Qed.

Example key_error_is_printed_as_repr :
  exn_str (KeyError "choices") = "'choices'"
  ∧ exn_str (KeyError "it's") = dquote +:+ "it's" +:+ dquote
  ∧ exn_str (KeyErrorInt 0) = "0".
Proof. repeat split. Qed.

Example equal_timestamps_keep_rowid_order :
  tweet_content <$> SummaryAgent.select_since "2025-09-20T00:00:00"
                                              same_second_rows
  = ["later"; "first"; "second"; "third"].
Proof. reflexivity. Qed.

Example letter_falls_back_on_object_of_choices :
  printed (trace (snd (MarineAi.generate_letter_with_grok
                         lenv_choices_object "policy_makers" bay_of_bengal
                         empty_world)))
  = ["Error calling OpenRouter API: 0"].
Proof. by vm_compute. Qed.

Example letter_falls_back_on_null_document :
  printed (trace (snd (MarineAi.generate_letter_with_grok
                         lenv_null_document "policy_makers" bay_of_bengal
                         empty_world)))
  = ["Error calling OpenRouter API: 'NoneType' object is not subscriptable"].
Proof. by vm_compute. Qed.

Example title_capitalises_words :
  MarineAi.title "coral bleaching events in 34% of monitored reefs"
  = "Coral Bleaching Events In 34% Of Monitored Reefs".
Proof. reflexivity. Qed.

Example nominal_run_logs_one_row :
  let run := Agent.run_ocean_tweet_workflow env_all_up (PyStr oil_spill)
                                            empty_world in
  entered (trace (snd run)) = ["generate_tweet"; "post_tweet"; "log_tweet"]
  ∧ tweets_sent (trace (snd run)) = ["The tide is heavy today. #Ocean"]
  ∧ tweets_log (snd run) =
      [TweetRow 1 "The tide is heavy today. #Ocean" "2025-09-20T12:00:00"
                (PyStr oil_spill)].
Proof. cbv zeta. repeat split; by vm_compute. Qed.

Example empty_payload_logs_the_sentinel :
  let run := Agent.run_ocean_tweet_workflow env_all_up (PyStr "")
                                            empty_world in
  llm_prompts (trace (snd run)) = []
  ∧ tweets_sent (trace (snd run)) = ["Error: No data to generate tweet."]
  ∧ tweets_log (snd run) =
      [TweetRow 1 "Error: No data to generate tweet." "2025-09-20T12:00:00"
                (PyStr "")].
Proof. cbv zeta. repeat split; by vm_compute. Qed.

Example rejected_delivery_is_printed_and_logged :
  let run := Agent.run_ocean_tweet_workflow env_channel_down (PyStr oil_spill)
                                            empty_world in
  printed (trace (snd run)) =
    ["--- Starting Ocean Tweet Workflow ---";
     "...Generating tweet...";
     "...Attempting to post tweet...";
     "Error posting tweet: 403 Forbidden";
     "Error...no tweet or client connection found to post!";
     "...Tweet successfully logged in ocean_tweets.db at 2025-09-20 12:00:00";
     "--- Workflow Finished ---";
     "Final State: {...}";
     "Check 'ocean_tweets.db' for the logged entry."]
  ∧ length (tweets_log (snd run)) = 1%nat.
Proof. cbv zeta. split; by vm_compute. Qed.

Example facebook_run_logs_one_row :
  let run := AgentFb.post_update
               env_all_up (PyStr "Plastic waste accumulation detected")
               (PyStr "15.30°S, 125.70°E") empty_world in
  posts_sent (trace (snd run)) = ["The tide is heavy today. #Ocean"]
  ∧ posts_log (snd run) =
      [PostRow 1 "The tide is heavy today. #Ocean" "2025-09-20T12:00:00"
               (PyStr "Plastic waste accumulation detected")
               (PyStr "15.30°S, 125.70°E")].
Proof. cbv zeta. split; by vm_compute. Qed.

Example weekly_query_on_three_rows :
  SummaryAgent.select_since "2025-09-13T12:00:00" three_rows
  = [TweetRow 3 "Oil on my skin near Chittagong. #OilSpill"
              "2025-09-19T23:59:59.999999" (PyStr oil_spill);
     TweetRow 1 "Warm currents today. #Ocean" "2025-09-14T08:30:00.120000"
              (PyStr "sea surface temperature anomaly")].
Proof. by vm_compute. Qed.

Example weekly_run_on_empty_store_posts_the_fallback :
  let run := SummaryAgent.run_weekly_summary_workflow env_all_up empty_world in
  llm_prompts (trace (snd run)) = []
  ∧ tweets_sent (trace (snd run)) = [SummaryAgent.fallback_summary]
  ∧ entered (trace (snd run)) =
      ["retrieve_weekly_tweets"; "generate_summary_tweet";
       "post_summary_tweet"].
Proof. cbv zeta. repeat split; by vm_compute. Qed.

Example weekly_run_on_three_rows_retrieves_two :
  weekly_of_rows
    (SummaryAgent.select_since (seven_days_ago env_all_up) three_rows)
  = two_records.
Proof. by vm_compute. Qed.

Example letter_falls_back_on_malformed_answer :
  ∃ letter,
    MarineAi.generate_letter_with_grok lenv_malformed "policy_makers"
                                       bay_of_bengal empty_world
    = (Ok (MarineAi.JStr letter),
       mkWorld
         [HttpPost MarineAi.base_url
                   (MarineAi.letter_prompt
                      lenv_malformed
                      (MarineAi.mkOrganizationProfile
                         "Ocean Policy Institute"
                         "Government Officials, Policy Makers, Environmental Agencies"
                         "formal, evidence-based, diplomatic"
                         ["policy reform"; "international cooperation";
                          "regulatory frameworks"; "funding allocation"]
                         "implement stronger marine protection policies and increase funding"
                         "dheunsac@gmail.com")
                      bay_of_bengal);
          Stdout "Error calling OpenRouter API: 'choices'"]
         [] [] [] []).
Proof. eexists. by vm_compute. Qed.

Example letter_for_unknown_organization_raises :
  fst (MarineAi.generate_letter_with_grok lenv_unavailable "fishermen"
                                          bay_of_bengal empty_world)
  = Raise (KeyError "fishermen").
Proof. by vm_compute. Qed.

(** * Basic facts *)

Lemma entered_app (t1 t2 : list event) :
  entered (t1 ++ t2) = entered t1 ++ entered t2.
Proof. unfold entered. apply omap_app. Qed.

Lemma llm_prompts_app (t1 t2 : list event) :
  llm_prompts (t1 ++ t2) = llm_prompts t1 ++ llm_prompts t2.
Proof. unfold llm_prompts. apply omap_app. Qed.

Lemma tweets_sent_app (t1 t2 : list event) :
  tweets_sent (t1 ++ t2) = tweets_sent t1 ++ tweets_sent t2.
Proof. unfold tweets_sent. apply omap_app. Qed.

Lemma posts_sent_app (t1 t2 : list event) :
  posts_sent (t1 ++ t2) = posts_sent t1 ++ posts_sent t2.
Proof. unfold posts_sent. apply omap_app. Qed.

Lemma tweet_inserts_app (t1 t2 : list event) :
  tweet_inserts (t1 ++ t2) = tweet_inserts t1 ++ tweet_inserts t2.
Proof. unfold tweet_inserts. apply omap_app. Qed.

Lemma post_inserts_app (t1 t2 : list event) :
  post_inserts (t1 ++ t2) = post_inserts t1 ++ post_inserts t2.
Proof. unfold post_inserts. apply omap_app. Qed.

Lemma printed_app (t1 t2 : list event) :
  printed (t1 ++ t2) = printed t1 ++ printed t2.
Proof. unfold printed. apply omap_app. Qed.

Create Rewrite HintDb trace_proj.
#[export] Hint Rewrite entered_app llm_prompts_app tweets_sent_app
  posts_sent_app tweet_inserts_app post_inserts_app printed_app
  : trace_proj.

(** Unfold the monad down to functions on worlds. *)
Ltac run_monad :=
  unfold run_step, llm_call, create_tweet, AgentFb.put_object, py_print,
    dict_index, raise, lift, emit, try_except, mbind, mret, M_bind, M_ret;
  cbn [fst snd].

Lemma add_events_nil (w : World) : add_events w [] = w.
Proof. destruct w. unfold add_events. cbn. by rewrite app_nil_r. Qed.

Lemma add_events_add_events (w : World) (evs1 evs2 : list event) :
  add_events (add_events w evs1) evs2 = add_events w (evs1 ++ evs2).
Proof. unfold add_events. cbn. by rewrite app_assoc. Qed.

(** Normalise the projections of a trace that grew by a few events. *)
Ltac trace_simpl :=
  unfold add_events;
  cbn [fst snd trace tweets_log tweets_pending posts_log posts_pending];
  autorewrite with trace_proj;
  cbn [entered llm_prompts tweets_sent posts_sent tweet_inserts post_inserts
       printed omap list_omap app];
  rewrite ?app_nil_r, <- ?app_assoc;
  cbn [app].

(** Two worlds built from the same one by recording the same actions. *)
Ltac same_world :=
  rewrite ?add_events_add_events; cbn [app]; reflexivity.

(** The compiled tweet graph is the composition of its three nodes. *)
Lemma agent_workflow_linear (env : Env) (state : gmap string pyval) (w : World) :
  Agent.workflow env state w =
  pipeline3 "generate_tweet" (Agent.generate_tweet env)
            "post_tweet" (Agent.post_tweet env)
            "log_tweet" (Agent.log_tweet env) state w.
Proof.
  unfold Agent.workflow, invoke, Agent.graph, pipeline3.
  generalize (Agent.generate_tweet env) (Agent.post_tweet env)
    (Agent.log_tweet env).
  intros f1 f2 f3. cbn. run_monad.
  destruct (f1 state _) as [[u1|e1] w1]; [|reflexivity]. cbn.
  destruct (f2 _ _) as [[u2|e2] w2]; [|reflexivity]. cbn.
  destruct (f3 _ _) as [[u3|e3] w3]; reflexivity.
Qed.

(** The compiled Facebook graph is the composition of its three nodes. *)
Lemma fb_workflow_linear (env : Env) (state : gmap string pyval) (w : World) :
  AgentFb.workflow env state w =
  pipeline3 "generate_post" (AgentFb.generate_post env)
            "post_facebook" (AgentFb.post_facebook_node env)
            "log_post" (AgentFb.log_post env) state w.
Proof.
  unfold AgentFb.workflow, invoke, AgentFb.graph, pipeline3.
  generalize (AgentFb.generate_post env) (AgentFb.post_facebook_node env)
    (AgentFb.log_post env).
  intros f1 f2 f3. cbn. run_monad.
  destruct (f1 state _) as [[u1|e1] w1]; [|reflexivity]. cbn.
  destruct (f2 _ _) as [[u2|e2] w2]; [|reflexivity]. cbn.
  destruct (f3 _ _) as [[u3|e3] w3]; reflexivity.
Qed.

(** The compiled aggregator graph is the composition of its three nodes. *)
Lemma summary_workflow_linear (env : Env) (state : gmap string sval)
    (w : World) :
  SummaryAgent.summary_workflow env state w =
  pipeline3 "retrieve_weekly_tweets" (SummaryAgent.retrieve_weekly_tweets env)
            "generate_summary_tweet" (SummaryAgent.generate_summary_tweet env)
            "post_summary_tweet" (SummaryAgent.post_summary_tweet env) state w.
Proof.
  unfold SummaryAgent.summary_workflow, invoke, SummaryAgent.summary_graph,
    pipeline3.
  generalize (SummaryAgent.retrieve_weekly_tweets env)
    (SummaryAgent.generate_summary_tweet env)
    (SummaryAgent.post_summary_tweet env).
  intros f1 f2 f3. cbn. run_monad.
  destruct (f1 state _) as [[u1|e1] w1]; [|reflexivity]. cbn.
  destruct (f2 _ _) as [[u2|e2] w2]; [|reflexivity]. cbn.
  destruct (f3 _ _) as [[u3|e3] w3]; reflexivity.
Qed.

(** ** Strings and containment *)

Lemma string_app_cons (c : ascii) (s t : string) :
  String c s +:+ t = String c (s +:+ t).
Proof. reflexivity. Qed.

Lemma string_app_nil_l (s : string) : "" +:+ s = s.
Proof. reflexivity. Qed.

Lemma string_app_nil_r (s : string) : s +:+ "" = s.
Proof.
  induction s as [|c s IH]; [reflexivity|].
  by rewrite string_app_cons, IH.
Qed.

Lemma string_app_assoc (s t u : string) : (s +:+ t) +:+ u = s +:+ t +:+ u.
Proof.
  induction s as [|c s IH]; [reflexivity|].
  by rewrite !string_app_cons, IH.
Qed.

Lemma contains_refl (s : string) : contains s s.
Proof. exists "", "". by rewrite string_app_nil_l, string_app_nil_r. Qed.

Lemma contains_trans (s t u : string) :
  contains s t → contains t u → contains s u.
Proof.
  intros (p1 & q1 & ->) (p2 & q2 & ->).
  exists (p1 +:+ p2), (q2 +:+ q1). by rewrite !string_app_assoc.
Qed.

Lemma contains_app_l (p s t : string) : contains s t → contains (p +:+ s) t.
Proof.
  intros (p1 & q1 & ->). exists (p +:+ p1), q1. by rewrite !string_app_assoc.
Qed.

Lemma contains_app_r (q s t : string) : contains s t → contains (s +:+ q) t.
Proof.
  intros (p1 & q1 & ->). exists p1, (q1 +:+ q). by rewrite !string_app_assoc.
Qed.

Lemma join_cons (sep x : string) (xs : list string) :
  join sep (x :: xs) =
  match xs with [] => x | _ :: _ => x +:+ sep +:+ join sep xs end.
Proof. reflexivity. Qed.

(** Every part is a piece of the joined string. *)
Lemma join_contains (sep : string) (parts : list string) (x : string) :
  x ∈ parts → contains (join sep parts) x.
Proof.
  induction parts as [|y ys IH]; [by intros ?%elem_of_nil|].
  intros Hin. rewrite join_cons. apply elem_of_cons in Hin as [->|Hin].
  - destruct ys; [apply contains_refl|apply contains_app_r, contains_refl].
  - destruct ys as [|z zs]; [by apply elem_of_nil in Hin|].
    apply contains_app_l, contains_app_l, IH, Hin.
Qed.

Lemma app_singleton_neq {A} (l : list A) (x : A) : l ++ [x] ≠ l.
Proof.
  intros H. apply (f_equal length) in H. rewrite length_app in H. cbn in H. lia.
Qed.

Lemma truthy_false_iff (v : pyval) :
  truthy v = false ↔ v = PyNone ∨ v = PyStr "".
Proof.
  destruct v as [|[|c s]]; cbn; split; intros H; auto;
    try discriminate; destruct H; discriminate.
Qed.

Lemma trace_add_events (w : World) (evs : list event) :
  trace (add_events w evs) = trace w ++ evs.
Proof. reflexivity. Qed.

Lemma llm_prompts_enter (n : string) (evs : list event) :
  llm_prompts (EnterNode n :: evs) = llm_prompts evs.
Proof. reflexivity. Qed.

Lemma entered_enter (n : string) (evs : list event) :
  entered (EnterNode n :: evs) = n :: entered evs.
Proof. reflexivity. Qed.

(** ** The steps of the tweet workflow, case by case *)

Section AgentSteps.
Variable env : Env.
Variable state : gmap string pyval.
Variable w : World.

Lemma generate_tweet_missing :
  state !! "data" = None →
  Agent.generate_tweet env state w =
  (Raise (KeyError "data"), add_events w [Stdout "...Generating tweet..."]).
Proof.
  intros Hdata. unfold Agent.generate_tweet. run_monad.
  rewrite Hdata. reflexivity.
Qed.

Lemma generate_tweet_falsy (v : pyval) :
  state !! "data" = Some v → truthy v = false →
  Agent.generate_tweet env state w =
  (Ok (Some {["tweet" := PyStr Agent.no_data_sentinel]}),
   add_events w [Stdout "...Generating tweet..."]).
Proof.
  intros Hdata Hv. unfold Agent.generate_tweet, dict_get. run_monad.
  rewrite Hdata. cbn. rewrite Hv. reflexivity.
Qed.

Lemma generate_tweet_truthy (v : pyval) :
  state !! "data" = Some v → truthy v = true →
  Agent.generate_tweet env state w =
  (match llm_invoke env (Agent.tweet_prompt v) with
   | Ok reply => Ok (Some {["tweet" := PyStr (strip reply)]})
   | Raise e => Raise e
   end,
   add_events w [Stdout "...Generating tweet...";
                 LlmInvoke (Agent.tweet_prompt v)]).
Proof.
  intros Hdata Hv. unfold Agent.generate_tweet, dict_get. run_monad.
  rewrite Hdata. cbn. rewrite Hv. cbn.
  destruct (llm_invoke env _); cbn; f_equal; same_world.
Qed.

Lemma post_tweet_run :
  Agent.post_tweet env state w =
  (Ok None, add_events w (post_tweet_events env state)).
Proof.
  unfold Agent.post_tweet, post_tweet_events. run_monad.
  destruct (client env) as [send|]; cbn;
    [destruct (truthy (dict_get state "tweet")); cbn;
     [destruct (send _) as [[]|e]; cbn|]|];
    f_equal; same_world.
Qed.

Lemma log_tweet_run :
  Agent.log_tweet env state w = (Ok (Some ∅), log_tweet_world env state w).
Proof.
  unfold Agent.log_tweet, log_tweet_world, logged_tweet_row, logged_summary,
    dict_get_default, execute_insert_tweet, commit_tweets.
  run_monad.
  destruct (truthy (dict_get state "tweet")); cbn; [|reflexivity].
  destruct (sql_insert env) as [[]|e]; cbn.
  - destruct (sql_commit env) as [[]|e]; cbn; unfold add_events; cbn;
      rewrite <- ?app_assoc; cbn; destruct (state !! "data"); reflexivity.
  - unfold add_events; cbn; rewrite <- ?app_assoc; cbn;
      destruct (state !! "data"); reflexivity.
Qed.
End AgentSteps.

(** ** The steps of the Facebook workflow, case by case *)

Section FbSteps.
Variable env : Env.
Variable state : gmap string pyval.
Variable w : World.

Lemma generate_post_missing_event :
  state !! "event" = None →
  AgentFb.generate_post env state w = (Raise (KeyError "event"), w).
Proof.
  intros H. unfold AgentFb.generate_post. run_monad. rewrite H. reflexivity.
Qed.

Lemma generate_post_missing_coordinates (ev : pyval) :
  state !! "event" = Some ev → state !! "coordinates" = None →
  AgentFb.generate_post env state w = (Raise (KeyError "coordinates"), w).
Proof.
  intros H1 H2. unfold AgentFb.generate_post. run_monad.
  rewrite H1. cbn. rewrite H2. reflexivity.
Qed.

Lemma generate_post_run (ev co : pyval) :
  state !! "event" = Some ev → state !! "coordinates" = Some co →
  AgentFb.generate_post env state w =
  (match llm_invoke env (AgentFb.post_prompt ev co) with
   | Ok reply => Ok (Some {["post" := PyStr (strip reply)]})
   | Raise e => Raise e
   end,
   add_events w [LlmInvoke (AgentFb.post_prompt ev co)]).
Proof.
  intros H1 H2. unfold AgentFb.generate_post. run_monad.
  rewrite H1. cbn. rewrite H2. cbn.
  destruct (llm_invoke env _); reflexivity.
Qed.

Lemma post_facebook_run :
  AgentFb.post_facebook_node env state w =
  (Ok (Some ∅), add_events w (post_facebook_events env state)).
Proof.
  unfold AgentFb.post_facebook_node, post_facebook_events. run_monad.
  destruct (truthy (dict_get state "post")); cbn;
    [destruct (poster_put_object env _) as [[]|e]; cbn|];
    rewrite ?add_events_nil; f_equal; same_world.
Qed.

Lemma log_post_run :
  AgentFb.log_post env state w = (Ok (Some ∅), log_post_world env state w).
Proof.
  unfold AgentFb.log_post, log_post_world, logged_post_row,
    execute_insert_post, commit_posts.
  run_monad.
  destruct (truthy (dict_get state "post")); cbn; [|reflexivity].
  destruct (sql_insert env) as [[]|e]; cbn.
  - destruct (sql_commit env) as [[]|e]; cbn; unfold add_events; cbn;
      rewrite <- ?app_assoc; cbn; reflexivity.
  - unfold add_events; cbn; rewrite <- ?app_assoc; cbn; reflexivity.
Qed.
End FbSteps.

(** ** The steps of the aggregator, case by case *)

Section SummarySteps.
Variable env : Env.
Variable state : gmap string sval.
Variable w : World.

Lemma retrieve_weekly_tweets_run :
  SummaryAgent.retrieve_weekly_tweets env state w =
  let rows := SummaryAgent.select_since (seven_days_ago env) (tweets_log w) in
  match sql_select env with
  | Ok _ =>
      (Ok (Some {["weekly_tweets" := SList (weekly_of_rows rows)]}),
       add_events w
         [Stdout "...Retrieving tweets from last 7 days...";
          SqlSelectSince (seven_days_ago env);
          Stdout ("Found "
                  +:+ SummaryAgent.str_of_nat (length (weekly_of_rows rows))
                  +:+ " tweets from the last 7 days")])
  | Raise e =>
      (Raise e,
       add_events w
         [Stdout "...Retrieving tweets from last 7 days...";
          SqlSelectSince (seven_days_ago env)])
  end.
Proof.
  unfold SummaryAgent.retrieve_weekly_tweets, SummaryAgent.execute_select,
    SummaryAgent.fetch_since, seven_days_ago, weekly_of_rows.
  run_monad.
  destruct (sql_select env) as [[]|e]; cbn; f_equal; same_world.
Qed.

Lemma generate_summary_tweet_empty :
  struthy (default (SList []) (state !! "weekly_tweets")) = false →
  SummaryAgent.generate_summary_tweet env state w =
  (Ok (Some {["summary_tweet" := SStr SummaryAgent.fallback_summary]}),
   add_events w [Stdout "...Generating weekly summary tweet..."]).
Proof.
  intros H. unfold SummaryAgent.generate_summary_tweet. run_monad.
  destruct (default (SList []) (state !! "weekly_tweets")) as [|s|l].
  - reflexivity.
  - destruct s; [reflexivity|discriminate].
  - destruct l; [reflexivity|discriminate].
Qed.

Lemma generate_summary_tweet_records (tweets : list weekly_tweet) :
  state !! "weekly_tweets" = Some (SList tweets) → tweets ≠ [] →
  SummaryAgent.generate_summary_tweet env state w =
  (match llm_invoke env (SummaryAgent.summary_prompt (tweets_text tweets)) with
   | Ok reply => Ok (Some {["summary_tweet" := SStr (strip reply)]})
   | Raise e => Raise e
   end,
   add_events w
     [Stdout "...Generating weekly summary tweet...";
      LlmInvoke (SummaryAgent.summary_prompt (tweets_text tweets))]).
Proof.
  intros H Hne. unfold SummaryAgent.generate_summary_tweet, tweets_text.
  run_monad. rewrite H. cbn.
  destruct tweets as [|t ts]; [done|]. cbn.
  destruct (llm_invoke env _); cbn; f_equal; same_world.
Qed.

Lemma generate_summary_tweet_string (s : string) :
  state !! "weekly_tweets" = Some (SStr s) → s ≠ "" →
  SummaryAgent.generate_summary_tweet env state w =
  (Raise (TypeError "string indices must be integers, not 'str'"),
   add_events w [Stdout "...Generating weekly summary tweet..."]).
Proof.
  intros H Hne. unfold SummaryAgent.generate_summary_tweet. run_monad.
  rewrite H. cbn. destruct s; [done|reflexivity].
Qed.

Lemma post_summary_tweet_run :
  SummaryAgent.post_summary_tweet env state w =
  (Ok None, add_events w (post_summary_events env state)).
Proof.
  unfold SummaryAgent.post_summary_tweet, post_summary_events. run_monad.
  destruct (client env) as [send|]; cbn;
    [destruct (struthy (default SNone (state !! "summary_tweet"))); cbn;
     [destruct (send _) as [[]|e]; cbn|]|];
    f_equal; same_world.
Qed.
End SummarySteps.

(** ** Merging the updates the nodes return *)

Lemma merge_update_none {V} (state : gmap string V) :
  merge_update state None = state.
Proof. reflexivity. Qed.

Lemma merge_update_empty {V} (state : gmap string V) :
  merge_update state (Some ∅) = state.
Proof. cbn. apply (left_id_L ∅ (∪)). Qed.

Lemma merge_update_singleton {V} (state : gmap string V) (k : string) (v : V) :
  merge_update state (Some {[k := v]}) = <[k := v]> state.
Proof. cbn. symmetry. apply insert_union_singleton_l. Qed.

(** A publish or log step hands the engine the state it received. *)
Lemma run_step_post_tweet (env : Env) (s : gmap string pyval) (w : World) :
  run_step "post_tweet" (Agent.post_tweet env) s w =
  (Ok s, add_events w (EnterNode "post_tweet" :: post_tweet_events env s)).
Proof.
  unfold run_step. unfold mbind, M_bind, emit at 1. cbn [fst snd].
  rewrite post_tweet_run. cbn. f_equal. same_world.
Qed.

Lemma run_step_log_tweet (env : Env) (s : gmap string pyval) (w : World) :
  run_step "log_tweet" (Agent.log_tweet env) s w =
  (Ok s, log_tweet_world env s (add_events w [EnterNode "log_tweet"])).
Proof.
  unfold run_step. unfold mbind, M_bind, emit at 1. cbn [fst snd].
  rewrite log_tweet_run. unfold mret, M_ret. by rewrite merge_update_empty.
Qed.

Lemma run_step_post_facebook (env : Env) (s : gmap string pyval) (w : World) :
  run_step "post_facebook" (AgentFb.post_facebook_node env) s w =
  (Ok s, add_events w (EnterNode "post_facebook" :: post_facebook_events env s)).
Proof.
  unfold run_step. unfold mbind, M_bind, emit at 1. cbn [fst snd].
  rewrite post_facebook_run. unfold mret, M_ret.
  rewrite merge_update_empty. f_equal. same_world.
Qed.

Lemma run_step_log_post (env : Env) (s : gmap string pyval) (w : World) :
  run_step "log_post" (AgentFb.log_post env) s w =
  (Ok s, log_post_world env s (add_events w [EnterNode "log_post"])).
Proof.
  unfold run_step. unfold mbind, M_bind, emit at 1. cbn [fst snd].
  rewrite log_post_run. unfold mret, M_ret. by rewrite merge_update_empty.
Qed.

Lemma run_step_post_summary (env : Env) (s : gmap string sval) (w : World) :
  run_step "post_summary_tweet" (SummaryAgent.post_summary_tweet env) s w =
  (Ok s,
   add_events w (EnterNode "post_summary_tweet" :: post_summary_events env s)).
Proof.
  unfold run_step. unfold mbind, M_bind, emit at 1. cbn [fst snd].
  rewrite post_summary_tweet_run. cbn. f_equal. same_world.
Qed.

(** ** What the recorded actions of a publish or log step contain *)

Lemma post_tweet_events_sent (env : Env) (s : gmap string pyval) :
  tweets_sent (post_tweet_events env s) =
  attempts (bool_decide (is_Some (client env))) (truthy (dict_get s "tweet"))
           (py_format (dict_get s "tweet")).
Proof.
  unfold post_tweet_events, attempts.
  destruct (client env) as [send|]; cbn;
    [destruct (truthy (dict_get s "tweet")); cbn;
     [destruct (send _) as [[]|e]|]|]; reflexivity.
Qed.

Lemma post_tweet_events_quiet (env : Env) (s : gmap string pyval) :
  entered (post_tweet_events env s) = []
  ∧ llm_prompts (post_tweet_events env s) = []
  ∧ tweet_inserts (post_tweet_events env s) = [].
Proof.
  unfold post_tweet_events.
  destruct (client env) as [send|]; cbn;
    [destruct (truthy (dict_get s "tweet")); cbn;
     [destruct (send _) as [[]|e]|]|]; auto.
Qed.

Lemma post_summary_events_sent (env : Env) (s : gmap string sval) :
  tweets_sent (post_summary_events env s) =
  attempts (bool_decide (is_Some (client env)))
           (struthy (default SNone (s !! "summary_tweet")))
           (sval_format env (default SNone (s !! "summary_tweet"))).
Proof.
  unfold post_summary_events, attempts.
  destruct (client env) as [send|]; cbn;
    [destruct (struthy (default SNone (s !! "summary_tweet"))); cbn;
     [destruct (send _) as [[]|e]|]|]; reflexivity.
Qed.

Lemma post_summary_events_quiet (env : Env) (s : gmap string sval) :
  entered (post_summary_events env s) = []
  ∧ llm_prompts (post_summary_events env s) = [].
Proof.
  unfold post_summary_events.
  destruct (client env) as [send|]; cbn;
    [destruct (struthy (default SNone (s !! "summary_tweet"))); cbn;
     [destruct (send _) as [[]|e]|]|]; auto.
Qed.

Lemma post_facebook_events_sent (env : Env) (s : gmap string pyval) :
  posts_sent (post_facebook_events env s) =
  attempts true (truthy (dict_get s "post")) (py_format (dict_get s "post")).
Proof.
  unfold post_facebook_events, attempts.
  destruct (truthy (dict_get s "post")); cbn;
    [destruct (poster_put_object env _) as [[]|e]|]; reflexivity.
Qed.

Lemma post_facebook_events_quiet (env : Env) (s : gmap string pyval) :
  entered (post_facebook_events env s) = []
  ∧ llm_prompts (post_facebook_events env s) = []
  ∧ post_inserts (post_facebook_events env s) = [].
Proof.
  unfold post_facebook_events.
  destruct (truthy (dict_get s "post")); cbn;
    [destruct (poster_put_object env _) as [[]|e]|]; auto.
Qed.

(** The committed rows after [log_tweet]: one more row exactly when the
    content is truthy and neither the INSERT nor the commit raises. *)
Lemma log_tweet_world_log (env : Env) (s : gmap string pyval) (w : World) :
  tweets_log (log_tweet_world env s w) =
  if truthy (dict_get s "tweet") && is_ok (sql_insert env)
     && is_ok (sql_commit env)
  then tweets_log w ++ tweets_pending w ++ [logged_tweet_row env s w]
  else tweets_log w.
Proof.
  unfold log_tweet_world.
  destruct (truthy (dict_get s "tweet")); cbn; [|reflexivity].
  destruct (sql_insert env) as [[]|e]; cbn; [|reflexivity].
  destruct (sql_commit env) as [[]|e]; reflexivity.
Qed.

Lemma log_tweet_world_inserts (env : Env) (s : gmap string pyval) (w : World) :
  tweet_inserts (trace (log_tweet_world env s w)) =
  tweet_inserts (trace w)
  ++ (if truthy (dict_get s "tweet") then [tweet_insert_of env s] else []).
Proof.
  unfold log_tweet_world, tweet_insert_of.
  destruct (truthy (dict_get s "tweet")); cbn; [|by rewrite app_nil_r].
  destruct (sql_insert env) as [[]|e]; cbn;
    [destruct (sql_commit env) as [[]|e]|]; trace_simpl; reflexivity.
Qed.

Lemma log_tweet_world_quiet (env : Env) (s : gmap string pyval) (w : World) :
  entered (trace (log_tweet_world env s w)) = entered (trace w)
  ∧ llm_prompts (trace (log_tweet_world env s w)) = llm_prompts (trace w)
  ∧ tweets_sent (trace (log_tweet_world env s w)) = tweets_sent (trace w).
Proof.
  unfold log_tweet_world.
  destruct (truthy (dict_get s "tweet")); cbn; [|auto].
  destruct (sql_insert env) as [[]|e]; cbn;
    [destruct (sql_commit env) as [[]|e]|]; trace_simpl; auto.
Qed.

Lemma log_post_world_log (env : Env) (s : gmap string pyval) (w : World) :
  posts_log (log_post_world env s w) =
  if truthy (dict_get s "post") && is_ok (sql_insert env)
     && is_ok (sql_commit env)
  then posts_log w ++ posts_pending w ++ [logged_post_row env s w]
  else posts_log w.
Proof.
  unfold log_post_world.
  destruct (truthy (dict_get s "post")); cbn; [|reflexivity].
  destruct (sql_insert env) as [[]|e]; cbn; [|reflexivity].
  destruct (sql_commit env) as [[]|e]; reflexivity.
Qed.

Lemma log_post_world_inserts (env : Env) (s : gmap string pyval) (w : World) :
  post_inserts (trace (log_post_world env s w)) =
  post_inserts (trace w)
  ++ (if truthy (dict_get s "post") then [post_insert_of env s] else []).
Proof.
  unfold log_post_world, post_insert_of.
  destruct (truthy (dict_get s "post")); cbn; [|by rewrite app_nil_r].
  destruct (sql_insert env) as [[]|e]; cbn;
    [destruct (sql_commit env) as [[]|e]|]; trace_simpl; reflexivity.
Qed.

Lemma log_post_world_quiet (env : Env) (s : gmap string pyval) (w : World) :
  entered (trace (log_post_world env s w)) = entered (trace w)
  ∧ llm_prompts (trace (log_post_world env s w)) = llm_prompts (trace w)
  ∧ posts_sent (trace (log_post_world env s w)) = posts_sent (trace w).
Proof.
  unfold log_post_world.
  destruct (truthy (dict_get s "post")); cbn; [|auto].
  destruct (sql_insert env) as [[]|e]; cbn;
    [destruct (sql_commit env) as [[]|e]|]; trace_simpl; auto.
Qed.

(** ** The workflows once the generation step has returned *)

Lemma agent_workflow_after_generate (env : Env) (state : gmap string pyval)
    (w : World) :
  Agent.workflow env state w =
  match run_step "generate_tweet" (Agent.generate_tweet env) state w with
  | (Ok s1, w1) =>
      (Ok s1,
       log_tweet_world env s1
         (add_events w1
            (EnterNode "post_tweet" :: post_tweet_events env s1
             ++ [EnterNode "log_tweet"])))
  | (Raise e, w1) => (Raise e, w1)
  end.
Proof.
  rewrite agent_workflow_linear. unfold pipeline3.
  unfold mbind at 1, M_bind at 1.
  destruct (run_step "generate_tweet" _ state w) as [[s1|e] w1]; [|reflexivity].
  unfold mbind at 1, M_bind at 1. rewrite run_step_post_tweet.
  rewrite run_step_log_tweet. do 2 f_equal. same_world.
Qed.

Lemma fb_workflow_after_generate (env : Env) (state : gmap string pyval)
    (w : World) :
  AgentFb.workflow env state w =
  match run_step "generate_post" (AgentFb.generate_post env) state w with
  | (Ok s1, w1) =>
      (Ok s1,
       log_post_world env s1
         (add_events w1
            (EnterNode "post_facebook" :: post_facebook_events env s1
             ++ [EnterNode "log_post"])))
  | (Raise e, w1) => (Raise e, w1)
  end.
Proof.
  rewrite fb_workflow_linear. unfold pipeline3.
  unfold mbind at 1, M_bind at 1.
  destruct (run_step "generate_post" _ state w) as [[s1|e] w1]; [|reflexivity].
  unfold mbind at 1, M_bind at 1. rewrite run_step_post_facebook.
  rewrite run_step_log_post. do 2 f_equal. same_world.
Qed.

Lemma summary_workflow_after_generate (env : Env) (state : gmap string sval)
    (w : World) :
  SummaryAgent.summary_workflow env state w =
  match run_step "retrieve_weekly_tweets"
                 (SummaryAgent.retrieve_weekly_tweets env) state w with
  | (Ok s1, w1) =>
      match run_step "generate_summary_tweet"
                     (SummaryAgent.generate_summary_tweet env) s1 w1 with
      | (Ok s2, w2) =>
          (Ok s2,
           add_events w2
             (EnterNode "post_summary_tweet" :: post_summary_events env s2))
      | (Raise e, w2) => (Raise e, w2)
      end
  | (Raise e, w1) => (Raise e, w1)
  end.
Proof.
  rewrite summary_workflow_linear. unfold pipeline3.
  unfold mbind at 1, M_bind at 1.
  destruct (run_step "retrieve_weekly_tweets" _ state w) as [[s1|e] w1];
    [|reflexivity].
  unfold mbind at 1, M_bind at 1.
  destruct (run_step "generate_summary_tweet" _ s1 w1) as [[s2|e] w2];
    [|reflexivity].
  apply run_step_post_summary.
Qed.

(** ** The generation step under the engine *)

Lemma run_generate_tweet (env : Env) (state : gmap string pyval) (w : World) :
  run_step "generate_tweet" (Agent.generate_tweet env) state w =
  match state !! "data" with
  | None =>
      (Raise (KeyError "data"),
       add_events w [EnterNode "generate_tweet";
                     Stdout "...Generating tweet..."])
  | Some v =>
      if truthy v then
        (match llm_invoke env (Agent.tweet_prompt v) with
         | Ok reply => Ok (<["tweet" := PyStr (strip reply)]> state)
         | Raise e => Raise e
         end,
         add_events w [EnterNode "generate_tweet";
                       Stdout "...Generating tweet...";
                       LlmInvoke (Agent.tweet_prompt v)])
      else
        (Ok (<["tweet" := PyStr Agent.no_data_sentinel]> state),
         add_events w [EnterNode "generate_tweet";
                       Stdout "...Generating tweet..."])
  end.
Proof.
  unfold run_step. unfold mbind at 1, M_bind at 1, emit at 1. cbn [fst snd].
  unfold mbind, M_bind.
  destruct (state !! "data") as [v|] eqn:Hdata.
  - destruct (truthy v) eqn:Hv.
    + rewrite (generate_tweet_truthy _ _ _ v Hdata Hv).
      destruct (llm_invoke env _); unfold mret, M_ret;
        rewrite ?merge_update_singleton; f_equal; same_world.
    + rewrite (generate_tweet_falsy _ _ _ v Hdata Hv).
      unfold mret, M_ret. rewrite merge_update_singleton. f_equal. same_world.
  - rewrite (generate_tweet_missing _ _ _ Hdata). f_equal. same_world.
Qed.

Lemma run_generate_post (env : Env) (state : gmap string pyval) (w : World) :
  run_step "generate_post" (AgentFb.generate_post env) state w =
  match state !! "event", state !! "coordinates" with
  | None, _ =>
      (Raise (KeyError "event"), add_events w [EnterNode "generate_post"])
  | Some _, None =>
      (Raise (KeyError "coordinates"), add_events w [EnterNode "generate_post"])
  | Some ev, Some co =>
      (match llm_invoke env (AgentFb.post_prompt ev co) with
       | Ok reply => Ok (<["post" := PyStr (strip reply)]> state)
       | Raise e => Raise e
       end,
       add_events w [EnterNode "generate_post";
                     LlmInvoke (AgentFb.post_prompt ev co)])
  end.
Proof.
  unfold run_step. unfold mbind at 1, M_bind at 1, emit at 1. cbn [fst snd].
  unfold mbind, M_bind.
  destruct (state !! "event") as [ev|] eqn:Hev.
  - destruct (state !! "coordinates") as [co|] eqn:Hco.
    + rewrite (generate_post_run _ _ _ ev co Hev Hco).
      destruct (llm_invoke env _); unfold mret, M_ret;
        rewrite ?merge_update_singleton; f_equal; same_world.
    + by rewrite (generate_post_missing_coordinates _ _ _ ev Hev Hco).
  - by rewrite (generate_post_missing_event _ _ _ Hev).
Qed.

(** Every state a generation step hands on has its content field set. *)
Lemma run_generate_tweet_sets (env : Env) (state s1 : gmap string pyval)
    (w w1 : World) :
  run_step "generate_tweet" (Agent.generate_tweet env) state w = (Ok s1, w1) →
  ∃ t, s1 = <["tweet" := PyStr t]> state.
Proof.
  rewrite run_generate_tweet.
  destruct (state !! "data") as [v|]; [|discriminate].
  destruct (truthy v); [destruct (llm_invoke env _)|];
    intros [= <- <-]; eauto.
Qed.

Lemma run_generate_post_sets (env : Env) (state s1 : gmap string pyval)
    (w w1 : World) :
  run_step "generate_post" (AgentFb.generate_post env) state w = (Ok s1, w1) →
  ∃ t, s1 = <["post" := PyStr t]> state.
Proof.
  rewrite run_generate_post.
  destruct (state !! "event") as [ev|]; [|discriminate].
  destruct (state !! "coordinates") as [co|]; [|discriminate].
  destruct (llm_invoke env _); intros [= <- <-]; eauto.
Qed.

Lemma generate_summary_tweet_sets (env : Env) (s1 : gmap string sval)
    (upd : option (gmap string sval)) (w w2 : World) :
  SummaryAgent.generate_summary_tweet env s1 w = (Ok upd, w2) →
  ∃ t, upd = Some {["summary_tweet" := SStr t]}.
Proof.
  unfold SummaryAgent.generate_summary_tweet. run_monad.
  destruct (default (SList []) (s1 !! "weekly_tweets")) as [|s|l].
  - intros [= <- <-]; eauto.
  - destruct s; intros [= <- <-]; eauto.
  - destruct l; [intros [= <- <-]; eauto|].
    cbn. destruct (llm_invoke env _); intros [= <- <-]; eauto.
Qed.

Lemma run_generate_summary_sets (env : Env) (s1 s2 : gmap string sval)
    (w w2 : World) :
  run_step "generate_summary_tweet" (SummaryAgent.generate_summary_tweet env)
           s1 w = (Ok s2, w2) →
  ∃ t, s2 = <["summary_tweet" := SStr t]> s1.
Proof.
  unfold run_step. unfold mbind at 1, M_bind at 1, emit at 1. cbn [fst snd].
  unfold mbind, M_bind.
  destruct (SummaryAgent.generate_summary_tweet env s1 _) as [[upd|e] w']
    eqn:Hgen; [|discriminate].
  apply generate_summary_tweet_sets in Hgen as [t ->].
  unfold mret, M_ret. rewrite merge_update_singleton.
  intros [= <- <-]; eauto.
Qed.

(** ** What a whole run leaves in the store *)

Lemma run_generate_tweet_world (env : Env) (state : gmap string pyval)
    (w : World) :
  ∃ evs, snd (run_step "generate_tweet" (Agent.generate_tweet env) state w)
         = add_events w evs
    ∧ entered evs = ["generate_tweet"]
    ∧ tweet_inserts evs = []
    ∧ tweets_sent evs = []
    ∧ llm_prompts evs =
        match state !! "data" with
        | Some v => if truthy v then [Agent.tweet_prompt v] else []
        | None => []
        end.
Proof.
  rewrite run_generate_tweet.
  destruct (state !! "data") as [v|]; [destruct (truthy v)|];
    eexists; (split; [reflexivity|]); cbn; auto.
Qed.

Lemma run_generate_post_world (env : Env) (state : gmap string pyval)
    (w : World) :
  ∃ evs, snd (run_step "generate_post" (AgentFb.generate_post env) state w)
         = add_events w evs
    ∧ entered evs = ["generate_post"]
    ∧ post_inserts evs = []
    ∧ posts_sent evs = []
    ∧ llm_prompts evs =
        match state !! "event", state !! "coordinates" with
        | Some ev, Some co => [AgentFb.post_prompt ev co]
        | _, _ => []
        end.
Proof.
  rewrite run_generate_post.
  destruct (state !! "event") as [ev|];
    [destruct (state !! "coordinates") as [co|]|];
    eexists; (split; [reflexivity|]); cbn; auto.
Qed.

(** The committed tweet rows and the INSERT statements after a whole run. *)
Lemma agent_workflow_store (env : Env) (state : gmap string pyval) (w : World) :
  match fst (run_step "generate_tweet" (Agent.generate_tweet env) state w) with
  | Ok s1 =>
      tweet_inserts (trace (snd (Agent.workflow env state w))) =
        tweet_inserts (trace w)
        ++ (if truthy (dict_get s1 "tweet") then [tweet_insert_of env s1]
            else [])
      ∧ tweets_log (snd (Agent.workflow env state w)) =
          if truthy (dict_get s1 "tweet") && is_ok (sql_insert env)
             && is_ok (sql_commit env)
          then tweets_log w ++ tweets_pending w ++ [logged_tweet_row env s1 w]
          else tweets_log w
  | Raise _ =>
      tweet_inserts (trace (snd (Agent.workflow env state w))) =
        tweet_inserts (trace w)
      ∧ tweets_log (snd (Agent.workflow env state w)) = tweets_log w
  end.
Proof.
  rewrite agent_workflow_after_generate.
  destruct (run_generate_tweet_world env state w)
    as (evs & Hw1 & _ & Hins & _ & _).
  destruct (run_step "generate_tweet" _ state w) as [[s1|e] w1];
    cbn [fst snd] in *; subst w1.
  - rewrite log_tweet_world_inserts, log_tweet_world_log.
    destruct (post_tweet_events_quiet env s1) as (_ & _ & Hq).
    split.
    + trace_simpl. cbn [tweet_inserts omap list_omap].
      fold (tweet_inserts evs). fold (tweet_inserts (post_tweet_events env s1)).
      rewrite tweet_inserts_app, Hins, Hq. reflexivity.
    + reflexivity.
  - cbn [trace add_events tweets_log].
    rewrite tweet_inserts_app, Hins, app_nil_r. auto.
Qed.

Lemma fb_workflow_store (env : Env) (state : gmap string pyval) (w : World) :
  match fst (run_step "generate_post" (AgentFb.generate_post env) state w) with
  | Ok s1 =>
      post_inserts (trace (snd (AgentFb.workflow env state w))) =
        post_inserts (trace w)
        ++ (if truthy (dict_get s1 "post") then [post_insert_of env s1]
            else [])
      ∧ posts_log (snd (AgentFb.workflow env state w)) =
          if truthy (dict_get s1 "post") && is_ok (sql_insert env)
             && is_ok (sql_commit env)
          then posts_log w ++ posts_pending w ++ [logged_post_row env s1 w]
          else posts_log w
  | Raise _ =>
      post_inserts (trace (snd (AgentFb.workflow env state w))) =
        post_inserts (trace w)
      ∧ posts_log (snd (AgentFb.workflow env state w)) = posts_log w
  end.
Proof.
  rewrite fb_workflow_after_generate.
  destruct (run_generate_post_world env state w)
    as (evs & Hw1 & _ & Hins & _ & _).
  destruct (run_step "generate_post" _ state w) as [[s1|e] w1];
    cbn [fst snd] in *; subst w1.
  - rewrite log_post_world_inserts, log_post_world_log.
    destruct (post_facebook_events_quiet env s1) as (_ & _ & Hq).
    split.
    + trace_simpl. cbn [post_inserts omap list_omap].
      fold (post_inserts evs).
      fold (post_inserts (post_facebook_events env s1)).
      rewrite post_inserts_app, Hins, Hq. reflexivity.
    + reflexivity.
  - cbn [trace add_events posts_log].
    rewrite post_inserts_app, Hins, app_nil_r. auto.
Qed.

(** ** The retrieval step and the query it runs *)

Lemma run_retrieve_weekly_tweets (env : Env) (state : gmap string sval)
    (w : World) :
  run_step "retrieve_weekly_tweets" (SummaryAgent.retrieve_weekly_tweets env)
           state w =
  let rows := SummaryAgent.select_since (seven_days_ago env) (tweets_log w) in
  match sql_select env with
  | Ok _ =>
      (Ok (<["weekly_tweets" := SList (weekly_of_rows rows)]> state),
       add_events w
         [EnterNode "retrieve_weekly_tweets";
          Stdout "...Retrieving tweets from last 7 days...";
          SqlSelectSince (seven_days_ago env);
          Stdout ("Found "
                  +:+ SummaryAgent.str_of_nat (length (weekly_of_rows rows))
                  +:+ " tweets from the last 7 days")])
  | Raise e =>
      (Raise e,
       add_events w
         [EnterNode "retrieve_weekly_tweets";
          Stdout "...Retrieving tweets from last 7 days...";
          SqlSelectSince (seven_days_ago env)])
  end.
Proof.
  unfold run_step. unfold mbind at 1, M_bind at 1, emit at 1. cbn [fst snd].
  unfold mbind, M_bind. rewrite retrieve_weekly_tweets_run.
  cbn [tweets_log add_events]. cbv zeta.
  destruct (sql_select env) as [[]|e]; unfold mret, M_ret;
    rewrite ?merge_update_singleton; f_equal; same_world.
Qed.

Lemma run_generate_summary_tweet (env : Env) (state : gmap string sval)
    (w : World) (tweets : list weekly_tweet) :
  default (SList []) (state !! "weekly_tweets") = SList tweets →
  run_step "generate_summary_tweet" (SummaryAgent.generate_summary_tweet env)
           state w =
  match tweets with
  | [] =>
      (Ok (<["summary_tweet" := SStr SummaryAgent.fallback_summary]> state),
       add_events w [EnterNode "generate_summary_tweet";
                     Stdout "...Generating weekly summary tweet..."])
  | _ :: _ =>
      (match llm_invoke env (SummaryAgent.summary_prompt (tweets_text tweets))
       with
       | Ok reply => Ok (<["summary_tweet" := SStr (strip reply)]> state)
       | Raise e => Raise e
       end,
       add_events w
         [EnterNode "generate_summary_tweet";
          Stdout "...Generating weekly summary tweet...";
          LlmInvoke (SummaryAgent.summary_prompt (tweets_text tweets))])
  end.
Proof.
  intros Hl.
  unfold run_step. unfold mbind at 1, M_bind at 1, emit at 1. cbn [fst snd].
  unfold mbind, M_bind.
  destruct tweets as [|t ts].
  - rewrite generate_summary_tweet_empty by (by rewrite Hl).
    unfold mret, M_ret. rewrite merge_update_singleton. f_equal. same_world.
  - assert (state !! "weekly_tweets" = Some (SList (t :: ts))) as Hst.
    { destruct (state !! "weekly_tweets") as [x|]; cbn in Hl;
        [by subst x|congruence]. }
    rewrite (generate_summary_tweet_records _ _ _ _ Hst) by done.
    destruct (llm_invoke env _); unfold mret, M_ret;
      rewrite ?merge_update_singleton; f_equal; same_world.
Qed.

(** The query returns the rows at or after the cutoff, each as often as the
    table holds it, newest first. *)
Global Instance newer_first_trans : Transitive SummaryAgent.newer_first.
Proof.
  intros a b c Hab Hbc. unfold SummaryAgent.newer_first in *.
  by etrans.
Qed.

Global Instance newer_first_total : Total SummaryAgent.newer_first.
Proof.
  intros a b. unfold SummaryAgent.newer_first.
  destruct (total String.le (tweet_datetime a) (tweet_datetime b)); auto.
Qed.

Lemma insert_newer_first_perm (r : tweet_row) (sorted : list tweet_row) :
  SummaryAgent.insert_newer_first r sorted ≡ₚ r :: sorted.
Proof.
  induction sorted as [|x rest IH]; [reflexivity|].
  cbn [SummaryAgent.insert_newer_first]. case_bool_decide; [|reflexivity].
  rewrite IH. apply Permutation_swap.
Qed.

Lemma order_newer_first_perm (rows : list tweet_row) :
  SummaryAgent.order_newer_first rows ≡ₚ rows.
Proof.
  unfold SummaryAgent.order_newer_first.
  enough (∀ sorted,
            foldl (λ sorted r, SummaryAgent.insert_newer_first r sorted)
                  sorted rows ≡ₚ sorted ++ rows) as H by apply (H []).
  induction rows as [|r rows IH]; intros sorted; cbn [foldl].
  - by rewrite app_nil_r.
  - rewrite IH, insert_newer_first_perm.
    by rewrite (Permutation_middle sorted rows r).
Qed.

Lemma insert_newer_first_sorted (r : tweet_row) (sorted : list tweet_row) :
  StronglySorted SummaryAgent.newer_first sorted →
  StronglySorted SummaryAgent.newer_first
                 (SummaryAgent.insert_newer_first r sorted).
Proof.
  induction 1 as [|x rest Hrest IH Hx]; cbn [SummaryAgent.insert_newer_first].
  - repeat constructor.
  - case_bool_decide as Hxr.
    + constructor; [exact IH|].
      rewrite insert_newer_first_perm. by constructor.
    + assert (SummaryAgent.newer_first r x) as Hrx
        by (destruct (total SummaryAgent.newer_first r x); done).
      constructor; [by constructor|].
      constructor; [exact Hrx|].
      eapply Forall_impl; [exact Hx|]. intros y Hy. by etrans.
Qed.

Lemma order_newer_first_sorted (rows : list tweet_row) :
  StronglySorted SummaryAgent.newer_first
                 (SummaryAgent.order_newer_first rows).
Proof.
  unfold SummaryAgent.order_newer_first.
  enough (∀ sorted,
            StronglySorted SummaryAgent.newer_first sorted →
            StronglySorted SummaryAgent.newer_first
              (foldl (λ sorted r, SummaryAgent.insert_newer_first r sorted)
                     sorted rows)) as H by (apply H; constructor).
  induction rows as [|r rows IH]; intros sorted Hs; cbn [foldl];
    [exact Hs|].
  by apply IH, insert_newer_first_sorted.
Qed.

Lemma list_filter_cons {A} (f : A → bool) (x : A) (l : list A) :
  List.filter f (x :: l) =
  (if f x then [x] else []) ++ List.filter f l.
Proof. cbn. by destruct (f x). Qed.

Lemma list_filter_none {A} (f : A → bool) (l : list A) :
  (∀ y, y ∈ l → f y = false) → List.filter f l = [].
Proof.
  induction l as [|y l IH]; intros H; [reflexivity|].
  rewrite list_filter_cons, (H y) by apply list_elem_of_here.
  apply IH. intros z Hz. apply H. by apply list_elem_of_further.
Qed.

(** The ordering is stable: the rows of one timestamp keep the order they
    had. *)
Lemma insert_newer_first_same (t : string) (r : tweet_row)
    (sorted : list tweet_row) :
  StronglySorted SummaryAgent.newer_first sorted →
  List.filter (λ x, bool_decide (tweet_datetime x = t))
              (SummaryAgent.insert_newer_first r sorted) =
  List.filter (λ x, bool_decide (tweet_datetime x = t)) sorted
  ++ (if bool_decide (tweet_datetime r = t) then [r] else []).
Proof.
  induction 1 as [|x rest Hrest IH Hx]; cbn [SummaryAgent.insert_newer_first].
  - rewrite list_filter_cons. cbn [List.filter]. by rewrite app_nil_r.
  - destruct (bool_decide (SummaryAgent.newer_first x r)) eqn:Hxr.
    + rewrite !(list_filter_cons _ x), IH. by rewrite app_assoc.
    + apply bool_decide_eq_false in Hxr.
      rewrite (list_filter_cons _ r).
      destruct (bool_decide (tweet_datetime r = t)) eqn:Hr;
        [|by rewrite app_nil_r].
      apply bool_decide_eq_true in Hr.
      rewrite (list_filter_none _ (x :: rest)); [reflexivity|].
      intros y Hy. apply bool_decide_eq_false. intros Heq.
      apply Hxr. unfold SummaryAgent.newer_first. rewrite Hr, <- Heq.
      apply elem_of_cons in Hy as [->|Hy]; [reflexivity|].
      rewrite Forall_forall in Hx. exact (Hx y Hy).
Qed.

Lemma order_newer_first_same (t : string) (rows : list tweet_row) :
  List.filter (λ x, bool_decide (tweet_datetime x = t))
              (SummaryAgent.order_newer_first rows) =
  List.filter (λ x, bool_decide (tweet_datetime x = t)) rows.
Proof.
  unfold SummaryAgent.order_newer_first.
  enough (∀ sorted,
            StronglySorted SummaryAgent.newer_first sorted →
            List.filter (λ x, bool_decide (tweet_datetime x = t))
              (foldl (λ sorted r, SummaryAgent.insert_newer_first r sorted)
                     sorted rows) =
            List.filter (λ x, bool_decide (tweet_datetime x = t)) sorted
            ++ List.filter (λ x, bool_decide (tweet_datetime x = t)) rows)
    as H by (apply (H []); constructor).
  induction rows as [|r rows IH]; intros sorted Hs; cbn [foldl].
  - by rewrite app_nil_r.
  - rewrite IH by (by apply insert_newer_first_sorted).
    rewrite insert_newer_first_same by exact Hs.
    by rewrite (list_filter_cons _ r), app_assoc.
Qed.

Lemma select_since_same (since t : string) (table : list tweet_row) :
  List.filter (λ x, bool_decide (tweet_datetime x = t))
              (SummaryAgent.select_since since table) =
  List.filter (λ x, bool_decide (tweet_datetime x = t))
    (List.filter (λ r, bool_decide (String.le since (tweet_datetime r)))
                 table).
Proof. unfold SummaryAgent.select_since. apply order_newer_first_same. Qed.

Lemma select_since_perm (since : string) (table : list tweet_row) :
  SummaryAgent.select_since since table ≡ₚ
  List.filter (λ r, bool_decide (String.le since (tweet_datetime r))) table.
Proof. unfold SummaryAgent.select_since. apply order_newer_first_perm. Qed.

Lemma select_since_elem (since : string) (table : list tweet_row)
    (r : tweet_row) :
  r ∈ SummaryAgent.select_since since table ↔
  r ∈ table ∧ String.le since (tweet_datetime r).
Proof.
  rewrite select_since_perm. rewrite !list_elem_of_In, filter_In.
  by rewrite bool_decide_eq_true.
Qed.

Lemma select_since_sorted (since : string) (table : list tweet_row) :
  StronglySorted SummaryAgent.newer_first
                 (SummaryAgent.select_since since table).
Proof. unfold SummaryAgent.select_since. apply order_newer_first_sorted. Qed.

Lemma weekly_of_rows_nil (rows : list tweet_row) :
  weekly_of_rows rows = [] ↔ rows = [].
Proof. unfold weekly_of_rows. by destruct rows. Qed.

Lemma tweets_text_contains (tweets : list weekly_tweet) (t : weekly_tweet) :
  t ∈ tweets →
  contains (SummaryAgent.summary_prompt (tweets_text tweets)) (content t).
Proof.
  intros Hin. unfold SummaryAgent.summary_prompt.
  do 5 apply contains_app_l.
  apply contains_trans with ("- " +:+ content t).
  - apply join_contains. apply list_elem_of_fmap. eauto.
  - apply contains_app_l, contains_refl.
Qed.

(** ** The nodes a run enters *)

Lemma agent_workflow_entered (env : Env) (state : gmap string pyval)
    (w : World) :
  entered (trace (snd (Agent.workflow env state w))) =
  entered (trace w)
  ++ match fst (run_step "generate_tweet" (Agent.generate_tweet env) state w)
     with
     | Ok _ => ["generate_tweet"; "post_tweet"; "log_tweet"]
     | Raise _ => ["generate_tweet"]
     end.
Proof.
  rewrite agent_workflow_after_generate.
  destruct (run_generate_tweet_world env state w)
    as (evs & Hw1 & Hent & _).
  destruct (run_step "generate_tweet" _ state w) as [[s1|e] w1];
    cbn [fst snd] in *; subst w1.
  - rewrite (proj1 (log_tweet_world_quiet env s1 _)).
    rewrite !trace_add_events, !entered_app, entered_enter, entered_app.
    rewrite (proj1 (post_tweet_events_quiet env s1)), Hent.
    by rewrite <- app_assoc.
  - by rewrite trace_add_events, entered_app, Hent.
Qed.

Lemma fb_workflow_entered (env : Env) (state : gmap string pyval) (w : World) :
  entered (trace (snd (AgentFb.workflow env state w))) =
  entered (trace w)
  ++ match fst (run_step "generate_post" (AgentFb.generate_post env) state w)
     with
     | Ok _ => ["generate_post"; "post_facebook"; "log_post"]
     | Raise _ => ["generate_post"]
     end.
Proof.
  rewrite fb_workflow_after_generate.
  destruct (run_generate_post_world env state w)
    as (evs & Hw1 & Hent & _).
  destruct (run_step "generate_post" _ state w) as [[s1|e] w1];
    cbn [fst snd] in *; subst w1.
  - rewrite (proj1 (log_post_world_quiet env s1 _)).
    rewrite !trace_add_events, !entered_app, entered_enter, entered_app.
    rewrite (proj1 (post_facebook_events_quiet env s1)), Hent.
    by rewrite <- app_assoc.
  - by rewrite trace_add_events, entered_app, Hent.
Qed.

Lemma run_retrieve_entered (env : Env) (state : gmap string sval) (w : World) :
  entered (trace (snd (run_step "retrieve_weekly_tweets"
                                (SummaryAgent.retrieve_weekly_tweets env)
                                state w)))
  = entered (trace w) ++ ["retrieve_weekly_tweets"].
Proof.
  rewrite run_retrieve_weekly_tweets. cbv zeta.
  destruct (sql_select env); cbn [snd];
    by rewrite trace_add_events, entered_app.
Qed.

Lemma run_generate_summary_entered (env : Env) (state : gmap string sval)
    (w : World) :
  entered (trace (snd (run_step "generate_summary_tweet"
                                (SummaryAgent.generate_summary_tweet env)
                                state w)))
  = entered (trace w) ++ ["generate_summary_tweet"].
Proof.
  unfold run_step, SummaryAgent.generate_summary_tweet. run_monad.
  destruct (default (SList []) (state !! "weekly_tweets")) as [|s|l].
  - cbn. trace_simpl. reflexivity.
  - destruct s; cbn; trace_simpl; reflexivity.
  - destruct l; cbn; [trace_simpl; reflexivity|].
    destruct (llm_invoke env _); cbn; trace_simpl; reflexivity.
Qed.

Lemma summary_workflow_entered (env : Env) (state : gmap string sval)
    (w : World) :
  entered (trace (snd (SummaryAgent.summary_workflow env state w))) =
  entered (trace w)
  ++ match run_step "retrieve_weekly_tweets"
                    (SummaryAgent.retrieve_weekly_tweets env) state w with
     | (Ok s1, w1) =>
         match fst (run_step "generate_summary_tweet"
                             (SummaryAgent.generate_summary_tweet env) s1 w1)
         with
         | Ok _ => ["retrieve_weekly_tweets"; "generate_summary_tweet";
                    "post_summary_tweet"]
         | Raise _ => ["retrieve_weekly_tweets"; "generate_summary_tweet"]
         end
     | (Raise _, _) => ["retrieve_weekly_tweets"]
     end.
Proof.
  rewrite summary_workflow_after_generate.
  pose proof (run_retrieve_entered env state w) as H1.
  destruct (run_step "retrieve_weekly_tweets" _ state w) as [[s1|e] w1];
    cbn [fst snd] in *; [|exact H1].
  pose proof (run_generate_summary_entered env s1 w1) as H2.
  destruct (run_step "generate_summary_tweet" _ s1 w1) as [[s2|e] w2];
    cbn [fst snd] in *.
  - rewrite trace_add_events, entered_app, entered_enter.
    rewrite (proj1 (post_summary_events_quiet env s2)), H2, H1.
    by rewrite <- !app_assoc.
  - rewrite H2, H1. by rewrite <- !app_assoc.
Qed.

(** The entry point of the tweet workflow around its compiled graph. *)
Lemma run_ocean_tweet_workflow_unfold (env : Env) (satellite_data : pyval)
    (w : World) :
  Agent.run_ocean_tweet_workflow env satellite_data w =
  match Agent.workflow env (initial_tweet_state satellite_data)
          (add_events w [Stdout "--- Starting Ocean Tweet Workflow ---"]) with
  | (Ok final_state, w') =>
      (Ok final_state,
       add_events w'
         [Stdout "--- Workflow Finished ---";
          Stdout ("Final State: " +:+ repr_state env final_state);
          Stdout ("Check " +:+ squote +:+ Agent.DB_NAME +:+ squote
                  +:+ " for the logged entry.")])
  | (Raise e, w') => (Raise e, w')
  end.
Proof.
  unfold Agent.run_ocean_tweet_workflow, initial_tweet_state.
  unfold py_print, mbind, M_bind, emit, mret, M_ret. cbn [fst snd].
  destruct (Agent.workflow env _ _) as [[final|e] w']; [|reflexivity].
  f_equal. same_world.
Qed.
(** ** The fallback letter *)

(** Every organization of the table has at least three focus areas, which is
    what the fallback template indexes. *)
Lemma organizations_focus_areas (org_key : string)
    (org : MarineAi.OrganizationProfile) :
  MarineAi.organizations !! org_key = Some org →
  ∃ a0 a1 a2 rest, MarineAi.focus_areas org = a0 :: a1 :: a2 :: rest.
Proof.
  unfold MarineAi.organizations. intros H.
  apply lookup_insert_Some in H as [[_ <-]|[_ H]]; [cbn; eauto 6|].
  apply lookup_insert_Some in H as [[_ <-]|[_ H]]; [cbn; eauto 6|].
  apply lookup_insert_Some in H as [[_ <-]|[_ H]]; [cbn; eauto 6|].
  by rewrite lookup_empty in H.
Qed.

Lemma contains_head2 (x y rest : string) :
  contains (x +:+ y +:+ rest) (x +:+ y).
Proof. exists "", rest. by rewrite string_app_assoc. Qed.

Lemma contains_head3 (x y z rest : string) :
  contains (x +:+ y +:+ z +:+ rest) (x +:+ y +:+ z).
Proof. exists "", rest. by rewrite !string_app_assoc. Qed.

(** Find a piece, or two or three adjacent pieces, of a concatenation. *)
Ltac contains_piece :=
  repeat first
    [ apply contains_refl
    | apply contains_app_r, contains_refl
    | apply contains_app_l ].

Ltac contains_piece2 :=
  repeat first [ apply contains_head2 | apply contains_app_l ].

Ltac contains_piece3 :=
  repeat first [ apply contains_head3 | apply contains_app_l ].

(** What the fallback template holds: the date, the profile of the
    organization, the marine data, and its three actions. *)
Lemma fallback_text_contents (lenv : MarineAi.LetterEnv)
    (org : MarineAi.OrganizationProfile)
    (marine_data : MarineAi.MarineHealthData) (a0 a1 a2 : string) :
  let letter := MarineAi.fallback_text lenv org marine_data a0 a1 a2 in
  contains letter ("Date: " +:+ MarineAi.today lenv)
  ∧ contains letter (MarineAi.name org)
  ∧ contains letter ("Dear " +:+ MarineAi.target_audience org +:+ ",")
  ∧ contains letter (MarineAi.region marine_data)
  ∧ contains letter
      (MarineAi.format_1f lenv (MarineAi.current_index marine_data)
       +:+ "/100 for the " +:+ MarineAi.region marine_data)
  ∧ contains letter
      ("We urge you to " +:+ MarineAi.call_to_action org
       +:+ " within the next 30 days.")
  ∧ contains letter (MarineAi.contact_info org)
  ∧ contains letter
      ("1. " +:+ MarineAi.title a0
       +:+ " - Implement enhanced monitoring systems")
  ∧ contains letter
      ("2. " +:+ MarineAi.title a1 +:+ " - Increase resource allocation")
  ∧ contains letter
      ("3. " +:+ MarineAi.title a2 +:+ " - Establish new partnerships")
  ∧ (∀ issue, issue ∈ MarineAi.key_issues marine_data →
              contains letter ("• " +:+ MarineAi.title issue)).
Proof.
  cbv zeta. unfold MarineAi.fallback_text. cbv zeta.
  split; [contains_piece2|].
  split; [contains_piece|].
  split; [contains_piece3|].
  split; [contains_piece|].
  split; [contains_piece3|].
  split; [contains_piece3|].
  split; [contains_piece|].
  split; [contains_piece3|].
  split; [contains_piece3|].
  split; [contains_piece3|].
  intros issue Hin.
  apply contains_trans with
    (join newline ((λ issue, "• " +:+ MarineAi.title issue)
                     <$> MarineAi.key_issues marine_data)).
  - contains_piece.
  - apply join_contains, list_elem_of_fmap. eauto.
Qed.

(** For an organization of the table the fallback template never raises
    and has no effect. *)
Lemma fallback_letter_run (lenv : MarineAi.LetterEnv) (org_key : string)
    (org : MarineAi.OrganizationProfile)
    (marine_data : MarineAi.MarineHealthData) :
  MarineAi.organizations !! org_key = Some org →
  ∃ a0 a1 a2 rest,
    MarineAi.focus_areas org = a0 :: a1 :: a2 :: rest
    ∧ ∀ w, MarineAi._fallback_letter lenv org_key marine_data w =
           (Ok (MarineAi.fallback_text lenv org marine_data a0 a1 a2), w).
Proof.
  intros Horg.
  destruct (organizations_focus_areas org_key org Horg)
    as (a0 & a1 & a2 & rest & Hfa).
  exists a0, a1, a2, rest. split; [exact Hfa|]. intros w.
  unfold MarineAi._fallback_letter, dict_index, MarineAi.list_index.
  rewrite Horg. unfold mbind, M_bind, mret, M_ret. cbn [fst snd].
  rewrite Hfa. reflexivity.
Qed.

(** C1, as stated, fails when the store refuses the write: the run below
    reaches its logging step with a non-empty generated content, the INSERT
    raises, the exception is caught inside the step, and no row is appended
    to the Log Store. *)
Lemma log_append_lost_when_store_fails :
  let run := Agent.run_ocean_tweet_workflow env_store_down (PyStr oil_spill)
                                            empty_world in
  (∃ final, fst run = Ok final
            ∧ dict_get final "tweet" = PyStr "The tide is heavy today. #Ocean")
  ∧ tweet_inserts (trace (snd run)) =
      [("The tide is heavy today. #Ocean", "2025-09-20T12:00:00",
        PyStr oil_spill)]
  ∧ tweets_log (snd run) = []
  ∧ tweets_pending (snd run) = [].
Proof.
  cbv zeta. split; [|by vm_compute].
  eexists. split; [by vm_compute|]. by vm_compute.
Qed.

(** C1, amended. The logging step issues its INSERT if and only if the
    generated content is non-empty at that step, with that content, the
    timestamp and the context summary as its values; the row is appended to
    the Log Store exactly when, in addition, neither the INSERT nor the
    commit raises. Whether the INSERT is issued, and what it writes, is
    independent of the publish outcome: a run leaves the same INSERT
    statements and the same committed rows whatever the channel client is
    and whatever it answers. Along a whole run the content at the logging
    step is the one the generation step produced. The same holds for the
    Facebook variant. *)
Theorem log_insert_iff_content_whatever_publish (env : Env) :
  (∀ (state : gmap string pyval) (w : World),
     fst (Agent.log_tweet env state w) = Ok (Some ∅)
     ∧ tweet_inserts (trace (snd (Agent.log_tweet env state w))) =
         tweet_inserts (trace w)
         ++ (if truthy (dict_get state "tweet")
             then [tweet_insert_of env state] else [])
     ∧ tweets_log (snd (Agent.log_tweet env state w)) =
         if truthy (dict_get state "tweet") && is_ok (sql_insert env)
            && is_ok (sql_commit env)
         then tweets_log w ++ tweets_pending w ++ [logged_tweet_row env state w]
         else tweets_log w)
  ∧ (∀ (state : gmap string pyval) (w : World),
       match fst (run_step "generate_tweet" (Agent.generate_tweet env)
                           state w) with
       | Ok s1 =>
           tweet_inserts (trace (snd (Agent.workflow env state w))) =
             tweet_inserts (trace w)
             ++ (if truthy (dict_get s1 "tweet") then [tweet_insert_of env s1]
                 else [])
           ∧ tweets_log (snd (Agent.workflow env state w)) =
               if truthy (dict_get s1 "tweet") && is_ok (sql_insert env)
                  && is_ok (sql_commit env)
               then tweets_log w ++ tweets_pending w
                    ++ [logged_tweet_row env s1 w]
               else tweets_log w
       | Raise _ =>
           tweet_inserts (trace (snd (Agent.workflow env state w))) =
             tweet_inserts (trace w)
           ∧ tweets_log (snd (Agent.workflow env state w)) = tweets_log w
       end)
  ∧ (∀ (state : gmap string pyval) (w : World)
       (c c' : option (string → result unit)),
       tweet_inserts (trace (snd (Agent.workflow (with_client env c) state w)))
       = tweet_inserts
           (trace (snd (Agent.workflow (with_client env c') state w)))
       ∧ tweets_log (snd (Agent.workflow (with_client env c) state w))
         = tweets_log (snd (Agent.workflow (with_client env c') state w)))
  ∧ (∀ (state : gmap string pyval) (w : World),
       fst (AgentFb.log_post env state w) = Ok (Some ∅)
       ∧ post_inserts (trace (snd (AgentFb.log_post env state w))) =
           post_inserts (trace w)
           ++ (if truthy (dict_get state "post")
               then [post_insert_of env state] else [])
       ∧ posts_log (snd (AgentFb.log_post env state w)) =
           if truthy (dict_get state "post") && is_ok (sql_insert env)
              && is_ok (sql_commit env)
           then posts_log w ++ posts_pending w ++ [logged_post_row env state w]
           else posts_log w)
  ∧ (∀ (state : gmap string pyval) (w : World)
       (p p' : string → result unit),
       post_inserts (trace (snd (AgentFb.workflow (with_poster env p) state w)))
       = post_inserts
           (trace (snd (AgentFb.workflow (with_poster env p') state w)))
       ∧ posts_log (snd (AgentFb.workflow (with_poster env p) state w))
         = posts_log (snd (AgentFb.workflow (with_poster env p') state w))).
Proof.
  split; [|split; [|split; [|split]]].
  - intros state w. rewrite log_tweet_run. cbn [fst snd].
    by rewrite log_tweet_world_inserts, log_tweet_world_log.
  - intros state w. apply agent_workflow_store.
  - intros state w c c'.
    pose proof (agent_workflow_store (with_client env c) state w) as H.
    pose proof (agent_workflow_store (with_client env c') state w) as H'.
    rewrite run_generate_tweet in H, H'. cbn [llm_invoke with_client] in H, H'.
    destruct (state !! "data") as [v|]; [destruct (truthy v)|];
      cbn [fst] in H, H';
      try destruct (llm_invoke env _);
      destruct H as [-> ->], H' as [-> ->]; split; reflexivity.
  - intros state w. rewrite log_post_run. cbn [fst snd].
    by rewrite log_post_world_inserts, log_post_world_log.
  - intros state w p p'.
    pose proof (fb_workflow_store (with_poster env p) state w) as H.
    pose proof (fb_workflow_store (with_poster env p') state w) as H'.
    rewrite run_generate_post in H, H'. cbn [llm_invoke with_poster] in H, H'.
    destruct (state !! "event") as [ev|];
      [destruct (state !! "coordinates") as [co|]|];
      cbn [fst] in H, H';
      try destruct (llm_invoke env _);
      destruct H as [-> ->], H' as [-> ->]; split; reflexivity.
Qed.

(** C2, as stated, fails for the Facebook variant: its generation step has
    no short-circuit. With both payload fields empty it still calls the
    generation service once and returns the service's text, not a sentinel. *)
Lemma facebook_generation_calls_service_on_empty_payload :
  let run := AgentFb.generate_post env_all_up empty_post_state empty_world in
  llm_prompts (trace (snd run)) = [AgentFb.post_prompt (PyStr "") (PyStr "")]
  ∧ fst run = Ok (Some {["post" := PyStr "The tide is heavy today. #Ocean"]}).
Proof. cbv zeta. split; by vm_compute. Qed.

(** C2, amended. In the tweet workflow, when the data field is present and
    is None or the empty string, the generation step performs no
    generation-service call and returns the fixed sentinel
    "Error: No data to generate tweet."; when it is present and non-empty,
    the step performs exactly one call. In the aggregator, an empty record
    list gives the fixed fallback message with no call and a non-empty list
    gives exactly one call. The Facebook generation step has no such
    short-circuit: whenever both payload fields are present it performs
    exactly one call, whatever their values. *)
Theorem generation_short_circuit_per_variant (env : Env) :
  (∀ (state : gmap string pyval) (w : World) (v : pyval),
     state !! "data" = Some v →
     let run := Agent.generate_tweet env state w in
     (v = PyNone ∨ v = PyStr "" →
      llm_prompts (trace (snd run)) = llm_prompts (trace w)
      ∧ fst run =
          Ok (Some {["tweet" := PyStr "Error: No data to generate tweet."]}))
     ∧ (v ≠ PyNone → v ≠ PyStr "" →
        llm_prompts (trace (snd run)) =
          llm_prompts (trace w) ++ [Agent.tweet_prompt v]))
  ∧ (∀ (state : gmap string sval) (w : World) (tweets : list weekly_tweet),
       default (SList []) (state !! "weekly_tweets") = SList tweets →
       let run := SummaryAgent.generate_summary_tweet env state w in
       (tweets = [] →
        llm_prompts (trace (snd run)) = llm_prompts (trace w)
        ∧ fst run =
            Ok (Some {["summary_tweet" :=
                         SStr "🌊 This week I've been quietly observing... No major incidents to report, but I'm always here, always watching. #Ocean #WeeklySummary"]}))
       ∧ (tweets ≠ [] →
          llm_prompts (trace (snd run)) =
            llm_prompts (trace w)
            ++ [SummaryAgent.summary_prompt (tweets_text tweets)]))
  ∧ (∀ (state : gmap string pyval) (w : World) (ev co : pyval),
       state !! "event" = Some ev → state !! "coordinates" = Some co →
       let run := AgentFb.generate_post env state w in
       llm_prompts (trace (snd run)) =
         llm_prompts (trace w) ++ [AgentFb.post_prompt ev co]).
Proof.
  split; [|split].
  - intros state w v Hdata run. subst run. split.
    + intros Hv%truthy_false_iff.
      rewrite (generate_tweet_falsy _ _ _ v Hdata Hv). cbn [fst snd].
      split; [|reflexivity]. trace_simpl. reflexivity.
    + intros Hn Hs.
      assert (truthy v = true) as Hv.
      { destruct (truthy v) eqn:E; [done|].
        apply truthy_false_iff in E as [?|?]; contradiction. }
      rewrite (generate_tweet_truthy _ _ _ v Hdata Hv). cbn [fst snd].
      trace_simpl. reflexivity.
  - intros state w tweets Hl run. subst run. split.
    + intros ->. rewrite generate_summary_tweet_empty by (by rewrite Hl).
      cbn [fst snd]. split; [|reflexivity]. trace_simpl. reflexivity.
    + intros Hne.
      assert (state !! "weekly_tweets" = Some (SList tweets)) as Hst.
      { destruct (state !! "weekly_tweets") as [x|]; cbn in Hl;
          [by subst x|]. congruence. }
      rewrite (generate_summary_tweet_records _ _ _ tweets Hst Hne).
      cbn [fst snd]. trace_simpl. reflexivity.
  - intros state w ev co Hev Hco run. subst run.
    rewrite (generate_post_run _ _ _ ev co Hev Hco). cbn [fst snd].
    trace_simpl. reflexivity.
Qed.

(** The amended C2 on the scenarios of its three variants. *)
Lemma generation_short_circuit_per_variant_witness :
  (llm_prompts
     (trace (snd (Agent.generate_tweet
                    env_all_up (<["data" := PyStr ""]> no_data_state)
                    empty_world))) = []
   ∧ fst (Agent.generate_tweet
            env_all_up (<["data" := PyStr ""]> no_data_state) empty_world)
     = Ok (Some {["tweet" := PyStr "Error: No data to generate tweet."]}))
  ∧ llm_prompts
      (trace (snd (SummaryAgent.generate_summary_tweet
                     env_all_up (<["weekly_tweets" := SList []]> ∅)
                     empty_world))) = []
  ∧ llm_prompts
      (trace (snd (AgentFb.generate_post env_all_up empty_post_state
                                         empty_world)))
    = [AgentFb.post_prompt (PyStr "") (PyStr "")].
Proof.
  destruct (generation_short_circuit_per_variant env_all_up)
    as (Htweet & Hsum & Hfb).
  split; [|split].
  - apply (Htweet (<["data" := PyStr ""]> no_data_state) empty_world
                  (PyStr "")); [by vm_compute|].
    right. reflexivity.
  - apply (Hsum (<["weekly_tweets" := SList []]> ∅) empty_world []);
      [by vm_compute|reflexivity].
  - apply (Hfb empty_post_state empty_world (PyStr "") (PyStr ""));
      by vm_compute.
Defined.

(** * The claims *)

(** C3. Publish never raises to its caller, for every content value and
    every state of the channel client. When the client is absent or the
    content is absent (the field missing, None, or the empty string) the
    publisher makes no delivery attempt and only prints the skipped notice;
    otherwise it makes exactly one attempt, and when that attempt raises the
    exception is caught inside the publisher, printed as the failure
    diagnostic, and nothing is retried. This holds for the tweet publisher,
    for the Facebook publisher (whose client always exists) and for the
    weekly summary publisher. *)
Theorem publish_never_raises_single_attempt (env : Env) :
  (∀ (state : gmap string pyval) (w : World),
     ∃ w', Agent.post_tweet env state w = (Ok None, w')
       ∧ tweets_sent (trace w') =
           tweets_sent (trace w)
           ++ attempts (bool_decide (is_Some (client env)))
                       (truthy (dict_get state "tweet"))
                       (py_format (dict_get state "tweet"))
       ∧ printed (trace w') =
           printed (trace w)
           ++ "...Attempting to post tweet..." ::
              match client env with
              | Some send =>
                  if truthy (dict_get state "tweet") then
                    match send (py_format (dict_get state "tweet")) with
                    | Ok _ =>
                        ["**SUCCESS:** Tweet content generated and ready to post: "
                         +:+ newline +:+ squote
                         +:+ py_format (dict_get state "tweet") +:+ squote]
                    | Raise e =>
                        ["Error posting tweet: " +:+ exn_str e;
                         "Error...no tweet or client connection found to post!"]
                    end
                  else ["Error...no tweet or client connection found to post!"]
              | None =>
                  ["Error...no tweet or client connection found to post!"]
              end)
  ∧ (∀ (state : gmap string pyval) (w : World),
       ∃ w', AgentFb.post_facebook_node env state w = (Ok (Some ∅), w')
         ∧ posts_sent (trace w') =
             posts_sent (trace w)
             ++ attempts true (truthy (dict_get state "post"))
                         (py_format (dict_get state "post"))
         ∧ printed (trace w') =
             printed (trace w)
             ++ if truthy (dict_get state "post") then
                  match poster_put_object env
                          (py_format (dict_get state "post")) with
                  | Ok _ =>
                      ["✅ Posted to Facebook Page:" +:+ newline
                       +:+ py_format (dict_get state "post")]
                  | Raise e => ["❌ Error posting to Facebook: " +:+ exn_str e]
                  end
                else [])
  ∧ (∀ (state : gmap string sval) (w : World),
       ∃ w', SummaryAgent.post_summary_tweet env state w = (Ok None, w')
         ∧ tweets_sent (trace w') =
             tweets_sent (trace w)
             ++ attempts (bool_decide (is_Some (client env)))
                         (struthy (default SNone (state !! "summary_tweet")))
                         (sval_format env
                            (default SNone (state !! "summary_tweet")))
         ∧ printed (trace w') =
             printed (trace w)
             ++ "...Attempting to post weekly summary tweet..." ::
                match client env with
                | Some send =>
                    if struthy (default SNone (state !! "summary_tweet")) then
                      match send (sval_format env
                                    (default SNone (state !! "summary_tweet")))
                      with
                      | Ok _ =>
                          ["**SUCCESS:** Weekly summary tweet posted: "
                           +:+ newline +:+ squote
                           +:+ sval_format env
                                 (default SNone (state !! "summary_tweet"))
                           +:+ squote]
                      | Raise e =>
                          ["Error posting summary tweet: " +:+ exn_str e;
                           "Error...no tweet or client connection found to post!"]
                      end
                    else
                      ["Error...no tweet or client connection found to post!"]
                | None =>
                    ["Error...no tweet or client connection found to post!"]
                end).
Proof.
  split; [|split].
  - intros state w. eexists. split; [apply post_tweet_run|].
    cbn [trace add_events]. rewrite tweets_sent_app, printed_app.
    rewrite post_tweet_events_sent. split; [reflexivity|].
    f_equal. unfold post_tweet_events.
    destruct (client env) as [send|]; cbn;
      [destruct (truthy (dict_get state "tweet")); cbn;
       [destruct (send _) as [[]|e]|]|]; reflexivity.
  - intros state w. eexists. split; [apply post_facebook_run|].
    cbn [trace add_events]. rewrite posts_sent_app, printed_app.
    rewrite post_facebook_events_sent. split; [reflexivity|].
    f_equal. unfold post_facebook_events.
    destruct (truthy (dict_get state "post")); cbn;
      [destruct (poster_put_object env _) as [[]|e]|]; reflexivity.
  - intros state w. eexists. split; [apply post_summary_tweet_run|].
    cbn [trace add_events]. rewrite tweets_sent_app, printed_app.
    rewrite post_summary_events_sent. split; [reflexivity|].
    f_equal. unfold post_summary_events.
    destruct (client env) as [send|]; cbn;
      [destruct (struthy (default SNone (state !! "summary_tweet"))); cbn;
       [destruct (send _) as [[]|e]|]|]; reflexivity.
Qed.

(** C4. The aggregator's generation step: when the retrieved record list is
    empty it returns the fixed fallback reflective message, the non-empty
    text spelled below, and performs no generation-service call; when the list has N >= 1 records it performs
    exactly one call, and the prompt of that call contains the content of
    every one of the N records. The same holds along a whole run, for the
    records the retrieval step has just read from a store of
    [datetime.isoformat()] timestamps. *)
Theorem aggregator_fallback_or_single_call (env : Env) :
  (∀ (state : gmap string sval) (w : World) (tweets : list weekly_tweet),
     default (SList []) (state !! "weekly_tweets") = SList tweets →
     let run := SummaryAgent.generate_summary_tweet env state w in
     (tweets = [] →
      fst run =
        Ok (Some {["summary_tweet" :=
                     SStr "🌊 This week I've been quietly observing... No major incidents to report, but I'm always here, always watching. #Ocean #WeeklySummary"]})
      ∧ llm_prompts (trace (snd run)) = llm_prompts (trace w))
     ∧ (tweets ≠ [] →
        ∃ prompt,
          llm_prompts (trace (snd run)) = llm_prompts (trace w) ++ [prompt]
          ∧ ∀ t, t ∈ tweets → contains prompt (content t)))
  ∧ (∀ (state : gmap string sval) (w : World),
       is_isoformat (seven_days_ago env) = true →
       Forall (λ r, is_isoformat (tweet_datetime r) = true) (tweets_log w) →
       sql_select env = Ok tt →
       let rows :=
         SummaryAgent.select_since (seven_days_ago env) (tweets_log w) in
       let run := SummaryAgent.summary_workflow env state w in
       (rows = [] →
        llm_prompts (trace (snd run)) = llm_prompts (trace w)
        ∧ ∃ final, fst run = Ok final
            ∧ final !! "summary_tweet"
              = Some (SStr "🌊 This week I've been quietly observing... No major incidents to report, but I'm always here, always watching. #Ocean #WeeklySummary"))
       ∧ (rows ≠ [] →
          ∃ prompt,
            llm_prompts (trace (snd run)) = llm_prompts (trace w) ++ [prompt]
            ∧ ∀ r, r ∈ rows → contains prompt (tweet_content r))).
Proof.
  split.
  - intros state w tweets Hl run. subst run. split.
    + intros ->. rewrite generate_summary_tweet_empty by (by rewrite Hl).
      cbn [fst snd]. split; [reflexivity|]. trace_simpl. reflexivity.
    + intros Hne.
      assert (state !! "weekly_tweets" = Some (SList tweets)) as Hst.
      { destruct (state !! "weekly_tweets") as [x|]; cbn in Hl;
          [by subst x|congruence]. }
      rewrite (generate_summary_tweet_records _ _ _ tweets Hst Hne).
      cbn [fst snd]. eexists. split; [trace_simpl; reflexivity|].
      apply tweets_text_contains.
  - intros state w _ _ Hsel rows run. subst run.
    rewrite summary_workflow_after_generate, run_retrieve_weekly_tweets.
    fold rows. cbv zeta. rewrite Hsel.
    rewrite (run_generate_summary_tweet env _ _ (weekly_of_rows rows))
      by (by rewrite lookup_insert_eq).
    split.
    + intros Hrows. rewrite Hrows. cbn [weekly_of_rows fmap list_fmap].
      cbn [fst snd]. split.
      * rewrite !trace_add_events, !llm_prompts_app, !llm_prompts_enter.
        rewrite (proj2 (post_summary_events_quiet env _)).
        cbn. by rewrite !app_nil_r.
      * eexists. split; [reflexivity|]. by rewrite lookup_insert_eq.
    + intros Hrows.
      destruct (weekly_of_rows rows) as [|t ts] eqn:Hw.
      { by apply weekly_of_rows_nil in Hw. }
      rewrite <- Hw.
      exists (SummaryAgent.summary_prompt (tweets_text (weekly_of_rows rows))).
      split.
      * destruct (llm_invoke env _) as [reply|e]; cbn [fst snd];
          rewrite !trace_add_events, !llm_prompts_app,
            ?llm_prompts_enter, ?(proj2 (post_summary_events_quiet env _));
          cbn; by rewrite ?app_nil_r, <- ?app_assoc.
      * intros r Hr.
        apply (tweets_text_contains (weekly_of_rows rows)
                 (WeeklyTweet (tweet_content r) (tweet_datetime r)
                              (data_summary r))).
        unfold weekly_of_rows. apply list_elem_of_fmap. eauto.
Qed.

(** C4 on a store of three rows, two of them within the week: one call, and
    its prompt holds both retrieved contents. *)
Lemma aggregator_fallback_or_single_call_witness :
  ∃ prompt,
    llm_prompts
      (trace (snd (SummaryAgent.summary_workflow
                     env_all_up (<["weekly_tweets" := SList []]> ∅)
                     three_rows_world))) = [prompt]
    ∧ contains prompt "Oil on my skin near Chittagong. #OilSpill"
    ∧ contains prompt "Warm currents today. #Ocean".
Proof.
  destruct (aggregator_fallback_or_single_call env_all_up) as [_ Hrun].
  assert (Forall (λ r, is_isoformat (tweet_datetime r) = true)
                 (tweets_log three_rows_world)) as Hrows
    by (repeat constructor).
  destruct (Hrun (<["weekly_tweets" := SList []]> ∅) three_rows_world
                 eq_refl Hrows eq_refl)
    as [_ Hsome].
  destruct Hsome as (prompt & Hcalls & Hin); [by vm_compute|].
  exists prompt. split; [exact Hcalls|].
  split.
  - apply (Hin (TweetRow 3 "Oil on my skin near Chittagong. #OilSpill"
                         "2025-09-19T23:59:59.999999" (PyStr oil_spill))).
    vm_compute. apply list_elem_of_here.
  - apply (Hin (TweetRow 1 "Warm currents today. #Ocean"
                         "2025-09-14T08:30:00.120000"
                         (PyStr "sea surface temperature anomaly"))).
    vm_compute. apply list_elem_of_further, list_elem_of_here.
Defined.

(** C5. Timestamps are written and queried as [datetime.isoformat()]
    strings. For every store of such timestamps and every such cutoff, the
    Log Store query returns exactly the records whose timestamp is at or
    after the cutoff (each as often as the store holds it, none below the
    cutoff, none at or above it missed), ordered newest-first by timestamp,
    records of one timestamp in the order they were appended. Consequently
    a record the logging step has appended and committed is returned by a
    following query whose cutoff is at or before the record's timestamp, and
    the retrieval step of a following aggregator run lists it. In the
    aggregator the cutoff is the rendering of now minus seven days. *)
Theorem query_since_exact_newest_first :
  (∀ (since : string) (table : list tweet_row),
     is_isoformat since = true →
     Forall (λ r, is_isoformat (tweet_datetime r) = true) table →
     SummaryAgent.select_since since table ≡ₚ
       List.filter (λ r, bool_decide (String.le since (tweet_datetime r)))
                   table
     ∧ (∀ r, r ∈ SummaryAgent.select_since since table ↔
             r ∈ table ∧ String.le since (tweet_datetime r))
     ∧ StronglySorted
         (λ a b, String.le (tweet_datetime b) (tweet_datetime a))
         (SummaryAgent.select_since since table)
     ∧ (∀ t,
          List.filter (λ r, bool_decide (tweet_datetime r = t))
                      (SummaryAgent.select_since since table) =
          List.filter
            (λ r, bool_decide (tweet_datetime r = t))
            (List.filter
               (λ r, bool_decide (String.le since (tweet_datetime r)))
               table)))
  ∧ (∀ (env : Env) (state : gmap string pyval) (w : World) (since : string),
       is_isoformat since = true →
       is_isoformat (isoformat env (now env)) = true →
       truthy (dict_get state "tweet") = true →
       sql_insert env = Ok tt → sql_commit env = Ok tt →
       String.le since (isoformat env (now env)) →
       logged_tweet_row env state w ∈
         SummaryAgent.select_since
           since (tweets_log (snd (Agent.log_tweet env state w))))
  ∧ (∀ (env : Env) (state : gmap string sval) (w : World),
       seven_days_ago env = isoformat env (now env - 7 * 86400 * 1000000)
       ∧ SqlSelectSince (seven_days_ago env) ∈
           trace (snd (SummaryAgent.retrieve_weekly_tweets env state w))
       ∧ (is_isoformat (seven_days_ago env) = true →
          Forall (λ r, is_isoformat (tweet_datetime r) = true)
                 (tweets_log w) →
          sql_select env = Ok tt →
          fst (SummaryAgent.retrieve_weekly_tweets env state w) =
            Ok (Some {["weekly_tweets" :=
                         SList (weekly_of_rows
                                  (SummaryAgent.select_since
                                     (seven_days_ago env) (tweets_log w)))]})))
  ∧ (∀ (env env' : Env) (state : gmap string pyval)
       (state' : gmap string sval) (w : World),
       is_isoformat (seven_days_ago env') = true →
       is_isoformat (isoformat env (now env)) = true →
       truthy (dict_get state "tweet") = true →
       sql_insert env = Ok tt → sql_commit env = Ok tt →
       sql_select env' = Ok tt →
       String.le (seven_days_ago env') (isoformat env (now env)) →
       ∃ tweets,
         fst (SummaryAgent.retrieve_weekly_tweets
                env' state' (snd (Agent.log_tweet env state w)))
         = Ok (Some {["weekly_tweets" := SList tweets]})
         ∧ WeeklyTweet (py_format (dict_get state "tweet"))
                       (isoformat env (now env)) (logged_summary state)
           ∈ tweets).
Proof.
  assert (∀ (env : Env) (state : gmap string pyval) (w : World)
            (since : string),
            truthy (dict_get state "tweet") = true →
            sql_insert env = Ok tt → sql_commit env = Ok tt →
            String.le since (isoformat env (now env)) →
            logged_tweet_row env state w ∈
              SummaryAgent.select_since
                since (tweets_log (snd (Agent.log_tweet env state w))))
    as Hvisible.
  { intros env state w since Ht Hins Hcom Hle.
    rewrite log_tweet_run. cbn [snd]. rewrite log_tweet_world_log.
    rewrite Ht, Hins, Hcom. cbn [is_ok andb].
    apply select_since_elem. split; [|exact Hle].
    rewrite !elem_of_app, list_elem_of_singleton. auto. }
  split; [|split; [|split]].
  - intros since table _ _. split; [apply select_since_perm|].
    split; [apply select_since_elem|].
    split; [apply select_since_sorted|].
    intros t. apply select_since_same.
  - intros env state w since _ _. apply Hvisible.
  - intros env state w. split; [reflexivity|].
    rewrite retrieve_weekly_tweets_run. cbv zeta. split.
    + destruct (sql_select env); cbn [snd]; rewrite trace_add_events;
        apply elem_of_app; right;
        apply list_elem_of_further, list_elem_of_here.
    + by intros _ _ ->.
  - intros env env' state state' w _ _ Ht Hins Hcom Hsel Hle.
    rewrite retrieve_weekly_tweets_run. cbv zeta. rewrite Hsel. cbn [fst].
    eexists. split; [reflexivity|].
    unfold weekly_of_rows. apply list_elem_of_fmap.
    exists (logged_tweet_row env state w). split; [reflexivity|].
    by apply Hvisible.
Qed.

(** C5 on the nominal scenario: the row logged at noon is listed by the
    aggregator run that follows, whose cutoff is a week earlier. *)
Lemma query_since_exact_newest_first_witness :
  ∃ tweets,
    fst (SummaryAgent.retrieve_weekly_tweets
           env_all_up ∅
           (snd (Agent.log_tweet env_all_up generated_state
                                 three_rows_world)))
    = Ok (Some {["weekly_tweets" := SList tweets]})
    ∧ WeeklyTweet "The tide is heavy today. #Ocean" "2025-09-20T12:00:00"
                  (PyStr oil_spill) ∈ tweets.
Proof.
  destruct query_since_exact_newest_first as (_ & _ & _ & Hraw).
  apply (Hraw env_all_up env_all_up generated_state ∅ three_rows_world);
    by vm_compute.
Defined.

(** The store of the scenario holds isoformat timestamps only, and so does
    the cutoff of the run. *)
Example scenario_timestamps_are_isoformat :
  Forall (λ r, is_isoformat (tweet_datetime r) = true) three_rows
  ∧ is_isoformat (seven_days_ago env_all_up) = true
  ∧ is_isoformat (isoformat env_all_up (now env_all_up)) = true.
Proof. split; [|split]; [repeat constructor|reflexivity|reflexivity]. Qed.

(** C6, as stated, fails when the generation service raises: the exception
    is not caught in the generation step, the run below aborts there,
    neither the publish step nor the log step is entered, and no final state
    is returned. *)
Lemma run_aborts_in_generation_when_service_raises :
  let run := Agent.run_ocean_tweet_workflow env_llm_down (PyStr oil_spill)
                                            empty_world in
  fst run = Raise (ExternalError "429 quota exceeded")
  ∧ entered (trace (snd run)) = ["generate_tweet"].
Proof. cbv zeta. split; by vm_compute. Qed.

(** C6, amended. Every pipeline is the strictly sequential composition
    generate -> publish -> log (retrieve -> generate -> publish for the
    aggregator), each step entered once, in that order, on the state merged
    from the steps before it, with no cycle and no branch. A failure inside
    the publish step or the log step is caught inside that step: both steps
    always return, and hand on the state they received. So every run whose
    earlier steps (generation, and retrieval in the aggregator) do not raise
    enters its three steps in order, reaches the terminal step and returns a
    final state; for the tweet entry point this is every run in which the
    generation service does not raise. *)
Theorem pipelines_linear_sinks_never_abort (env : Env) :
  (∀ (state : gmap string pyval) (w : World),
     Agent.workflow env state w =
     pipeline3 "generate_tweet" (Agent.generate_tweet env)
               "post_tweet" (Agent.post_tweet env)
               "log_tweet" (Agent.log_tweet env) state w)
  ∧ (∀ (state : gmap string pyval) (w : World),
       AgentFb.workflow env state w =
       pipeline3 "generate_post" (AgentFb.generate_post env)
                 "post_facebook" (AgentFb.post_facebook_node env)
                 "log_post" (AgentFb.log_post env) state w)
  ∧ (∀ (state : gmap string sval) (w : World),
       SummaryAgent.summary_workflow env state w =
       pipeline3 "retrieve_weekly_tweets"
                 (SummaryAgent.retrieve_weekly_tweets env)
                 "generate_summary_tweet"
                 (SummaryAgent.generate_summary_tweet env)
                 "post_summary_tweet"
                 (SummaryAgent.post_summary_tweet env) state w)
  ∧ (∀ (s : gmap string pyval) (w : World),
       fst (run_step "post_tweet" (Agent.post_tweet env) s w) = Ok s
       ∧ fst (run_step "log_tweet" (Agent.log_tweet env) s w) = Ok s
       ∧ fst (run_step "post_facebook" (AgentFb.post_facebook_node env) s w)
         = Ok s
       ∧ fst (run_step "log_post" (AgentFb.log_post env) s w) = Ok s)
  ∧ (∀ (s : gmap string sval) (w : World),
       fst (run_step "post_summary_tweet"
                     (SummaryAgent.post_summary_tweet env) s w) = Ok s)
  ∧ (∀ (state s1 : gmap string pyval) (w : World),
       fst (run_step "generate_tweet" (Agent.generate_tweet env) state w)
       = Ok s1 →
       fst (Agent.workflow env state w) = Ok s1
       ∧ entered (trace (snd (Agent.workflow env state w))) =
           entered (trace w) ++ ["generate_tweet"; "post_tweet"; "log_tweet"])
  ∧ (∀ (state s1 : gmap string pyval) (w : World),
       fst (run_step "generate_post" (AgentFb.generate_post env) state w)
       = Ok s1 →
       fst (AgentFb.workflow env state w) = Ok s1
       ∧ entered (trace (snd (AgentFb.workflow env state w))) =
           entered (trace w) ++ ["generate_post"; "post_facebook"; "log_post"])
  ∧ (∀ (state s1 s2 : gmap string sval) (w w1 : World),
       run_step "retrieve_weekly_tweets"
                (SummaryAgent.retrieve_weekly_tweets env) state w
       = (Ok s1, w1) →
       fst (run_step "generate_summary_tweet"
                     (SummaryAgent.generate_summary_tweet env) s1 w1)
       = Ok s2 →
       fst (SummaryAgent.summary_workflow env state w) = Ok s2
       ∧ entered (trace (snd (SummaryAgent.summary_workflow env state w))) =
           entered (trace w)
           ++ ["retrieve_weekly_tweets"; "generate_summary_tweet";
               "post_summary_tweet"])
  ∧ (∀ (satellite_data : pyval) (w : World),
       (truthy satellite_data = true →
        is_ok (llm_invoke env (Agent.tweet_prompt satellite_data)) = true) →
       ∃ final_state,
         fst (Agent.run_ocean_tweet_workflow env satellite_data w)
         = Ok final_state
         ∧ entered (trace (snd (Agent.run_ocean_tweet_workflow
                                  env satellite_data w))) =
             entered (trace w)
             ++ ["generate_tweet"; "post_tweet"; "log_tweet"]).
Proof.
  assert (∀ (state s1 : gmap string pyval) (w : World),
            fst (run_step "generate_tweet" (Agent.generate_tweet env) state w)
            = Ok s1 →
            fst (Agent.workflow env state w) = Ok s1
            ∧ entered (trace (snd (Agent.workflow env state w))) =
                entered (trace w)
                ++ ["generate_tweet"; "post_tweet"; "log_tweet"]) as Htweet.
  { intros state s1 w Hgen. split.
    - rewrite agent_workflow_after_generate.
      destruct (run_step "generate_tweet" _ state w) as [[s|e] w1];
        cbn [fst] in *; congruence.
    - rewrite agent_workflow_entered, Hgen. reflexivity. }
  split; [apply agent_workflow_linear|].
  split; [apply fb_workflow_linear|].
  split; [apply summary_workflow_linear|].
  split.
  { intros s w.
    by rewrite run_step_post_tweet, run_step_log_tweet,
      run_step_post_facebook, run_step_log_post. }
  split; [intros s w; by rewrite run_step_post_summary|].
  split; [exact Htweet|].
  split.
  { intros state s1 w Hgen. split.
    - rewrite fb_workflow_after_generate.
      destruct (run_step "generate_post" _ state w) as [[s|e] w1];
        cbn [fst] in *; congruence.
    - rewrite fb_workflow_entered, Hgen. reflexivity. }
  split.
  { intros state s1 s2 w w1 Hret Hgen. split.
    - rewrite summary_workflow_after_generate, Hret.
      destruct (run_step "generate_summary_tweet" _ s1 w1) as [[s|e] w2];
        cbn [fst] in *; congruence.
    - rewrite summary_workflow_entered, Hret, Hgen. reflexivity. }
  intros data w Hllm.
  rewrite run_ocean_tweet_workflow_unfold.
  set (w0 := add_events w [Stdout "--- Starting Ocean Tweet Workflow ---"]).
  assert (∃ s1, fst (run_step "generate_tweet" (Agent.generate_tweet env)
                              (initial_tweet_state data) w0) = Ok s1)
    as [s1 Hgen].
  { rewrite run_generate_tweet. unfold initial_tweet_state.
    rewrite lookup_insert_eq.
    destruct (truthy data) eqn:Hd; [|cbn; eauto].
    specialize (Hllm eq_refl).
    destruct (llm_invoke env _); [cbn; eauto|discriminate]. }
  destruct (Htweet _ _ w0 Hgen) as [Hok Hent].
  destruct (Agent.workflow env _ w0) as [[final|e] w'] eqn:Hrun;
    cbn [fst snd] in *; [|discriminate].
  exists final. split; [reflexivity|].
  rewrite trace_add_events, entered_app, Hent. subst w0.
  rewrite trace_add_events, entered_app. cbn. by rewrite !app_nil_r.
Qed.

(** The amended C6 on a run in which the channel rejects the delivery and
    the database refuses the INSERT: the run still enters its three steps in
    order and returns a final state. *)
Lemma pipelines_linear_sinks_never_abort_witness :
  ∃ final_state,
    fst (Agent.run_ocean_tweet_workflow env_sinks_down (PyStr oil_spill)
                                        empty_world) = Ok final_state
    ∧ entered (trace (snd (Agent.run_ocean_tweet_workflow
                             env_sinks_down (PyStr oil_spill) empty_world)))
      = ["generate_tweet"; "post_tweet"; "log_tweet"].
Proof.
  destruct (pipelines_linear_sinks_never_abort env_sinks_down)
    as (_ & _ & _ & _ & _ & _ & _ & _ & Hrun).
  apply (Hrun (PyStr oil_spill) empty_world).
  intros _. reflexivity.
Defined.

(** C7. The publish step never mutates the run state: what it returns to the
    engine is no update at all (a bare return) or the empty update, so the
    merged state is the state it received, field for field. And once the
    generation step has set the generated content field, the run ends with
    exactly the state the generation step handed on: the later steps change
    neither that field nor any other. *)
Theorem publish_keeps_state_content_fixed (env : Env) :
  (∀ (state : gmap string pyval) (w : World),
     fst (Agent.post_tweet env state w) = Ok None
     ∧ fst (run_step "post_tweet" (Agent.post_tweet env) state w) = Ok state)
  ∧ (∀ (state : gmap string pyval) (w : World),
       fst (AgentFb.post_facebook_node env state w) = Ok (Some ∅)
       ∧ fst (run_step "post_facebook" (AgentFb.post_facebook_node env)
                       state w) = Ok state)
  ∧ (∀ (state : gmap string sval) (w : World),
       fst (SummaryAgent.post_summary_tweet env state w) = Ok None
       ∧ fst (run_step "post_summary_tweet"
                       (SummaryAgent.post_summary_tweet env) state w)
         = Ok state)
  ∧ (∀ (state : gmap string pyval) (w : World),
       match run_step "generate_tweet" (Agent.generate_tweet env) state w with
       | (Ok s1, _) =>
           (∃ t, s1 = <["tweet" := PyStr t]> state)
           ∧ fst (Agent.workflow env state w) = Ok s1
       | (Raise e, _) => fst (Agent.workflow env state w) = Raise e
       end)
  ∧ (∀ (state : gmap string pyval) (w : World),
       match run_step "generate_post" (AgentFb.generate_post env) state w with
       | (Ok s1, _) =>
           (∃ t, s1 = <["post" := PyStr t]> state)
           ∧ fst (AgentFb.workflow env state w) = Ok s1
       | (Raise e, _) => fst (AgentFb.workflow env state w) = Raise e
       end)
  ∧ (∀ (state : gmap string sval) (w : World),
       match run_step "retrieve_weekly_tweets"
                      (SummaryAgent.retrieve_weekly_tweets env) state w with
       | (Ok s1, w1) =>
           match run_step "generate_summary_tweet"
                          (SummaryAgent.generate_summary_tweet env) s1 w1 with
           | (Ok s2, _) =>
               (∃ t, s2 = <["summary_tweet" := SStr t]> s1)
               ∧ fst (SummaryAgent.summary_workflow env state w) = Ok s2
           | (Raise e, _) =>
               fst (SummaryAgent.summary_workflow env state w) = Raise e
           end
       | (Raise e, _) =>
           fst (SummaryAgent.summary_workflow env state w) = Raise e
       end).
Proof.
  split; [|split; [|split; [|split; [|split]]]]; intros state w.
  - by rewrite post_tweet_run, run_step_post_tweet.
  - by rewrite post_facebook_run, run_step_post_facebook.
  - by rewrite post_summary_tweet_run, run_step_post_summary.
  - rewrite agent_workflow_after_generate.
    destruct (run_step "generate_tweet" _ state w) as [[s1|e] w1] eqn:Hgen;
      [|reflexivity].
    split; [|reflexivity]. by eapply run_generate_tweet_sets.
  - rewrite fb_workflow_after_generate.
    destruct (run_step "generate_post" _ state w) as [[s1|e] w1] eqn:Hgen;
      [|reflexivity].
    split; [|reflexivity]. by eapply run_generate_post_sets.
  - rewrite summary_workflow_after_generate.
    destruct (run_step "retrieve_weekly_tweets" _ state w) as [[s1|e] w1];
      [|reflexivity].
    destruct (run_step "generate_summary_tweet" _ s1 w1) as [[s2|e] w2]
      eqn:Hgen; [|reflexivity].
    split; [|reflexivity]. by eapply run_generate_summary_sets.
Qed.

(** C8. When the generation-service call raises, the tweet workflow's
    generation step does not catch the exception: the step raises it, the
    run aborts with it, and neither the publish step nor the log step runs.
    The letter generator instead catches any exception raised inside its
    service call (the request, the status check, the decoding, the walk
    through the answer), prints it, and returns the fallback letter, a fixed
    template filled from the organization profile, the marine data and the
    current date: the letter holds the date line, the organization's name,
    audience, call to action and contact, the region and the index, and
    three action lines on the first three focus areas. For an organization
    of its table the generator never raises. *)
Theorem generation_failure_propagates_or_falls_back :
  (∀ (env : Env) (state : gmap string pyval) (w : World) (v : pyval)
     (e : exn),
     state !! "data" = Some v → truthy v = true →
     llm_invoke env (Agent.tweet_prompt v) = Raise e →
     fst (Agent.generate_tweet env state w) = Raise e
     ∧ fst (Agent.workflow env state w) = Raise e
     ∧ entered (trace (snd (Agent.workflow env state w))) =
         entered (trace w) ++ ["generate_tweet"]
     ∧ tweet_inserts (trace (snd (Agent.workflow env state w))) =
         tweet_inserts (trace w)
     ∧ tweets_log (snd (Agent.workflow env state w)) = tweets_log w)
  ∧ (∀ (lenv : MarineAi.LetterEnv) (org_key : string)
       (org : MarineAi.OrganizationProfile)
       (marine_data : MarineAi.MarineHealthData) (w : World),
       MarineAi.organizations !! org_key = Some org →
       ∃ letter a0 a1 a2 rest,
         MarineAi.focus_areas org = a0 :: a1 :: a2 :: rest
         ∧ MarineAi.generate_letter_with_grok lenv org_key marine_data w =
           match MarineAi.request_letter
                   lenv (MarineAi.letter_prompt lenv org marine_data) w with
           | (Ok answer, w1) => (Ok answer, w1)
           | (Raise e, w1) =>
               (Ok (MarineAi.JStr letter),
                add_events w1
                  [Stdout ("Error calling OpenRouter API: " +:+ exn_str e)])
           end
         ∧ MarineAi._fallback_letter lenv org_key marine_data w =
           (Ok letter, w)
         ∧ contains letter ("Date: " +:+ MarineAi.today lenv)
         ∧ contains letter (MarineAi.name org)
         ∧ contains letter ("Dear " +:+ MarineAi.target_audience org +:+ ",")
         ∧ contains letter (MarineAi.region marine_data)
         ∧ contains letter
             (MarineAi.format_1f lenv (MarineAi.current_index marine_data)
              +:+ "/100 for the " +:+ MarineAi.region marine_data)
         ∧ contains letter
             ("We urge you to " +:+ MarineAi.call_to_action org
              +:+ " within the next 30 days.")
         ∧ contains letter (MarineAi.contact_info org)
         ∧ contains letter
             ("1. " +:+ MarineAi.title a0
              +:+ " - Implement enhanced monitoring systems")
         ∧ contains letter
             ("2. " +:+ MarineAi.title a1
              +:+ " - Increase resource allocation")
         ∧ contains letter
             ("3. " +:+ MarineAi.title a2
              +:+ " - Establish new partnerships")).
Proof.
  split.
  - intros env state w v e Hdata Hv Hllm.
    pose proof (run_generate_tweet env state w) as Hgen.
    rewrite Hdata, Hv, Hllm in Hgen.
    split.
    { rewrite (generate_tweet_truthy _ _ _ v Hdata Hv). by rewrite Hllm. }
    split.
    { rewrite agent_workflow_after_generate. by rewrite Hgen. }
    split.
    { rewrite agent_workflow_entered. by rewrite Hgen. }
    pose proof (agent_workflow_store env state w) as Hstore.
    rewrite Hgen in Hstore. exact Hstore.
  - intros lenv org_key org marine_data w Horg.
    destruct (fallback_letter_run lenv org_key org marine_data Horg)
      as (a0 & a1 & a2 & rest & Hfa & Hfb).
    exists (MarineAi.fallback_text lenv org marine_data a0 a1 a2),
      a0, a1, a2, rest.
    split; [exact Hfa|]. split.
    { unfold MarineAi.generate_letter_with_grok, dict_index.
      rewrite Horg. unfold mbind at 1, M_bind at 1, mret at 1, M_ret at 1.
      cbn [fst snd]. unfold try_except.
      destruct (MarineAi.request_letter _ _ w) as [[answer|e] w1];
        [reflexivity|].
      unfold py_print, emit. unfold mbind at 1, M_bind at 1. cbn [fst snd].
      unfold mbind, M_bind. rewrite Hfb. reflexivity. }
    split; [apply Hfb|].
    pose proof (fallback_text_contents lenv org marine_data a0 a1 a2) as H.
    cbv zeta in H. tauto.
Qed.

(** C8 on the tweet run whose service is out of quota, and on a letter
    request that is answered 503: the first raises, the second returns a
    letter. *)
Lemma generation_failure_propagates_or_falls_back_witness :
  fst (Agent.workflow env_llm_down (initial_tweet_state (PyStr oil_spill))
                      empty_world)
  = Raise (ExternalError "429 quota exceeded")
  ∧ ∃ letter,
      fst (MarineAi.generate_letter_with_grok
             lenv_unavailable "communities" bay_of_bengal empty_world)
      = Ok (MarineAi.JStr letter).
Proof.
  destruct generation_failure_propagates_or_falls_back as [Htweet Hletter].
  split.
  - apply (Htweet env_llm_down (initial_tweet_state (PyStr oil_spill))
                  empty_world (PyStr oil_spill)
                  (ExternalError "429 quota exceeded"));
      by vm_compute.
  - assert (MarineAi.organizations !! "communities" =
            Some (MarineAi.mkOrganizationProfile
                    "Coastal Communities Alliance"
                    "Local Communities, Volunteers, Community Leaders, Residents"
                    "passionate, community-focused, inspiring"
                    ["grassroots action"; "local impact";
                     "community engagement"; "educational programs"]
                    "join local conservation efforts and engage in community marine protection"
                    "dheunsac@gmail.com")) as Horg by (by vm_compute).
    destruct (Hletter lenv_unavailable "communities" _ bay_of_bengal
                      empty_world Horg)
      as (letter & a0 & a1 & a2 & rest & _ & Hrun & _).
    rewrite Hrun. exists letter. reflexivity.
Defined.

(** C9, as stated, fails when the payload is absent from the run state:
    the prompt is formatted from [state['data']] before the truthiness
    check, so a state without the key makes the step raise KeyError instead
    of returning the sentinel. *)
Lemma generate_tweet_raises_on_absent_data :
  let run := Agent.generate_tweet env_all_up no_data_state empty_world in
  fst run = Raise (KeyError "data")
  ∧ llm_prompts (trace (snd run)) = [].
Proof. cbv zeta. split; by vm_compute. Qed.

(** C9, amended. In the tweet workflow the empty-payload check is the
    truthiness of the data field once that field is present in the run
    state: the step returns the sentinel without calling the service exactly
    when the value is None or the empty string; every other string, a
    whitespace-only one such as " " included, is treated as non-empty, and
    one generation-service call is made whose prompt embeds that payload. *)
Theorem generate_tweet_checks_truthiness (env : Env)
    (state : gmap string pyval) (w : World) (v : pyval) :
  state !! "data" = Some v →
  let run := Agent.generate_tweet env state w in
  (v = PyNone ∨ v = PyStr "" ↔
   fst run = Ok (Some {["tweet" := PyStr "Error: No data to generate tweet."]})
   ∧ llm_prompts (trace (snd run)) = llm_prompts (trace w))
  ∧ (∀ s : string, v = PyStr s → s ≠ "" →
       llm_prompts (trace (snd run)) =
         llm_prompts (trace w) ++ [Agent.tweet_prompt (PyStr s)]
       ∧ contains (Agent.tweet_prompt (PyStr s)) s
       ∧ fst run =
           match llm_invoke env (Agent.tweet_prompt (PyStr s)) with
           | Ok reply => Ok (Some {["tweet" := PyStr (strip reply)]})
           | Raise e => Raise e
           end).
Proof.
  intros Hdata run. subst run. split; [split|].
  - intros Hv%truthy_false_iff.
    rewrite (generate_tweet_falsy _ _ _ v Hdata Hv). cbn [fst snd].
    split; [reflexivity|]. trace_simpl. reflexivity.
  - intros [_ Hcalls]. apply truthy_false_iff.
    destruct (truthy v) eqn:Hv; [|reflexivity]. exfalso.
    rewrite (generate_tweet_truthy _ _ _ v Hdata Hv) in Hcalls.
    cbn [fst snd] in Hcalls. revert Hcalls. trace_simpl.
    apply app_singleton_neq.
  - intros s -> Hs.
    assert (truthy (PyStr s) = true) as Hv by (by destruct s).
    rewrite (generate_tweet_truthy _ _ _ _ Hdata Hv). cbn [fst snd].
    split; [trace_simpl; reflexivity|]. split; [|reflexivity].
    unfold Agent.tweet_prompt. cbn [py_format].
    do 3 apply contains_app_l. apply contains_refl.
Qed.

(** The amended C9 on the payload " ": one call, the blank in the prompt. *)
Lemma generate_tweet_checks_truthiness_witness :
  llm_prompts
    (trace (snd (Agent.generate_tweet env_all_up blank_data_state
                                      empty_world)))
  = [Agent.tweet_prompt (PyStr " ")]
  ∧ contains (Agent.tweet_prompt (PyStr " ")) " ".
Proof.
  assert (blank_data_state !! "data" = Some (PyStr " ")) as Hdata
    by (by vm_compute).
  destruct (generate_tweet_checks_truthiness
              env_all_up blank_data_state empty_world (PyStr " ") Hdata)
    as [_ H].
  destruct (H " " eq_refl) as (Hcalls & Hin & _); [discriminate|].
  split; [exact Hcalls|exact Hin].
Defined.

(** C10, as stated, fails when the data field is present with the value
    None: the default of [state.get] only replaces a missing key, so the
    run below appends a row whose context summary is NULL. *)
Lemma log_tweet_appends_null_summary :
  tweets_log (snd (Agent.run_ocean_tweet_workflow env_all_up PyNone
                                                  empty_world))
  = [TweetRow 1 "Error: No data to generate tweet." "2025-09-20T12:00:00"
              PyNone].
Proof. by vm_compute. Qed.

(** C10, amended. In the tweet workflow's logging step, when the data field
    is missing from the run state the fixed string 'No data provided' is
    written as the context summary, and when it is present its value is
    written as it is; so a row this step appends has a non-null context
    summary exactly when the data field is not present with the value None.
    The Facebook variant writes the event and coordinates values directly,
    NULL when the field is missing or None. *)
Theorem log_context_summary_values (env : Env) (state : gmap string pyval)
    (w : World) :
  tweet_inserts (trace (snd (Agent.log_tweet env state w))) =
    tweet_inserts (trace w)
    ++ (if truthy (dict_get state "tweet") then
          [(py_format (dict_get state "tweet"), isoformat env (now env),
            match state !! "data" with
            | None => PyStr "No data provided"
            | Some v => v
            end)]
        else [])
  ∧ (∀ r, r ∈ tweets_log (snd (Agent.log_tweet env state w)) →
          r ∈ tweets_log w ∨ r ∈ tweets_pending w
          ∨ (data_summary r = logged_summary state
             ∧ truthy (dict_get state "tweet") = true))
  ∧ (logged_summary state = PyNone ↔ state !! "data" = Some PyNone)
  ∧ post_inserts (trace (snd (AgentFb.log_post env state w))) =
      post_inserts (trace w)
      ++ (if truthy (dict_get state "post") then
            [(py_format (dict_get state "post"), isoformat env (now env),
              default PyNone (state !! "event"),
              default PyNone (state !! "coordinates"))]
          else []).
Proof.
  split; [|split; [|split]].
  - rewrite log_tweet_run. cbn [snd]. rewrite log_tweet_world_inserts.
    reflexivity.
  - intros r. rewrite log_tweet_run. cbn [snd]. rewrite log_tweet_world_log.
    destruct (truthy (dict_get state "tweet")); cbn; [|auto].
    destruct (is_ok (sql_insert env) && is_ok (sql_commit env)); [|auto].
    rewrite !elem_of_app, list_elem_of_singleton.
    intros [?|[?| ->]]; auto.
  - unfold logged_summary. destruct (state !! "data") as [v|]; split;
      intros H; try discriminate; congruence.
  - rewrite log_post_run. cbn [snd]. rewrite log_post_world_inserts.
    reflexivity.
Qed.

(** The amended C10 on a logging step whose state has no data field: the
    row it appends carries 'No data provided'. *)
Lemma log_context_summary_values_witness :
  tweet_inserts (trace (snd (Agent.log_tweet
                               env_all_up
                               (<["tweet" := PyStr "A quiet tide."]> ∅)
                               empty_world)))
  = [("A quiet tide.", "2025-09-20T12:00:00", PyStr "No data provided")]
  ∧ ∀ r, r ∈ tweets_log (snd (Agent.log_tweet
                                env_all_up
                                (<["tweet" := PyStr "A quiet tide."]> ∅)
                                empty_world)) →
         data_summary r = PyStr "No data provided".
Proof.
  destruct (log_context_summary_values
              env_all_up (<["tweet" := PyStr "A quiet tide."]> ∅) empty_world)
    as (Hins & Hrows & _ & _).
  split; [exact Hins|].
  intros r Hr. destruct (Hrows r Hr) as [H|[H|[H _]]].
  - by apply elem_of_nil in H.
  - by apply elem_of_nil in H.
  - exact H.
Defined.

(** * Further properties of the runs *)

Lemma truthy_format_nonempty (v : pyval) :
  truthy v = true → py_format v ≠ "".
Proof. destruct v as [|[|c s]]; cbn; congruence. Qed.

Lemma tweets_sent_enter (n : string) (evs : list event) :
  tweets_sent (EnterNode n :: evs) = tweets_sent evs.
Proof. reflexivity. Qed.

Lemma posts_sent_enter (n : string) (evs : list event) :
  posts_sent (EnterNode n :: evs) = posts_sent evs.
Proof. reflexivity. Qed.

(** The delivery attempts of a whole tweet run. *)
Lemma agent_workflow_sent (env : Env) (state : gmap string pyval) (w : World) :
  tweets_sent (trace (snd (Agent.workflow env state w))) =
  tweets_sent (trace w)
  ++ match fst (run_step "generate_tweet" (Agent.generate_tweet env) state w)
     with
     | Ok s1 =>
         attempts (bool_decide (is_Some (client env)))
                  (truthy (dict_get s1 "tweet"))
                  (py_format (dict_get s1 "tweet"))
     | Raise _ => []
     end.
Proof.
  rewrite agent_workflow_after_generate.
  destruct (run_generate_tweet_world env state w)
    as (evs & Hw1 & _ & _ & Hsent & _).
  destruct (run_step "generate_tweet" _ state w) as [[s1|e] w1];
    cbn [fst snd] in *; subst w1.
  - rewrite (proj2 (proj2 (log_tweet_world_quiet env s1 _))).
    rewrite !trace_add_events, !tweets_sent_app, tweets_sent_enter,
      tweets_sent_app, post_tweet_events_sent, Hsent.
    cbn. by rewrite !app_nil_r.
  - by rewrite trace_add_events, tweets_sent_app, Hsent.
Qed.

Lemma fb_workflow_sent (env : Env) (state : gmap string pyval) (w : World) :
  posts_sent (trace (snd (AgentFb.workflow env state w))) =
  posts_sent (trace w)
  ++ match fst (run_step "generate_post" (AgentFb.generate_post env) state w)
     with
     | Ok s1 =>
         attempts true (truthy (dict_get s1 "post"))
                  (py_format (dict_get s1 "post"))
     | Raise _ => []
     end.
Proof.
  rewrite fb_workflow_after_generate.
  destruct (run_generate_post_world env state w)
    as (evs & Hw1 & _ & _ & Hsent & _).
  destruct (run_step "generate_post" _ state w) as [[s1|e] w1];
    cbn [fst snd] in *; subst w1.
  - rewrite (proj2 (proj2 (log_post_world_quiet env s1 _))).
    rewrite !trace_add_events, !posts_sent_app, posts_sent_enter,
      posts_sent_app, post_facebook_events_sent, Hsent.
    cbn. by rewrite !app_nil_r.
  - by rewrite trace_add_events, posts_sent_app, Hsent.
Qed.

(** X1. Along every run of the tweet workflow and of the Facebook workflow,
    at most one delivery is attempted and at most one INSERT is issued, never
    with an empty text, and when both happen they carry the same text: the
    two sinks are fed the one generated content. *)
Theorem sinks_get_the_same_nonempty_content (env : Env)
    (state : gmap string pyval) (w : World) :
  (∃ sent ins,
     tweets_sent (trace (snd (Agent.workflow env state w))) =
       tweets_sent (trace w) ++ sent
     ∧ tweet_inserts (trace (snd (Agent.workflow env state w))) =
         tweet_inserts (trace w) ++ ins
     ∧ (length sent ≤ 1)%nat ∧ (length ins ≤ 1)%nat
     ∧ Forall (λ t, t ≠ "") sent
     ∧ Forall (λ i, i.1.1 ≠ "" ∧ Forall (λ t, t = i.1.1) sent) ins)
  ∧ (∃ sent ins,
       posts_sent (trace (snd (AgentFb.workflow env state w))) =
         posts_sent (trace w) ++ sent
       ∧ post_inserts (trace (snd (AgentFb.workflow env state w))) =
           post_inserts (trace w) ++ ins
       ∧ (length sent ≤ 1)%nat ∧ (length ins ≤ 1)%nat
       ∧ Forall (λ t, t ≠ "") sent
       ∧ Forall (λ i, i.1.1.1 ≠ "" ∧ Forall (λ t, t = i.1.1.1) sent) ins).
Proof.
  split.
  - pose proof (agent_workflow_sent env state w) as Hsent.
    pose proof (agent_workflow_store env state w) as Hstore.
    destruct (fst (run_step "generate_tweet" _ state w)) as [s1|e].
    + destruct Hstore as [Hins _].
      eexists _, _. split; [exact Hsent|]. split; [exact Hins|].
      unfold attempts, tweet_insert_of.
      destruct (truthy (dict_get s1 "tweet")) eqn:Ht;
        [pose proof (truthy_format_nonempty _ Ht)|];
        destruct (bool_decide (is_Some (client env))); cbn;
        repeat split; auto.
    + destruct Hstore as [Hins _].
      exists [], []. rewrite !app_nil_r.
      split; [by rewrite Hsent, app_nil_r|]. split; [exact Hins|].
      cbn [length]. repeat split; auto.
  - pose proof (fb_workflow_sent env state w) as Hsent.
    pose proof (fb_workflow_store env state w) as Hstore.
    destruct (fst (run_step "generate_post" _ state w)) as [s1|e].
    + destruct Hstore as [Hins _].
      eexists _, _. split; [exact Hsent|]. split; [exact Hins|].
      unfold attempts, post_insert_of.
      destruct (truthy (dict_get s1 "post")) eqn:Ht;
        [pose proof (truthy_format_nonempty _ Ht)|]; cbn;
        repeat split; auto.
    + destruct Hstore as [Hins _].
      exists [], []. rewrite !app_nil_r.
      split; [by rewrite Hsent, app_nil_r|]. split; [exact Hins|].
      cbn [length]. repeat split; auto.
Qed.

(** ** The tweet entry point, end to end *)

Lemma run_generate_tweet_initial (env : Env) (data : pyval) (w : World) :
  fst (run_step "generate_tweet" (Agent.generate_tweet env)
                (initial_tweet_state data) w)
  = match generated_tweet env data with
    | Ok t => Ok (<["tweet" := PyStr t]> (initial_tweet_state data))
    | Raise e => Raise e
    end.
Proof.
  rewrite run_generate_tweet. unfold initial_tweet_state, generated_tweet.
  rewrite lookup_insert_eq.
  destruct (truthy data); [destruct (llm_invoke env _)|]; reflexivity.
Qed.

Lemma generated_state_tweet (data : pyval) (t : string) :
  dict_get (<["tweet" := PyStr t]> (initial_tweet_state data)) "tweet"
  = PyStr t.
Proof. unfold dict_get. by rewrite lookup_insert_eq. Qed.

Lemma generated_state_data (data : pyval) (t : string) :
  <["tweet" := PyStr t]> (initial_tweet_state data) !! "data" = Some data.
Proof.
  unfold initial_tweet_state.
  rewrite lookup_insert_ne by done. by rewrite lookup_insert_eq.
Qed.

(** What the entry point adds around the compiled graph is console output
    only. *)
Lemma run_ocean_tweet_workflow_effects (env : Env) (data : pyval) (w : World) :
  let w0 := add_events w [Stdout "--- Starting Ocean Tweet Workflow ---"] in
  let run := Agent.run_ocean_tweet_workflow env data w in
  let inner := Agent.workflow env (initial_tweet_state data) w0 in
  fst run = fst inner
  ∧ llm_prompts (trace (snd run)) = llm_prompts (trace (snd inner))
  ∧ tweets_sent (trace (snd run)) = tweets_sent (trace (snd inner))
  ∧ tweet_inserts (trace (snd run)) = tweet_inserts (trace (snd inner))
  ∧ tweets_log (snd run) = tweets_log (snd inner)
  ∧ tweets_pending (snd run) = tweets_pending (snd inner).
Proof.
  cbv zeta. rewrite run_ocean_tweet_workflow_unfold.
  destruct (Agent.workflow env _ _) as [[final|e] w']; cbn [fst snd];
    [|auto 10].
  rewrite trace_add_events, llm_prompts_app, tweets_sent_app,
    tweet_inserts_app. cbn. by rewrite !app_nil_r.
Qed.

Lemma agent_workflow_prompts (env : Env) (state : gmap string pyval)
    (w : World) :
  llm_prompts (trace (snd (Agent.workflow env state w))) =
  llm_prompts (trace w)
  ++ match state !! "data" with
     | Some v => if truthy v then [Agent.tweet_prompt v] else []
     | None => []
     end.
Proof.
  rewrite agent_workflow_after_generate.
  destruct (run_generate_tweet_world env state w)
    as (evs & Hw1 & _ & _ & _ & Hllm).
  destruct (run_step "generate_tweet" _ state w) as [[s1|e] w1];
    cbn [fst snd] in *; subst w1.
  - rewrite (proj1 (proj2 (log_tweet_world_quiet env s1 _))).
    rewrite !trace_add_events, !llm_prompts_app, llm_prompts_enter,
      llm_prompts_app, (proj1 (proj2 (post_tweet_events_quiet env s1))), Hllm.
    cbn. by rewrite !app_nil_r.
  - by rewrite trace_add_events, llm_prompts_app, Hllm.
Qed.

(** The effects of a run of the tweet entry point whose generation step
    yields the content [t]. *)
Lemma tweet_run_effects (env : Env) (data : pyval) (w : World)
    (t : string) :
  generated_tweet env data = Ok t →
  let run := Agent.run_ocean_tweet_workflow env data w in
  fst run = Ok (<["tweet" := PyStr t]> (initial_tweet_state data))
  ∧ llm_prompts (trace (snd run)) =
      llm_prompts (trace w)
      ++ (if truthy data then [Agent.tweet_prompt data] else [])
  ∧ tweets_sent (trace (snd run)) =
      tweets_sent (trace w)
      ++ attempts (bool_decide (is_Some (client env))) (nonempty t) t
  ∧ tweet_inserts (trace (snd run)) =
      tweet_inserts (trace w)
      ++ (if nonempty t then [(t, isoformat env (now env), data)] else [])
  ∧ tweets_log (snd run) =
      if nonempty t && is_ok (sql_insert env) && is_ok (sql_commit env)
      then tweets_log w ++ tweets_pending w
           ++ [TweetRow (next_tweet_id w) t (isoformat env (now env)) data]
      else tweets_log w.
Proof.
  intros Hgen run. subst run.
  destruct (run_ocean_tweet_workflow_effects env data w)
    as (Hres & Hllm & Hsent & Hins & Hlog & _).
  cbv zeta in *. rewrite Hres, Hllm, Hsent, Hins, Hlog.
  set (w0 := add_events w [Stdout "--- Starting Ocean Tweet Workflow ---"]).
  pose proof (run_generate_tweet_initial env data w0) as Hstep.
  rewrite Hgen in Hstep.
  pose proof (agent_workflow_store env (initial_tweet_state data) w0) as Hstore.
  pose proof (agent_workflow_sent env (initial_tweet_state data) w0) as Hs.
  pose proof (agent_workflow_prompts env (initial_tweet_state data) w0) as Hp.
  rewrite Hstep in Hstore, Hs. rewrite generated_state_tweet in Hstore, Hs.
  destruct Hstore as [Hi Hl].
  split.
  { rewrite agent_workflow_after_generate.
    destruct (run_step "generate_tweet" _ _ w0) as [[s|e] w1];
      cbn [fst] in *; congruence. }
  split.
  { rewrite Hp. unfold initial_tweet_state. rewrite lookup_insert_eq.
    subst w0. rewrite trace_add_events, llm_prompts_app. cbn.
    by rewrite app_nil_r. }
  split.
  { rewrite Hs. subst w0. rewrite trace_add_events, tweets_sent_app. cbn.
    by rewrite app_nil_r. }
  split.
  { rewrite Hi. unfold tweet_insert_of, logged_summary.
    rewrite generated_state_tweet, generated_state_data.
    subst w0. rewrite trace_add_events, tweet_inserts_app. cbn.
    by rewrite app_nil_r. }
  rewrite Hl. unfold logged_tweet_row, logged_summary.
  rewrite generated_state_tweet, generated_state_data. reflexivity.
Qed.

(** X2. A run of the tweet entry point on a non-empty payload whose reply
    strips to a non-empty text returns the initial state with the tweet
    field set to that text; it calls the service exactly once, attempts one
    delivery of the text when the client is live, and issues one INSERT of
    the text with the payload as context summary, whose row is committed
    when the store accepts it. *)
Theorem tweet_run_end_to_end (env : Env) (data : pyval) (w : World)
    (reply : string) :
  truthy data = true →
  llm_invoke env (Agent.tweet_prompt data) = Ok reply →
  strip reply ≠ "" →
  let run := Agent.run_ocean_tweet_workflow env data w in
  fst run = Ok (<["tweet" := PyStr (strip reply)]> (initial_tweet_state data))
  ∧ llm_prompts (trace (snd run)) =
      llm_prompts (trace w) ++ [Agent.tweet_prompt data]
  ∧ tweets_sent (trace (snd run)) =
      tweets_sent (trace w)
      ++ (if bool_decide (is_Some (client env)) then [strip reply] else [])
  ∧ tweet_inserts (trace (snd run)) =
      tweet_inserts (trace w)
      ++ [(strip reply, isoformat env (now env), data)]
  ∧ (sql_insert env = Ok tt → sql_commit env = Ok tt →
     tweets_log (snd run) =
       tweets_log w ++ tweets_pending w
       ++ [TweetRow (next_tweet_id w) (strip reply)
                    (isoformat env (now env)) data]).
Proof.
  intros Hd Hllm Hne run. subst run.
  assert (generated_tweet env data = Ok (strip reply)) as Hgen.
  { unfold generated_tweet. by rewrite Hd, Hllm. }
  assert (nonempty (strip reply) = true) as Ht.
  { unfold nonempty. destruct (strip reply); [done|reflexivity]. }
  destruct (tweet_run_effects env data w _ Hgen)
    as (Hres & Hp & Hsent & Hins & Hlog).
  rewrite Hd in Hp. rewrite Ht in Hsent, Hins, Hlog.
  split; [exact Hres|]. split; [exact Hp|]. split.
  { rewrite Hsent. unfold attempts.
    by destruct (bool_decide (is_Some (client env))). }
  split; [exact Hins|].
  intros Hi Hc. rewrite Hlog, Hi, Hc. reflexivity.
Qed.

(** X2 on the nominal scenario. *)
Lemma tweet_run_end_to_end_witness :
  tweets_log (snd (Agent.run_ocean_tweet_workflow env_all_up (PyStr oil_spill)
                                                  empty_world))
  = [TweetRow 1 "The tide is heavy today. #Ocean" "2025-09-20T12:00:00"
              (PyStr oil_spill)].
Proof.
  destruct (tweet_run_end_to_end env_all_up (PyStr oil_spill) empty_world
                                 " The tide is heavy today. #Ocean "
                                 eq_refl eq_refl)
    as (_ & _ & _ & _ & Hlog); [discriminate|].
  apply Hlog; reflexivity.
Defined.

(** X3. An empty payload (None or the empty string) is not a dead end: the
    run makes no generation call, and the sentinel
    "Error: No data to generate tweet." is then treated as content: one
    delivery of it is attempted when the client is live, and it is logged
    with the empty payload as context summary. *)
Theorem empty_payload_publishes_and_logs_sentinel (env : Env) (data : pyval)
    (w : World) :
  truthy data = false →
  let run := Agent.run_ocean_tweet_workflow env data w in
  llm_prompts (trace (snd run)) = llm_prompts (trace w)
  ∧ tweets_sent (trace (snd run)) =
      tweets_sent (trace w)
      ++ (if bool_decide (is_Some (client env))
          then ["Error: No data to generate tweet."] else [])
  ∧ tweet_inserts (trace (snd run)) =
      tweet_inserts (trace w)
      ++ [("Error: No data to generate tweet.", isoformat env (now env), data)]
  ∧ (sql_insert env = Ok tt → sql_commit env = Ok tt →
     tweets_log (snd run) =
       tweets_log w ++ tweets_pending w
       ++ [TweetRow (next_tweet_id w) "Error: No data to generate tweet."
                    (isoformat env (now env)) data]).
Proof.
  intros Hd run. subst run.
  assert (generated_tweet env data = Ok Agent.no_data_sentinel) as Hgen.
  { unfold generated_tweet. by rewrite Hd. }
  destruct (tweet_run_effects env data w _ Hgen)
    as (_ & Hllm & Hsent & Hins & Hlog).
  rewrite Hd, app_nil_r in Hllm.
  split; [exact Hllm|]. split.
  { rewrite Hsent. unfold attempts. cbn.
    by destruct (bool_decide (is_Some (client env))). }
  split; [exact Hins|].
  intros Hi Hc. rewrite Hlog, Hi, Hc. reflexivity.
Qed.

(** X3 on the empty string, with every collaborator up. *)
Lemma empty_payload_publishes_and_logs_sentinel_witness :
  tweets_sent (trace (snd (Agent.run_ocean_tweet_workflow
                            env_all_up (PyStr "") empty_world)))
  = ["Error: No data to generate tweet."]
  ∧ tweets_log (snd (Agent.run_ocean_tweet_workflow
                       env_all_up (PyStr "") empty_world))
    = [TweetRow 1 "Error: No data to generate tweet." "2025-09-20T12:00:00"
                (PyStr "")].
Proof.
  destruct (empty_payload_publishes_and_logs_sentinel
              env_all_up (PyStr "") empty_world eq_refl)
    as (_ & Hsent & _ & Hlog).
  split; [exact Hsent|]. apply Hlog; reflexivity.
Defined.

(** X4. When the service replies with white space only, the generated
    content is the empty string: the run still returns its final state, but
    attempts no delivery, issues no INSERT and leaves the store as it was. *)
Theorem blank_reply_skips_both_sinks (env : Env) (data : pyval) (w : World)
    (reply : string) :
  truthy data = true →
  llm_invoke env (Agent.tweet_prompt data) = Ok reply →
  strip reply = "" →
  let run := Agent.run_ocean_tweet_workflow env data w in
  fst run = Ok (<["tweet" := PyStr ""]> (initial_tweet_state data))
  ∧ tweets_sent (trace (snd run)) = tweets_sent (trace w)
  ∧ tweet_inserts (trace (snd run)) = tweet_inserts (trace w)
  ∧ tweets_log (snd run) = tweets_log w.
Proof.
  intros Hd Hllm Hstrip run. subst run.
  assert (generated_tweet env data = Ok "") as Hgen.
  { unfold generated_tweet. by rewrite Hd, Hllm, Hstrip. }
  destruct (tweet_run_effects env data w _ Hgen)
    as (Hres & _ & Hsent & Hins & Hlog).
  split; [exact Hres|]. split.
  { rewrite Hsent. unfold attempts.
    destruct (bool_decide (is_Some (client env))); cbn; by rewrite app_nil_r. }
  split; [by rewrite Hins, app_nil_r|exact Hlog].
Qed.

(** X4 on a service that answers a blank, U+00A0, U+3000 and a line
    feed. *)
Lemma blank_reply_skips_both_sinks_witness :
  tweets_sent (trace (snd (Agent.run_ocean_tweet_workflow
                            env_blank_reply (PyStr oil_spill) empty_world)))
  = []
  ∧ tweets_log (snd (Agent.run_ocean_tweet_workflow
                       env_blank_reply (PyStr oil_spill) empty_world)) = [].
Proof.
  destruct (blank_reply_skips_both_sinks
              env_blank_reply (PyStr oil_spill) empty_world unicode_blanks
              eq_refl eq_refl eq_refl)
    as (_ & Hsent & _ & Hlog).
  split; [exact Hsent|exact Hlog].
Defined.

(** ** The Facebook entry point, end to end *)

Lemma post_update_unfold (env : Env) (event coordinates : pyval) (w : World) :
  AgentFb.post_update env event coordinates w =
  AgentFb.workflow env (initial_post_state event coordinates) w.
Proof.
  unfold AgentFb.post_update, initial_post_state, mbind, M_bind, mret, M_ret.
  by destruct (AgentFb.workflow env _ w) as [[final|e] w'].
Qed.

Lemma run_generate_post_initial (env : Env) (event coordinates : pyval)
    (w : World) :
  run_step "generate_post" (AgentFb.generate_post env)
           (initial_post_state event coordinates) w
  = (match generated_post env event coordinates with
     | Ok t => Ok (<["post" := PyStr t]> (initial_post_state event coordinates))
     | Raise e => Raise e
     end,
     add_events w [EnterNode "generate_post";
                   LlmInvoke (AgentFb.post_prompt event coordinates)]).
Proof.
  rewrite run_generate_post. unfold initial_post_state, generated_post.
  rewrite lookup_insert_eq, lookup_insert_ne by done.
  rewrite lookup_insert_eq.
  by destruct (llm_invoke env _).
Qed.

Lemma generated_post_state (event coordinates : pyval) (t : string) :
  let s1 := <["post" := PyStr t]> (initial_post_state event coordinates) in
  dict_get s1 "post" = PyStr t
  ∧ dict_get s1 "event" = event
  ∧ dict_get s1 "coordinates" = coordinates.
Proof.
  cbv zeta. unfold dict_get, initial_post_state.
  rewrite lookup_insert_eq.
  rewrite !(lookup_insert_ne _ "post") by done.
  rewrite lookup_insert_eq, lookup_insert_ne by done.
  by rewrite lookup_insert_eq.
Qed.

(** X5. The Facebook entry point calls the generation service exactly once
    for every payload: there is no validation, and a None event or
    coordinates value goes into the prompt as the text "None". The run never
    fails by itself: its outcome is the service's. If the call raises, the
    run ends with that exception and nothing is posted or logged. *)
Theorem post_update_always_calls_service (env : Env)
    (event coordinates : pyval) (w : World) :
  let run := AgentFb.post_update env event coordinates w in
  llm_prompts (trace (snd run)) =
    llm_prompts (trace w) ++ [AgentFb.post_prompt event coordinates]
  ∧ contains (AgentFb.post_prompt event coordinates)
             ("Event: " +:+ py_format event)
  ∧ contains (AgentFb.post_prompt event coordinates)
             ("Coordinates: " +:+ py_format coordinates)
  ∧ AgentFb.post_prompt PyNone PyNone =
      AgentFb.post_prompt (PyStr "None") (PyStr "None")
  ∧ fst run =
      match llm_invoke env (AgentFb.post_prompt event coordinates) with
      | Ok reply =>
          Ok (<["post" := PyStr (strip reply)]>
                (initial_post_state event coordinates))
      | Raise e => Raise e
      end
  ∧ match llm_invoke env (AgentFb.post_prompt event coordinates) with
    | Ok _ => True
    | Raise _ =>
        posts_sent (trace (snd run)) = posts_sent (trace w)
        ∧ post_inserts (trace (snd run)) = post_inserts (trace w)
        ∧ posts_log (snd run) = posts_log w
    end.
Proof.
  cbv zeta. rewrite post_update_unfold.
  pose proof (run_generate_post_initial env event coordinates w) as Hstep.
  pose proof (fb_workflow_store env (initial_post_state event coordinates) w)
    as Hstore.
  pose proof (fb_workflow_sent env (initial_post_state event coordinates) w)
    as Hsent.
  rewrite Hstep in Hstore, Hsent. cbn [fst] in Hstore, Hsent.
  split.
  { rewrite fb_workflow_after_generate, Hstep. unfold generated_post.
    destruct (llm_invoke env _) as [reply|e]; cbn [fst snd].
    - rewrite (proj1 (proj2 (log_post_world_quiet env _ _))).
      rewrite !trace_add_events, !llm_prompts_app, !llm_prompts_enter,
        llm_prompts_app,
        (proj1 (proj2 (post_facebook_events_quiet env _))).
      cbn. by rewrite !app_nil_r.
    - by rewrite trace_add_events, llm_prompts_app. }
  split.
  { exists (newline
            +:+ "    You are the **ocean**. Generate a Facebook post about your current condition "
            +:+ newline
            +:+ "    based on satellite imagery and ML analysis. Pretend to be the ocean. Use hashtags if needed."
            +:+ newline +:+ "    "),
           (newline +:+ "    Coordinates: " +:+ py_format coordinates
            +:+ newline +:+ "    ").
    unfold AgentFb.post_prompt. rewrite !string_app_assoc. reflexivity. }
  split.
  { exists (newline
            +:+ "    You are the **ocean**. Generate a Facebook post about your current condition "
            +:+ newline
            +:+ "    based on satellite imagery and ML analysis. Pretend to be the ocean. Use hashtags if needed."
            +:+ newline +:+ "    Event: " +:+ py_format event
            +:+ newline +:+ "    "),
           (newline +:+ "    ").
    unfold AgentFb.post_prompt. rewrite !string_app_assoc. reflexivity. }
  split; [reflexivity|].
  split.
  { rewrite fb_workflow_after_generate, Hstep. unfold generated_post.
    by destruct (llm_invoke env _). }
  unfold generated_post in Hstore, Hsent.
  destruct (llm_invoke env _) as [reply|e]; [done|].
  destruct Hstore as [Hi Hl]. rewrite app_nil_r in Hsent. auto.
Qed.

(** X6. A run of the Facebook entry point whose service reply strips to the
    non-empty text [t] attempts exactly one post of [t] and issues one INSERT
    whose values are [t], the timestamp, and the event and coordinates the
    caller passed; when the store accepts it the committed row carries
    exactly those values. *)
Theorem post_update_end_to_end (env : Env) (event coordinates : pyval)
    (w : World) (reply : string) :
  llm_invoke env (AgentFb.post_prompt event coordinates) = Ok reply →
  strip reply ≠ "" →
  let run := AgentFb.post_update env event coordinates w in
  posts_sent (trace (snd run)) = posts_sent (trace w) ++ [strip reply]
  ∧ post_inserts (trace (snd run)) =
      post_inserts (trace w)
      ++ [(strip reply, isoformat env (now env), event, coordinates)]
  ∧ (sql_insert env = Ok tt → sql_commit env = Ok tt →
     posts_log (snd run) =
       posts_log w ++ posts_pending w
       ++ [PostRow (next_post_id w) (strip reply) (isoformat env (now env))
                   event coordinates]).
Proof.
  intros Hllm Hne run. subst run. rewrite post_update_unfold.
  pose proof (run_generate_post_initial env event coordinates w) as Hstep.
  pose proof (fb_workflow_store env (initial_post_state event coordinates) w)
    as Hstore.
  pose proof (fb_workflow_sent env (initial_post_state event coordinates) w)
    as Hsent.
  rewrite Hstep in Hstore, Hsent. unfold generated_post in Hstore, Hsent.
  rewrite Hllm in Hstore, Hsent. cbn [fst] in Hstore, Hsent.
  destruct (generated_post_state event coordinates (strip reply))
    as (Hp & He & Hc). cbv zeta in Hp, He, Hc.
  assert (truthy (PyStr (strip reply)) = true) as Ht.
  { destruct (strip reply); [done|reflexivity]. }
  unfold post_insert_of, logged_post_row in Hstore.
  rewrite Hp, He, Hc, Ht in Hstore. rewrite Hp, Ht in Hsent.
  destruct Hstore as [Hi Hl].
  split; [exact Hsent|]. split; [exact Hi|].
  intros Hins Hcom. rewrite Hl, Hins, Hcom. reflexivity.
Qed.

(** X6 on the sample event of the script. *)
Lemma post_update_end_to_end_witness :
  posts_log (snd (AgentFb.post_update
                    env_all_up (PyStr "Plastic waste accumulation detected")
                    (PyStr "15.30°S, 125.70°E") empty_world))
  = [PostRow 1 "The tide is heavy today. #Ocean" "2025-09-20T12:00:00"
             (PyStr "Plastic waste accumulation detected")
             (PyStr "15.30°S, 125.70°E")].
Proof.
  destruct (post_update_end_to_end
              env_all_up (PyStr "Plastic waste accumulation detected")
              (PyStr "15.30°S, 125.70°E") empty_world
              " The tide is heavy today. #Ocean " eq_refl)
    as (_ & _ & Hlog); [discriminate|].
  apply Hlog; reflexivity.
Defined.

(** ** The aggregator entry point, end to end *)

Lemma sql_writes_app (t1 t2 : list event) :
  sql_writes (t1 ++ t2) = sql_writes t1 ++ sql_writes t2.
Proof. unfold sql_writes. apply List.filter_app. Qed.

Lemma sql_writes_enter (n : string) (evs : list event) :
  sql_writes (EnterNode n :: evs) = sql_writes evs.
Proof. reflexivity. Qed.

Lemma post_summary_events_no_sql (env : Env) (s : gmap string sval) :
  sql_writes (post_summary_events env s) = [].
Proof.
  unfold post_summary_events.
  destruct (client env) as [send|]; cbn;
    [destruct (struthy (default SNone (s !! "summary_tweet"))); cbn;
     [destruct (send _) as [[]|e]|]|]; reflexivity.
Qed.

Lemma run_weekly_summary_workflow_unfold (env : Env) (w : World) :
  SummaryAgent.run_weekly_summary_workflow env w =
  match SummaryAgent.summary_workflow env initial_summary_state
          (add_events w
             [Stdout "--- Starting Weekly Ocean Summary Workflow ---"]) with
  | (Ok final_state, w') =>
      (Ok final_state,
       add_events w'
         [Stdout "--- Weekly Summary Workflow Finished ---";
          Stdout ("Summary tweet posted: "
                  +:+ sval_format env
                        (default (SStr "No summary generated")
                                 (final_state !! "summary_tweet")))])
  | (Raise e, w') => (Raise e, w')
  end.
Proof.
  unfold SummaryAgent.run_weekly_summary_workflow, initial_summary_state.
  unfold py_print, mbind, M_bind, emit, mret, M_ret. cbn [fst snd].
  destruct (SummaryAgent.summary_workflow env _ _) as [[final|e] w'];
    [|reflexivity].
  f_equal. same_world.
Qed.

(** The world a run of the compiled aggregator graph leaves, by what the
    query and the service answer. *)
Lemma summary_workflow_run (env : Env) (state : gmap string sval) (w : World) :
  SummaryAgent.summary_workflow env state w =
  let retrieve_events :=
    [EnterNode "retrieve_weekly_tweets";
     Stdout "...Retrieving tweets from last 7 days...";
     SqlSelectSince (seven_days_ago env)] in
  match sql_select env with
  | Raise e => (Raise e, add_events w retrieve_events)
  | Ok _ =>
      let s1 := <["weekly_tweets" := SList (retrieved env w)]> state in
      let generate_events :=
        retrieve_events
        ++ [Stdout ("Found "
                    +:+ SummaryAgent.str_of_nat (length (retrieved env w))
                    +:+ " tweets from the last 7 days");
            EnterNode "generate_summary_tweet";
            Stdout "...Generating weekly summary tweet..."]
        ++ match retrieved env w with
           | [] => []
           | _ :: _ =>
               [LlmInvoke (SummaryAgent.summary_prompt
                             (tweets_text (retrieved env w)))]
           end in
      match generated_summary env (retrieved env w) with
      | Raise e => (Raise e, add_events w generate_events)
      | Ok t =>
          let s2 := <["summary_tweet" := SStr t]> s1 in
          (Ok s2,
           add_events w
             (generate_events
              ++ EnterNode "post_summary_tweet" :: post_summary_events env s2))
      end
  end.
Proof.
  rewrite summary_workflow_after_generate, run_retrieve_weekly_tweets.
  cbv zeta. fold (retrieved env w).
  destruct (sql_select env) as [[]|e]; [|reflexivity].
  rewrite (run_generate_summary_tweet env _ _ (retrieved env w))
    by (by rewrite lookup_insert_eq).
  unfold generated_summary.
  destruct (retrieved env w) as [|t ts]; [f_equal; same_world|].
  destruct (llm_invoke env _) as [reply|e]; f_equal; same_world.
Qed.

(** X7. The aggregator never writes to the Log Store: whatever the query,
    the service and the channel answer, a weekly run issues no INSERT and no
    commit, and leaves both tables, committed and pending rows alike, as it
    found them. The summary it posts is not persisted. *)
Theorem weekly_run_never_writes_store (env : Env) (w : World) :
  let run := SummaryAgent.run_weekly_summary_workflow env w in
  sql_writes (trace (snd run)) = sql_writes (trace w)
  ∧ tweets_log (snd run) = tweets_log w
  ∧ tweets_pending (snd run) = tweets_pending w
  ∧ posts_log (snd run) = posts_log w
  ∧ posts_pending (snd run) = posts_pending w.
Proof.
  cbv zeta. rewrite run_weekly_summary_workflow_unfold, summary_workflow_run.
  cbv zeta.
  destruct (sql_select env) as [[]|e];
    [destruct (generated_summary env _) as [t|e]|];
    cbn [fst snd add_events trace tweets_log tweets_pending posts_log
         posts_pending];
    (split; [|auto]);
    rewrite <- ?app_assoc, !sql_writes_app, ?sql_writes_enter,
      ?post_summary_events_no_sql.
  - destruct (retrieved env _); cbn; by rewrite ?app_nil_r.
  - destruct (retrieved env _); cbn; by rewrite ?app_nil_r.
  - cbn. by rewrite app_nil_r.
Qed.

(** X8. The retrieval step does not catch a failing query: when the SELECT
    raises, the weekly run ends with that exception right there, before any
    generation call and any delivery attempt, and nothing more is printed. *)
Theorem weekly_run_aborts_on_query_failure (env : Env) (w : World) (e : exn) :
  sql_select env = Raise e →
  let run := SummaryAgent.run_weekly_summary_workflow env w in
  fst run = Raise e
  ∧ entered (trace (snd run)) = entered (trace w) ++ ["retrieve_weekly_tweets"]
  ∧ llm_prompts (trace (snd run)) = llm_prompts (trace w)
  ∧ tweets_sent (trace (snd run)) = tweets_sent (trace w)
  ∧ printed (trace (snd run)) =
      printed (trace w)
      ++ ["--- Starting Weekly Ocean Summary Workflow ---";
          "...Retrieving tweets from last 7 days..."].
Proof.
  intros Hsel run. subst run.
  rewrite run_weekly_summary_workflow_unfold, summary_workflow_run.
  cbv zeta. rewrite Hsel. cbn [fst snd].
  rewrite !trace_add_events, <- !app_assoc.
  rewrite entered_app, llm_prompts_app, tweets_sent_app, printed_app.
  cbn. by rewrite !app_nil_r.
Qed.

(** X8 on a database that refuses the query. *)
Lemma weekly_run_aborts_on_query_failure_witness :
  fst (SummaryAgent.run_weekly_summary_workflow env_query_down
                                                three_rows_world)
  = Raise (ExternalError "no such table: tweets_log")
  ∧ llm_prompts (trace (snd (SummaryAgent.run_weekly_summary_workflow
                               env_query_down three_rows_world))) = [].
Proof.
  destruct (weekly_run_aborts_on_query_failure
              env_query_down three_rows_world
              (ExternalError "no such table: tweets_log") eq_refl)
    as (Hres & _ & Hllm & _).
  split; [exact Hres|exact Hllm].
Defined.

(** X9. Timestamps are [datetime.isoformat()] strings. A weekly run whose
    query and generation step succeed returns a state that holds the
    retrieved records, newest first and records of one timestamp in the
    order they were logged, and a summary that is a string: the fixed
    fallback message spelled below when no record is within the window, the
    stripped reply of the one generation call otherwise. One delivery of
    it is attempted when the client is live and the summary is non-empty,
    and the last console line reports that summary, so the default text
    'No summary generated' is never printed by a returned run. *)
Theorem weekly_run_end_to_end (env : Env) (w : World) (t : string) :
  is_isoformat (seven_days_ago env) = true →
  Forall (λ r, is_isoformat (tweet_datetime r) = true) (tweets_log w) →
  sql_select env = Ok tt →
  generated_summary env (retrieved env w) = Ok t →
  let run := SummaryAgent.run_weekly_summary_workflow env w in
  fst run =
    Ok (<["summary_tweet" := SStr t]>
          (<["weekly_tweets" := SList (retrieved env w)]>
             initial_summary_state))
  ∧ (retrieved env w = [] →
     t = "🌊 This week I've been quietly observing... No major incidents to report, but I'm always here, always watching. #Ocean #WeeklySummary")
  ∧ (retrieved env w ≠ [] →
     ∃ reply,
       llm_invoke env (SummaryAgent.summary_prompt
                         (tweets_text (retrieved env w))) = Ok reply
       ∧ t = strip reply)
  ∧ tweets_sent (trace (snd run)) =
      tweets_sent (trace w)
      ++ attempts (bool_decide (is_Some (client env))) (nonempty t) t
  ∧ last (printed (trace (snd run))) = Some ("Summary tweet posted: " +:+ t).
Proof.
  intros _ _ Hsel Hgen run. subst run.
  rewrite run_weekly_summary_workflow_unfold, summary_workflow_run.
  cbv zeta. rewrite Hsel.
  change (retrieved env (add_events w _)) with (retrieved env w).
  rewrite Hgen. cbn [fst snd].
  split; [reflexivity|]. split; [|split; [|split]].
  - intros Hnone. rewrite Hnone in Hgen. cbn [generated_summary] in Hgen.
    by injection Hgen as <-.
  - intros Hsome. unfold generated_summary in Hgen.
    destruct (retrieved env w) as [|r rs]; [done|].
    destruct (llm_invoke env _) as [reply|e]; [|discriminate Hgen].
    exists reply. split; [reflexivity|]. by injection Hgen as <-.
  - rewrite !trace_add_events, <- !app_assoc, !tweets_sent_app.
    rewrite !tweets_sent_enter, post_summary_events_sent.
    rewrite lookup_insert_eq. cbn [default from_option sval_format id].
    assert (struthy (SStr t) = nonempty t) as -> by (by destruct t).
    destruct (retrieved env w); cbn; by rewrite ?app_nil_r.
  - rewrite lookup_insert_eq. cbn [default from_option sval_format id].
    rewrite trace_add_events, printed_app. cbn [printed omap list_omap].
    match goal with
    | |- last (?l ++ [?a; ?b]) = _ =>
        change (l ++ [a; b]) with (l ++ [a] ++ [b]); rewrite (app_assoc l)
    end.
    apply last_snoc.
Qed.

(** X9 on the store of three rows: the two rows of the week are retrieved,
    the newer one first, and the stripped reply is posted. *)
Lemma weekly_run_end_to_end_witness :
  tweets_sent (trace (snd (SummaryAgent.run_weekly_summary_workflow
                             env_all_up three_rows_world)))
  = ["The tide is heavy today. #Ocean"]
  ∧ content <$> retrieved env_all_up three_rows_world
    = ["Oil on my skin near Chittagong. #OilSpill";
       "Warm currents today. #Ocean"].
Proof.
  assert (Forall (λ r, is_isoformat (tweet_datetime r) = true)
                 (tweets_log three_rows_world)) as Hrows
    by (repeat constructor).
  destruct (weekly_run_end_to_end
              env_all_up three_rows_world "The tide is heavy today. #Ocean"
              eq_refl Hrows eq_refl eq_refl) as (_ & _ & _ & Hsent & _).
  split; [exact Hsent|reflexivity].
Defined.

(** ** The store only grows *)

(** X10. The logging steps are append-only: whatever the store answers, the
    rows committed before a tweet run or a Facebook run are a prefix of the
    rows committed after it, so no run removes or rewrites a logged row, and
    every record a query returned before the run is still returned after
    it. *)
Theorem runs_only_append_rows (env : Env) (state : gmap string pyval)
    (w : World) :
  tweets_log w `prefix_of` tweets_log (snd (Agent.workflow env state w))
  ∧ posts_log w `prefix_of` posts_log (snd (AgentFb.workflow env state w))
  ∧ posts_log (snd (Agent.workflow env state w)) = posts_log w
  ∧ tweets_log (snd (AgentFb.workflow env state w)) = tweets_log w
  ∧ ∀ since r,
      r ∈ SummaryAgent.select_since since (tweets_log w) →
      r ∈ SummaryAgent.select_since
            since (tweets_log (snd (Agent.workflow env state w))).
Proof.
  assert (tweets_log w `prefix_of`
            tweets_log (snd (Agent.workflow env state w))) as Hpre.
  { pose proof (agent_workflow_store env state w) as H.
    destruct (fst (run_step "generate_tweet" _ state w)) as [s1|e];
      destruct H as [_ ->]; [|done].
    destruct (_ && _); [|done]. by apply prefix_app_r. }
  split; [exact Hpre|]. split.
  { pose proof (fb_workflow_store env state w) as H.
    destruct (fst (run_step "generate_post" _ state w)) as [s1|e];
      destruct H as [_ ->]; [|done].
    destruct (_ && _); [|done]. by apply prefix_app_r. }
  split.
  { rewrite agent_workflow_after_generate.
    destruct (run_generate_tweet_world env state w) as (evs & Hw1 & _).
    destruct (run_step "generate_tweet" _ state w) as [[s1|e] w1];
      cbn [fst snd] in *; subst w1; [|reflexivity].
    unfold log_tweet_world.
    destruct (truthy _); [|reflexivity].
    destruct (sql_insert env); [destruct (sql_commit env)|]; reflexivity. }
  split.
  { rewrite fb_workflow_after_generate.
    destruct (run_generate_post_world env state w) as (evs & Hw1 & _).
    destruct (run_step "generate_post" _ state w) as [[s1|e] w1];
      cbn [fst snd] in *; subst w1; [|reflexivity].
    unfold log_post_world.
    destruct (truthy _); [|reflexivity].
    destruct (sql_insert env); [destruct (sql_commit env)|]; reflexivity. }
  intros since r. rewrite !select_since_elem.
  intros [Hin Hle]. split; [|exact Hle].
  destruct Hpre as [k ->]. apply elem_of_app. by left.
Qed.

(** ** The letter generator *)

Lemma subscript_key_object (fields : list (string * MarineAi.json))
    (key : string) (w : World) :
  MarineAi.subscript_key (MarineAi.JObj fields) key w =
  match field fields key with
  | Some x => (Ok x, w)
  | None => (Raise (KeyError key), w)
  end.
Proof.
  unfold MarineAi.subscript_key, field.
  destruct (List.find _ fields) as [[k x]|]; reflexivity.
Qed.

Lemma subscript_key_world (v : MarineAi.json) (key : string) (w : World) :
  snd (MarineAi.subscript_key v key w) = w.
Proof.
  destruct v; try reflexivity.
  rewrite subscript_key_object. by destruct (field _ _).
Qed.

Lemma subscript_zero_world (v : MarineAi.json) (w : World) :
  snd (MarineAi.subscript_zero v w) = w.
Proof.
  destruct v as [| | | |s|items|]; try reflexivity.
  - by destruct s.
  - by destruct items.
Qed.

(** The request is the only thing the [try] block records. *)
Lemma request_letter_world (lenv : MarineAi.LetterEnv) (prompt : string)
    (w : World) :
  snd (MarineAi.request_letter lenv prompt w) =
  add_events w [HttpPost MarineAi.base_url prompt].
Proof.
  unfold MarineAi.request_letter, MarineAi.raise_for_status.
  unfold mbind, M_bind, emit, lift, raise, mret, M_ret. cbn [fst snd].
  destruct (MarineAi.http_post lenv _ _) as [resp|e]; [|reflexivity].
  destruct (_ && _); [reflexivity|].
  destruct (MarineAi.json_body resp) as [data|e]; [|reflexivity].
  pose proof (subscript_key_world data "choices"
                (add_events w [HttpPost MarineAi.base_url prompt])) as H1.
  destruct (MarineAi.subscript_key data "choices" _) as [[choices|e] w1];
    cbn [snd] in H1; subst w1; [|reflexivity].
  pose proof (subscript_zero_world choices
                (add_events w [HttpPost MarineAi.base_url prompt])) as H2.
  destruct (MarineAi.subscript_zero choices _) as [[first|e] w2];
    cbn [snd] in H2; subst w2; [|reflexivity].
  pose proof (subscript_key_world first "message"
                (add_events w [HttpPost MarineAi.base_url prompt])) as H3.
  destruct (MarineAi.subscript_key first "message" _) as [[message|e] w3];
    cbn [snd] in H3; subst w3; [|reflexivity].
  apply subscript_key_world.
Qed.

Lemma http_posts_app (t1 t2 : list event) :
  http_posts (t1 ++ t2) = http_posts t1 ++ http_posts t2.
Proof. unfold http_posts. apply omap_app. Qed.

(** A call for an organization of the table returns the answer of the
    service, or the fallback letter when anything in the [try] block
    raises. *)
Lemma generate_letter_run (lenv : MarineAi.LetterEnv) (org_key : string)
    (org : MarineAi.OrganizationProfile)
    (marine_data : MarineAi.MarineHealthData) (w : World) :
  MarineAi.organizations !! org_key = Some org →
  ∃ a0 a1 a2 rest,
    MarineAi.focus_areas org = a0 :: a1 :: a2 :: rest
    ∧ MarineAi.generate_letter_with_grok lenv org_key marine_data w =
      match MarineAi.request_letter
              lenv (MarineAi.letter_prompt lenv org marine_data) w with
      | (Ok answer, w1) => (Ok answer, w1)
      | (Raise e, w1) =>
          (Ok (MarineAi.JStr
                 (MarineAi.fallback_text lenv org marine_data a0 a1 a2)),
           add_events w1
             [Stdout ("Error calling OpenRouter API: " +:+ exn_str e)])
      end.
Proof.
  intros Horg.
  destruct (organizations_focus_areas org_key org Horg)
    as (a0 & a1 & a2 & rest & Hfa).
  exists a0, a1, a2, rest. split; [exact Hfa|].
  unfold MarineAi.generate_letter_with_grok, MarineAi._fallback_letter,
    dict_index, MarineAi.list_index.
  rewrite Horg. unfold mbind at 1, M_bind at 1, mret at 1, M_ret at 1.
  cbn [fst snd]. unfold try_except.
  destruct (MarineAi.request_letter _ _ w) as [[answer|e] w1];
    [reflexivity|].
  unfold py_print, emit, mbind, M_bind, mret, M_ret. cbn [fst snd].
  rewrite Hfa. reflexivity.
Qed.

(** X11. For an organization of the table, one call of the letter generator
    sends exactly one request, whatever comes back: a failure is answered by
    the fallback letter, not by a retry, and the call returns. For a key
    that is not in the table the call raises KeyError before anything is
    requested or printed. *)
Theorem letter_call_sends_one_request (lenv : MarineAi.LetterEnv)
    (org_key : string) (marine_data : MarineAi.MarineHealthData) (w : World) :
  let run := MarineAi.generate_letter_with_grok lenv org_key marine_data w in
  match MarineAi.organizations !! org_key with
  | Some org =>
      is_ok (fst run) = true
      ∧ http_posts (trace (snd run)) =
          http_posts (trace w)
          ++ [MarineAi.letter_prompt lenv org marine_data]
  | None => run = (Raise (KeyError org_key), w)
  end.
Proof.
  cbv zeta.
  destruct (MarineAi.organizations !! org_key) as [org|] eqn:Horg.
  - destruct (generate_letter_run lenv org_key org marine_data w Horg)
      as (a0 & a1 & a2 & rest & _ & ->).
    pose proof (request_letter_world
                  lenv (MarineAi.letter_prompt lenv org marine_data) w) as Hw.
    destruct (MarineAi.request_letter _ _ w) as [[answer|e] w1];
      cbn [fst snd] in *; subst w1; (split; [reflexivity|]).
    + rewrite trace_add_events, http_posts_app. reflexivity.
    + rewrite !trace_add_events, !http_posts_app. cbn.
      by rewrite app_nil_r.
  - unfold MarineAi.generate_letter_with_grok, dict_index.
    by rewrite Horg.
Qed.

(** The [try] block on an answer that has the expected path. *)
Lemma request_letter_well_formed (lenv : MarineAi.LetterEnv)
    (prompt : string) (w : World) (resp : MarineAi.http_response)
    (top choice message : list (string * MarineAi.json))
    (more : list MarineAi.json) (answer : MarineAi.json) :
  MarineAi.http_post lenv MarineAi.base_url prompt = Ok resp →
  (MarineAi.status_code resp < 400 ∨ 600 ≤ MarineAi.status_code resp) →
  MarineAi.json_body resp = Ok (MarineAi.JObj top) →
  field top "choices" = Some (MarineAi.JArr (MarineAi.JObj choice :: more)) →
  field choice "message" = Some (MarineAi.JObj message) →
  field message "content" = Some answer →
  MarineAi.request_letter lenv prompt w =
  (Ok answer, add_events w [HttpPost MarineAi.base_url prompt]).
Proof.
  intros Hpost Hstatus Hbody Hchoices Hmessage Hcontent.
  unfold MarineAi.request_letter, MarineAi.raise_for_status.
  unfold mbind, M_bind, emit, lift, raise, mret, M_ret. cbn [fst snd].
  rewrite Hpost.
  assert ((400 <=? MarineAi.status_code resp)
          && (MarineAi.status_code resp <? 600) = false) as ->.
  { apply andb_false_iff. destruct Hstatus; [left|right]; lia. }
  rewrite Hbody, subscript_key_object, Hchoices. cbn [MarineAi.subscript_zero].
  unfold mret, M_ret. rewrite subscript_key_object, Hmessage.
  by rewrite subscript_key_object, Hcontent.
Qed.

(** X12. When the service answers with a non-error status and a document
    that has a content under choices[0].message, the letter generator
    returns that content exactly as decoded, prints nothing and records
    nothing but the request. The content is not checked: a null or any
    other non-string value is returned as it is, not replaced by the
    fallback letter. *)
Theorem letter_answer_returned_verbatim (lenv : MarineAi.LetterEnv)
    (org_key : string) (org : MarineAi.OrganizationProfile)
    (marine_data : MarineAi.MarineHealthData) (w : World)
    (resp : MarineAi.http_response)
    (top choice message : list (string * MarineAi.json))
    (more : list MarineAi.json) (answer : MarineAi.json) :
  MarineAi.organizations !! org_key = Some org →
  MarineAi.http_post lenv MarineAi.base_url
                     (MarineAi.letter_prompt lenv org marine_data) = Ok resp →
  (MarineAi.status_code resp < 400 ∨ 600 ≤ MarineAi.status_code resp) →
  MarineAi.json_body resp = Ok (MarineAi.JObj top) →
  field top "choices" = Some (MarineAi.JArr (MarineAi.JObj choice :: more)) →
  field choice "message" = Some (MarineAi.JObj message) →
  field message "content" = Some answer →
  MarineAi.generate_letter_with_grok lenv org_key marine_data w =
  (Ok answer,
   add_events w [HttpPost MarineAi.base_url
                          (MarineAi.letter_prompt lenv org marine_data)]).
Proof.
  intros Horg Hpost Hstatus Hbody Hchoices Hmessage Hcontent.
  destruct (generate_letter_run lenv org_key org marine_data w Horg)
    as (a0 & a1 & a2 & rest & _ & ->).
  by rewrite (request_letter_well_formed lenv _ w resp top choice message
                more answer Hpost Hstatus Hbody Hchoices Hmessage Hcontent).
Qed.

(** X12 on an answer whose content is null. *)
Lemma letter_answer_returned_verbatim_witness :
  fst (MarineAi.generate_letter_with_grok lenv_null_content "communities"
                                          bay_of_bengal empty_world)
  = Ok MarineAi.JNull.
Proof.
  assert (MarineAi.organizations !! "communities" =
          Some (MarineAi.mkOrganizationProfile
                  "Coastal Communities Alliance"
                  "Local Communities, Volunteers, Community Leaders, Residents"
                  "passionate, community-focused, inspiring"
                  ["grassroots action"; "local impact";
                   "community engagement"; "educational programs"]
                  "join local conservation efforts and engage in community marine protection"
                  "dheunsac@gmail.com")) as Horg by (by vm_compute).
  rewrite (letter_answer_returned_verbatim
             lenv_null_content "communities" _ bay_of_bengal empty_world
             (MarineAi.mkResponse 200 "" (Ok (chat_completion MarineAi.JNull)))
             [("id", MarineAi.JStr "gen-1");
              ("choices",
               MarineAi.JArr
                 [MarineAi.JObj
                    [("finish_reason", MarineAi.JStr "stop");
                     ("message",
                      MarineAi.JObj [("role", MarineAi.JStr "assistant");
                                     ("content", MarineAi.JNull)])]])]
             [("finish_reason", MarineAi.JStr "stop");
              ("message",
               MarineAi.JObj [("role", MarineAi.JStr "assistant");
                              ("content", MarineAi.JNull)])]
             [("role", MarineAi.JStr "assistant");
              ("content", MarineAi.JNull)]
             [] MarineAi.JNull Horg eq_refl);
    [reflexivity|left; cbn; lia|reflexivity..].
Defined.

(** X13. An error status wins over the body: when the service answers with
    a status from 400 to 599, the letter generator does not look at the
    body, even a well-formed one; it prints the status error and returns the
    fallback letter, which carries the date line and one action line for
    each of the organization's first three focus areas, in title case. *)
Theorem letter_error_status_gives_fallback (lenv : MarineAi.LetterEnv)
    (org_key : string) (org : MarineAi.OrganizationProfile)
    (marine_data : MarineAi.MarineHealthData) (w : World)
    (resp : MarineAi.http_response) :
  MarineAi.organizations !! org_key = Some org →
  MarineAi.http_post lenv MarineAi.base_url
                     (MarineAi.letter_prompt lenv org marine_data) = Ok resp →
  400 ≤ MarineAi.status_code resp < 600 →
  ∃ letter a0 a1 a2 rest,
    MarineAi.focus_areas org = a0 :: a1 :: a2 :: rest
    ∧ MarineAi.generate_letter_with_grok lenv org_key marine_data w =
      (Ok (MarineAi.JStr letter),
       add_events w
         [HttpPost MarineAi.base_url
                   (MarineAi.letter_prompt lenv org marine_data);
          Stdout ("Error calling OpenRouter API: "
                  +:+ MarineAi.status_message resp)])
    ∧ MarineAi._fallback_letter lenv org_key marine_data w = (Ok letter, w)
    ∧ contains letter ("Date: " +:+ MarineAi.today lenv)
    ∧ contains letter
        ("1. " +:+ MarineAi.title a0
         +:+ " - Implement enhanced monitoring systems")
    ∧ contains letter
        ("2. " +:+ MarineAi.title a1 +:+ " - Increase resource allocation")
    ∧ contains letter
        ("3. " +:+ MarineAi.title a2 +:+ " - Establish new partnerships").
Proof.
  intros Horg Hpost Hstatus.
  destruct (fallback_letter_run lenv org_key org marine_data Horg)
    as (a0 & a1 & a2 & rest & Hfa & Hfb).
  destruct (generate_letter_run lenv org_key org marine_data w Horg)
    as (b0 & b1 & b2 & rest' & Hfa' & Hrun).
  rewrite Hfa in Hfa'. injection Hfa' as <- <- <- <-.
  exists (MarineAi.fallback_text lenv org marine_data a0 a1 a2),
    a0, a1, a2, rest.
  split; [exact Hfa|]. split.
  { rewrite Hrun.
    unfold MarineAi.request_letter, MarineAi.raise_for_status.
    unfold mbind, M_bind, emit, lift, raise, mret, M_ret. cbn [fst snd].
    rewrite Hpost.
    assert ((400 <=? MarineAi.status_code resp)
            && (MarineAi.status_code resp <? 600) = true) as ->.
    { apply andb_true_iff. split; lia. }
    cbn [exn_str]. f_equal. same_world. }
  split; [apply Hfb|].
  pose proof (fallback_text_contents lenv org marine_data a0 a1 a2) as H.
  cbv zeta in H. tauto.
Qed.

(** X13 on a 500 answer that carries a complete letter in its body. *)
Lemma letter_error_status_gives_fallback_witness :
  printed (trace (snd (MarineAi.generate_letter_with_grok
                         lenv_error_with_body "industry_leaders"
                         bay_of_bengal empty_world)))
  = ["Error calling OpenRouter API: 500 Server Error: Internal Server Error"]
  ∧ ∃ letter,
      fst (MarineAi.generate_letter_with_grok
             lenv_error_with_body "industry_leaders" bay_of_bengal
             empty_world) = Ok (MarineAi.JStr letter)
      ∧ contains letter
          "1. Sustainable Practices - Implement enhanced monitoring systems"
      ∧ contains letter "2. Green Technology - Increase resource allocation"
      ∧ contains letter
          "3. Corporate Responsibility - Establish new partnerships".
Proof.
  assert (MarineAi.organizations !! "industry_leaders" =
          Some (MarineAi.mkOrganizationProfile
                  "Sustainable Marine Industries Coalition"
                  "Corporate Leaders, Manufacturing, Shipping, Energy Companies"
                  "business-focused, solution-oriented, collaborative"
                  ["sustainable practices"; "green technology";
                   "corporate responsibility"; "economic benefits"]
                  "adopt sustainable practices and invest in clean marine technologies"
                  "dheunsac@gmail.com")) as Horg by (by vm_compute).
  destruct (letter_error_status_gives_fallback
              lenv_error_with_body "industry_leaders" _ bay_of_bengal
              empty_world
              (MarineAi.mkResponse
                 500 "500 Server Error: Internal Server Error"
                 (Ok (chat_completion (MarineAi.JStr "Dear all, ..."))))
              Horg eq_refl)
    as (letter & a0 & a1 & a2 & rest & Hfa & -> & _ & _ & H1 & H2 & H3);
    [cbn; lia|].
  injection Hfa as <- <- <- _.
  split; [reflexivity|]. exists letter. cbn [fst].
  split; [reflexivity|]. split; [exact H1|]. split; [exact H2|exact H3].
Defined.

(** X14. For every organization of the table the fallback template never
    raises and leaves the world alone, and the letter it builds carries the
    date, the organization's name, audience, call to action and contact, the
    region and the formatted index of the marine data, one bullet line in
    title case for every key issue that is ASCII text, as the issues of
    [get_current_marine_data] are, and the first three focus areas in title
    case. *)
Theorem fallback_letter_contents (lenv : MarineAi.LetterEnv)
    (org_key : string) (org : MarineAi.OrganizationProfile)
    (marine_data : MarineAi.MarineHealthData) (w : World) :
  MarineAi.organizations !! org_key = Some org →
  ∃ letter,
    MarineAi._fallback_letter lenv org_key marine_data w = (Ok letter, w)
    ∧ contains letter ("Date: " +:+ MarineAi.today lenv)
    ∧ contains letter (MarineAi.name org)
    ∧ contains letter ("Dear " +:+ MarineAi.target_audience org +:+ ",")
    ∧ contains letter (MarineAi.region marine_data)
    ∧ contains letter
        (MarineAi.format_1f lenv (MarineAi.current_index marine_data)
         +:+ "/100 for the " +:+ MarineAi.region marine_data)
    ∧ contains letter
        ("We urge you to " +:+ MarineAi.call_to_action org
         +:+ " within the next 30 days.")
    ∧ contains letter (MarineAi.contact_info org)
    ∧ (∀ issue, issue ∈ MarineAi.key_issues marine_data →
                ascii_text issue = true →
                contains letter ("• " +:+ MarineAi.title issue))
    ∧ (∀ (i : nat) area, (i < 3)%nat →
         MarineAi.focus_areas org !! i = Some area →
         contains letter (MarineAi.title area)).
Proof.
  intros Horg.
  destruct (organizations_focus_areas org_key org Horg)
    as (a0 & a1 & a2 & rest & Hfa).
  exists (MarineAi.fallback_text lenv org marine_data a0 a1 a2).
  split.
  { unfold MarineAi._fallback_letter, dict_index, MarineAi.list_index.
    rewrite Horg. unfold mbind, M_bind, mret, M_ret. cbn [fst snd].
    rewrite Hfa. reflexivity. }
  unfold MarineAi.fallback_text. cbv zeta.
  split; [contains_piece2|].
  split; [contains_piece|].
  split; [contains_piece3|].
  split; [contains_piece|].
  split; [contains_piece3|].
  split; [contains_piece3|].
  split; [contains_piece|].
  split.
  - intros issue Hin _.
    apply contains_trans with
      (join newline ((λ issue, "• " +:+ MarineAi.title issue)
                       <$> MarineAi.key_issues marine_data)).
    + contains_piece.
    + apply join_contains, list_elem_of_fmap. eauto.
  - intros i area Hi Hlook. rewrite Hfa in Hlook.
    destruct i as [|[|[|i]]]; [| | |lia]; cbn in Hlook;
      injection Hlook as <-; contains_piece.
Qed.

(** X14 on the communities entry: the fallback letter greets its audience
    and carries the call to action. *)
Lemma fallback_letter_contents_witness :
  ∃ letter,
    MarineAi._fallback_letter lenv_unavailable "communities" bay_of_bengal
                              empty_world = (Ok letter, empty_world)
    ∧ contains letter
        "Dear Local Communities, Volunteers, Community Leaders, Residents,"
    ∧ contains letter "78.5/100 for the Bay of Bengal"
    ∧ contains letter "• Fish Population Decline In Commercial Zones".
Proof.
  assert (MarineAi.organizations !! "communities" =
          Some (MarineAi.mkOrganizationProfile
                  "Coastal Communities Alliance"
                  "Local Communities, Volunteers, Community Leaders, Residents"
                  "passionate, community-focused, inspiring"
                  ["grassroots action"; "local impact";
                   "community engagement"; "educational programs"]
                  "join local conservation efforts and engage in community marine protection"
                  "dheunsac@gmail.com")) as Horg by (by vm_compute).
  destruct (fallback_letter_contents lenv_unavailable "communities" _
              bay_of_bengal empty_world Horg)
    as (letter & Hrun & _ & _ & Hdear & _ & Hindex & _ & _ & Hissues & _).
  exists letter. split; [exact Hrun|]. split; [exact Hdear|].
  split; [exact Hindex|].
  apply (Hissues "fish population decline in commercial zones");
    [|reflexivity].
  cbn [bay_of_bengal MarineAi.key_issues].
  apply list_elem_of_further, list_elem_of_further, list_elem_of_here.
Defined.
(** ** The letter batch *)

Lemma written_app (fs1 fs2 : list MarineBatch.file_event) :
  written (fs1 ++ fs2) = written fs1 ++ written fs2.
Proof. unfold written. apply omap_app. Qed.

Lemma subscript_key_result (v : MarineAi.json) (key : string) (w w' : World) :
  fst (MarineAi.subscript_key v key w) = fst (MarineAi.subscript_key v key w').
Proof.
  destruct v; try reflexivity.
  rewrite !subscript_key_object. by destruct (field _ _).
Qed.

Lemma subscript_zero_result (v : MarineAi.json) (w w' : World) :
  fst (MarineAi.subscript_zero v w) = fst (MarineAi.subscript_zero v w').
Proof.
  destruct v as [| | | |s|items|]; try reflexivity.
  - by destruct s.
  - by destruct items.
Qed.

(** What the [try] block returns does not depend on the world it runs
    in. *)
Lemma request_letter_result (lenv : MarineAi.LetterEnv) (prompt : string)
    (w w' : World) :
  fst (MarineAi.request_letter lenv prompt w) =
  fst (MarineAi.request_letter lenv prompt w').
Proof.
  unfold MarineAi.request_letter, MarineAi.raise_for_status.
  unfold mbind, M_bind, emit, lift, raise, mret, M_ret. cbn [fst snd].
  destruct (MarineAi.http_post lenv _ _) as [resp|e]; [|reflexivity].
  destruct (_ && _); [reflexivity|].
  destruct (MarineAi.json_body resp) as [data|e]; [|reflexivity].
  set (w1 := add_events w _). set (w1' := add_events w' _).
  pose proof (subscript_key_result data "choices" w1 w1') as R1.
  pose proof (subscript_key_world data "choices" w1) as W1.
  pose proof (subscript_key_world data "choices" w1') as W1'.
  destruct (MarineAi.subscript_key data "choices" w1) as [r1 x1].
  destruct (MarineAi.subscript_key data "choices" w1') as [r1' x1'].
  cbn [fst snd] in *. subst r1' x1 x1'.
  destruct r1 as [choices|e]; [|reflexivity].
  pose proof (subscript_zero_result choices w1 w1') as R2.
  pose proof (subscript_zero_world choices w1) as W2.
  pose proof (subscript_zero_world choices w1') as W2'.
  destruct (MarineAi.subscript_zero choices w1) as [r2 x2].
  destruct (MarineAi.subscript_zero choices w1') as [r2' x2'].
  cbn [fst snd] in *. subst r2' x2 x2'.
  destruct r2 as [first|e]; [|reflexivity].
  pose proof (subscript_key_result first "message" w1 w1') as R3.
  pose proof (subscript_key_world first "message" w1) as W3.
  pose proof (subscript_key_world first "message" w1') as W3'.
  destruct (MarineAi.subscript_key first "message" w1) as [r3 x3].
  destruct (MarineAi.subscript_key first "message" w1') as [r3' x3'].
  cbn [fst snd] in *. subst r3' x3 x3'.
  destruct r3 as [message|e]; [|reflexivity].
  apply subscript_key_result.
Qed.

(** A call of the letter generator for an organization of the table
    returns the same letter in every world, and records the request and at
    most one console line. *)
Lemma generate_letter_any_world (lenv : MarineAi.LetterEnv)
    (org_key : string) (org : MarineAi.OrganizationProfile)
    (marine_data : MarineAi.MarineHealthData) :
  MarineAi.organizations !! org_key = Some org →
  ∃ body evs,
    http_posts evs = []
    ∧ ∀ w, MarineAi.generate_letter_with_grok lenv org_key marine_data w =
           (Ok body,
            add_events w
              (HttpPost MarineAi.base_url
                        (MarineAi.letter_prompt lenv org marine_data)
               :: evs)).
Proof.
  intros Horg.
  destruct (organizations_focus_areas org_key org Horg)
    as (a0 & a1 & a2 & rest & Hfa).
  set (prompt := MarineAi.letter_prompt lenv org marine_data).
  destruct (fst (MarineAi.request_letter lenv prompt empty_world))
    as [answer|e] eqn:Hres.
  - exists answer, []. split; [reflexivity|]. intros w.
    destruct (generate_letter_run lenv org_key org marine_data w Horg)
      as (b0 & b1 & b2 & rest' & _ & ->). fold prompt.
    pose proof (request_letter_result lenv prompt w empty_world) as R.
    pose proof (request_letter_world lenv prompt w) as W.
    destruct (MarineAi.request_letter lenv prompt w) as [r w1].
    cbn [fst snd] in *. rewrite Hres in R. subst r w1. reflexivity.
  - exists (MarineAi.JStr
              (MarineAi.fallback_text lenv org marine_data a0 a1 a2)),
      [Stdout ("Error calling OpenRouter API: " +:+ exn_str e)].
    split; [reflexivity|]. intros w.
    destruct (generate_letter_run lenv org_key org marine_data w Horg)
      as (b0 & b1 & b2 & rest' & Hfb & ->). fold prompt.
    rewrite Hfa in Hfb. injection Hfb as <- <- <- _.
    pose proof (request_letter_result lenv prompt w empty_world) as R.
    pose proof (request_letter_world lenv prompt w) as W.
    destruct (MarineAi.request_letter lenv prompt w) as [r w1].
    cbn [fst snd] in *. rewrite Hres in R. subst r w1.
    f_equal. same_world.
Qed.

Lemma hprint_run (line : string) (h : MarineBatch.Host) :
  MarineBatch.hprint line h =
  (Ok tt, MarineBatch.mkHost (add_events (MarineBatch.world h) [Stdout line])
                             (MarineBatch.files h)).
Proof. reflexivity. Qed.

Lemma host_add_events_add_events (w : World) (evs1 evs2 : list event)
    (fs : list MarineBatch.file_event) :
  MarineBatch.mkHost (add_events (add_events w evs1) evs2) fs =
  MarineBatch.mkHost (add_events w (evs1 ++ evs2)) fs.
Proof. by rewrite add_events_add_events. Qed.

(** The batch up to its loop. *)
Lemma generate_all_letters_unfold (env : MarineBatch.HostEnv)
    (api_key : string) (h : MarineBatch.Host) :
  MarineBatch.generate_all_letters env api_key h =
  let h0 := MarineBatch.mkHost
              (add_events (MarineBatch.world h) (batch_header env))
              (MarineBatch.files h ++ [MarineBatch.Makedirs "output"]) in
  match MarineBatch.fs_makedirs env (MarineBatch.files h) "output" with
  | Ok _ =>
      MarineBatch.for_each
        (MarineBatch.letter_round
           env api_key (MarineBatch.get_current_marine_data env))
        ∅ MarineBatch.organization_items h0
  | Raise e => (Raise e, h0)
  end.
Proof.
  unfold MarineBatch.generate_all_letters. cbv zeta.
  unfold mbind at 1 2 3 4 5 6 7, MarineBatch.MH_bind at 1 2 3 4 5 6 7.
  rewrite !hprint_run. cbn [MarineBatch.world MarineBatch.files].
  rewrite !add_events_add_events. cbn [app].
  unfold MarineBatch.os_makedirs. cbn [MarineBatch.world MarineBatch.files].
  destruct (MarineBatch.fs_makedirs env _ _) as [[]|e]; reflexivity.
Qed.

(** One round of the loop, for an organization whose letter is known. *)
Lemma letter_round_run (env : MarineBatch.HostEnv) (api_key : string)
    (letters : gmap string string) (org_key : string)
    (org : MarineAi.OrganizationProfile)
    (h : MarineBatch.Host) (body : MarineAi.json) (evs : list event) :
  let marine_data := MarineBatch.get_current_marine_data env in
  let filename := MarineBatch.letter_filename env org_key in
  let letter := MarineBatch.dated_letter env org_key body in
  let fs := MarineBatch.files h ++ [MarineBatch.OpenWrite filename letter] in
  (∀ w, MarineAi.generate_letter_with_grok
          (MarineBatch.lenv_of env api_key org_key) org_key marine_data w =
        (Ok body,
         add_events w
           (HttpPost MarineAi.base_url
                     (MarineAi.letter_prompt
                        (MarineBatch.lenv_of env api_key org_key) org
                        marine_data)
            :: evs))) →
  MarineBatch.letter_round env api_key marine_data letters (org_key, org) h =
  match MarineBatch.fs_write env (MarineBatch.files h) filename letter with
  | Ok _ =>
      (Ok (<[org_key := letter]> letters),
       MarineBatch.mkHost
         (add_events (MarineBatch.world h)
            (round_events env api_key (org_key, org) evs
             ++ [Stdout ("   Saved to " +:+ filename)]))
         (fs ++ [MarineBatch.Sleep 1]))
  | Raise e =>
      (Raise e,
       MarineBatch.mkHost
         (add_events (MarineBatch.world h)
                     (round_events env api_key (org_key, org) evs))
         fs)
  end.
Proof.
  cbv zeta. intros Hgen.
  unfold MarineBatch.letter_round. cbv zeta. cbn [fst snd].
  unfold mbind, MarineBatch.MH_bind.
  rewrite hprint_run. unfold MarineBatch.in_world.
  cbn [MarineBatch.world MarineBatch.files]. rewrite Hgen.
  rewrite add_events_add_events.
  unfold MarineBatch.write_text. cbn [MarineBatch.world MarineBatch.files].
  destruct (MarineBatch.fs_write env _ _ _) as [[]|e]; [|reflexivity].
  rewrite hprint_run. cbn [MarineBatch.world MarineBatch.files].
  rewrite add_events_add_events.
  unfold MarineBatch.time_sleep, mret, MarineBatch.MH_ret.
  cbn [MarineBatch.world MarineBatch.files].
  unfold round_events. cbn [fst snd app]. rewrite <- !app_assoc.
  reflexivity.
Qed.

Lemma for_each_round (env : MarineBatch.HostEnv) (api_key : string)
    (letters : gmap string string) (org_key : string)
    (org : MarineAi.OrganizationProfile)
    (rest : list (string * MarineAi.OrganizationProfile))
    (h : MarineBatch.Host) (body : MarineAi.json) (evs : list event) :
  let marine_data := MarineBatch.get_current_marine_data env in
  let filename := MarineBatch.letter_filename env org_key in
  let letter := MarineBatch.dated_letter env org_key body in
  let fs := MarineBatch.files h ++ [MarineBatch.OpenWrite filename letter] in
  (∀ w, MarineAi.generate_letter_with_grok
          (MarineBatch.lenv_of env api_key org_key) org_key marine_data w =
        (Ok body,
         add_events w
           (HttpPost MarineAi.base_url
                     (MarineAi.letter_prompt
                        (MarineBatch.lenv_of env api_key org_key) org
                        marine_data)
            :: evs))) →
  MarineBatch.for_each (MarineBatch.letter_round env api_key marine_data)
                       letters ((org_key, org) :: rest) h =
  match MarineBatch.fs_write env (MarineBatch.files h) filename letter with
  | Ok _ =>
      MarineBatch.for_each
        (MarineBatch.letter_round env api_key marine_data)
        (<[org_key := letter]> letters) rest
        (MarineBatch.mkHost
           (add_events (MarineBatch.world h)
              (round_events env api_key (org_key, org) evs
               ++ [Stdout ("   Saved to " +:+ filename)]))
           (fs ++ [MarineBatch.Sleep 1]))
  | Raise e =>
      (Raise e,
       MarineBatch.mkHost
         (add_events (MarineBatch.world h)
                     (round_events env api_key (org_key, org) evs))
         fs)
  end.
Proof.
  cbv zeta. intros Hgen.
  cbn [MarineBatch.for_each]. unfold mbind at 1, MarineBatch.MH_bind at 1.
  rewrite (letter_round_run env api_key letters org_key org h body evs Hgen).
  by destruct (MarineBatch.fs_write env _ _ _).
Qed.

(** The three organizations the loop goes through, with the letter each
    round gets from the generator. *)
Lemma batch_letters (env : MarineBatch.HostEnv) (api_key : string) :
  let marine_data := MarineBatch.get_current_marine_data env in
  ∃ o1 o2 o3 b1 b2 b3 e1 e2 e3,
    MarineBatch.organization_items =
    [("policy_makers", o1); ("industry_leaders", o2); ("communities", o3)]
    ∧ Forall2
        (λ key body, letter_answer env api_key key = Ok body)
        MarineBatch.organization_keys [b1; b2; b3]
    ∧ Forall (λ evs, http_posts evs = []) [e1; e2; e3]
    ∧ Forall3
        (λ item body evs,
           ∀ w, MarineAi.generate_letter_with_grok
                  (MarineBatch.lenv_of env api_key (fst item)) (fst item)
                  marine_data w =
                (Ok body,
                 add_events w
                   (HttpPost MarineAi.base_url
                             (MarineAi.letter_prompt
                                (MarineBatch.lenv_of env api_key (fst item))
                                (snd item) marine_data)
                    :: evs)))
        MarineBatch.organization_items [b1; b2; b3] [e1; e2; e3].
Proof.
  cbv zeta.
  destruct (MarineAi.organizations !! "policy_makers") as [o1|] eqn:H1;
    [|by vm_compute in H1].
  destruct (MarineAi.organizations !! "industry_leaders") as [o2|] eqn:H2;
    [|by vm_compute in H2].
  destruct (MarineAi.organizations !! "communities") as [o3|] eqn:H3;
    [|by vm_compute in H3].
  destruct (generate_letter_any_world
              (MarineBatch.lenv_of env api_key "policy_makers") _ _
              (MarineBatch.get_current_marine_data env) H1)
    as (b1 & e1 & P1 & G1).
  destruct (generate_letter_any_world
              (MarineBatch.lenv_of env api_key "industry_leaders") _ _
              (MarineBatch.get_current_marine_data env) H2)
    as (b2 & e2 & P2 & G2).
  destruct (generate_letter_any_world
              (MarineBatch.lenv_of env api_key "communities") _ _
              (MarineBatch.get_current_marine_data env) H3)
    as (b3 & e3 & P3 & G3).
  exists o1, o2, o3, b1, b2, b3, e1, e2, e3.
  assert (MarineBatch.organization_items =
          [("policy_makers", o1); ("industry_leaders", o2);
           ("communities", o3)]) as Hitems.
  { unfold MarineBatch.organization_items, MarineBatch.organization_keys.
    cbn [omap list_omap]. by rewrite H1, H2, H3. }
  split; [exact Hitems|]. split; [|split].
  - unfold letter_answer.
    repeat constructor; [by rewrite G1|by rewrite G2|by rewrite G3].
  - by repeat constructor.
  - rewrite Hitems. by repeat constructor.
Qed.

(** The batch on a file system that takes every letter. *)
Lemma generate_all_letters_success (env : MarineBatch.HostEnv)
    (api_key : string) (h : MarineBatch.Host) :
  MarineBatch.fs_makedirs env (MarineBatch.files h) "output" = Ok tt →
  (∀ hist path content, MarineBatch.fs_write env hist path content = Ok tt) →
  ∃ o1 o2 o3 b1 b2 b3 e1 e2 e3,
    MarineBatch.organization_items =
    [("policy_makers", o1); ("industry_leaders", o2); ("communities", o3)]
    ∧ Forall2
        (λ key body, letter_answer env api_key key = Ok body)
        MarineBatch.organization_keys [b1; b2; b3]
    ∧ Forall (λ evs, http_posts evs = []) [e1; e2; e3]
    ∧ MarineBatch.generate_all_letters env api_key h =
      (Ok (<["communities" :=
               MarineBatch.dated_letter env "communities" b3]>
             (<["industry_leaders" :=
                  MarineBatch.dated_letter env "industry_leaders" b2]>
                (<["policy_makers" :=
                     MarineBatch.dated_letter env "policy_makers" b1]> ∅))),
       MarineBatch.mkHost
         (add_events (MarineBatch.world h)
            (batch_header env
             ++ round_events env api_key ("policy_makers", o1) e1
             ++ [Stdout ("   Saved to "
                         +:+ MarineBatch.letter_filename env "policy_makers")]
             ++ round_events env api_key ("industry_leaders", o2) e2
             ++ [Stdout ("   Saved to "
                         +:+ MarineBatch.letter_filename
                               env "industry_leaders")]
             ++ round_events env api_key ("communities", o3) e3
             ++ [Stdout ("   Saved to "
                         +:+ MarineBatch.letter_filename env "communities")]))
         (MarineBatch.files h
          ++ [MarineBatch.Makedirs "output";
              MarineBatch.OpenWrite
                (MarineBatch.letter_filename env "policy_makers")
                (MarineBatch.dated_letter env "policy_makers" b1);
              MarineBatch.Sleep 1;
              MarineBatch.OpenWrite
                (MarineBatch.letter_filename env "industry_leaders")
                (MarineBatch.dated_letter env "industry_leaders" b2);
              MarineBatch.Sleep 1;
              MarineBatch.OpenWrite
                (MarineBatch.letter_filename env "communities")
                (MarineBatch.dated_letter env "communities" b3);
              MarineBatch.Sleep 1])).
Proof.
  intros Hmk Hwr.
  destruct (batch_letters env api_key)
    as (o1 & o2 & o3 & b1 & b2 & b3 & e1 & e2 & e3
        & Hitems & Hans & Hposts & Hgen).
  exists o1, o2, o3, b1, b2, b3, e1, e2, e3.
  split; [exact Hitems|]. split; [exact Hans|]. split; [exact Hposts|].
  rewrite Hitems in Hgen.
  inversion_clear Hgen as [|? ? ? ? ? ? G1 Hgen2].
  inversion_clear Hgen2 as [|? ? ? ? ? ? G2 Hgen3].
  inversion_clear Hgen3 as [|? ? ? ? ? ? G3 _].
  cbn [fst snd] in G1, G2, G3.
  rewrite generate_all_letters_unfold. cbv zeta. rewrite Hmk, Hitems.
  rewrite (for_each_round _ _ _ _ _ _ _ _ _ G1). cbv zeta. rewrite Hwr.
  rewrite (for_each_round _ _ _ _ _ _ _ _ _ G2). cbv zeta. rewrite Hwr.
  rewrite (for_each_round _ _ _ _ _ _ _ _ _ G3). cbv zeta. rewrite Hwr.
  cbn [MarineBatch.for_each MarineBatch.world MarineBatch.files].
  unfold mret, MarineBatch.MH_ret.
  rewrite !add_events_add_events, <- !app_assoc. reflexivity.
Qed.

(** The entry point once the API key is there. *)
Lemma main_with_key (env : MarineBatch.HostEnv) (api_key : string)
    (h : MarineBatch.Host) :
  MarineBatch.getenv_api_key env = Some api_key →
  api_key ≠ EmptyString →
  MarineBatch.main env h =
  match MarineBatch.generate_all_letters
          env api_key
          (MarineBatch.mkHost
             (add_events (MarineBatch.world h)
                [Stdout "Marine Health AI Letter Generator Starting...";
                 Stdout MarineBatch.rule])
             (MarineBatch.files h)) with
  | (Ok letters, h1) =>
      let report :=
        MarineBatch.OpenWrite
          (MarineBatch.report_filename env)
          (MarineBatch.json_dump env (MarineBatch.report_isoformat env)
                                 letters) in
      match MarineBatch.fs_makedirs env (MarineBatch.files h1) "output" with
      | Ok _ =>
          match MarineBatch.fs_write
                  env (MarineBatch.files h1 ++ [MarineBatch.Makedirs "output"])
                  (MarineBatch.report_filename env)
                  (MarineBatch.json_dump
                     env (MarineBatch.report_isoformat env) letters) with
          | Ok _ =>
              (Ok tt,
               MarineBatch.mkHost
                 (add_events (MarineBatch.world h1)
                    [Stdout ("Daily report saved to "
                             +:+ MarineBatch.report_filename env);
                     Stdout "All letters generated successfully!";
                     Stdout "Check the 'output' folder for generated files";
                     Stdout MarineBatch.rule])
                 (MarineBatch.files h1
                  ++ [MarineBatch.Makedirs "output"; report]))
          | Raise e =>
              (Raise e,
               MarineBatch.mkHost
                 (MarineBatch.world h1)
                 (MarineBatch.files h1
                  ++ [MarineBatch.Makedirs "output"; report]))
          end
      | Raise e =>
          (Raise e,
           MarineBatch.mkHost
             (MarineBatch.world h1)
             (MarineBatch.files h1 ++ [MarineBatch.Makedirs "output"]))
      end
  | (Raise e, h1) => (Raise e, h1)
  end.
Proof.
  intros Hkey Hne.
  unfold MarineBatch.main. cbv zeta. rewrite Hkey.
  cbn [from_option default id].
  assert (truthy (PyStr api_key) = true) as ->
    by (destruct api_key; [done|reflexivity]).
  cbn [negb].
  unfold mbind at 1 2 3, MarineBatch.MH_bind at 1 2 3.
  rewrite !hprint_run. cbn [MarineBatch.world MarineBatch.files].
  rewrite add_events_add_events. cbn [app].
  destruct (MarineBatch.generate_all_letters env api_key _)
    as [[letters|e] h1]; [|reflexivity].
  unfold MarineBatch.save_daily_report.
  unfold mbind, MarineBatch.MH_bind, MarineBatch.os_makedirs.
  cbn [MarineBatch.world MarineBatch.files].
  destruct (MarineBatch.fs_makedirs env _ _) as [[]|e]; [|reflexivity].
  unfold MarineBatch.write_text. cbn [MarineBatch.world MarineBatch.files].
  rewrite <- app_assoc. cbn [app].
  destruct (MarineBatch.fs_write env _ _ _) as [[]|e]; [|reflexivity].
  rewrite !hprint_run. cbn [MarineBatch.world MarineBatch.files].
  rewrite !add_events_add_events. reflexivity.
Qed.

Lemma http_posts_round (env : MarineBatch.HostEnv) (api_key : string)
    (item : string * MarineAi.OrganizationProfile) (evs : list event) :
  http_posts evs = [] →
  http_posts (round_events env api_key item evs) =
  [MarineAi.letter_prompt (MarineBatch.lenv_of env api_key (fst item))
                          (snd item)
                          (MarineBatch.get_current_marine_data env)].
Proof.
  intros Hevs. unfold round_events. rewrite http_posts_app, Hevs.
  reflexivity.
Qed.

Lemma three_letters_map (d1 d2 d3 : string) :
  <["communities" := d3]>
    (<["industry_leaders" := d2]> (<["policy_makers" := d1]> ∅))
  = (list_to_map (zip MarineBatch.organization_keys [d1; d2; d3])
     : gmap string string).
Proof.
  reflexivity.
Qed.

Lemma organizations_dom :
  dom MarineAi.organizations
  = (list_to_set MarineBatch.organization_keys : gset string).
Proof.
  unfold MarineAi.organizations. rewrite !dom_insert_L, dom_empty_L.
  cbn [MarineBatch.organization_keys list_to_set foldr]. set_solver.
Qed.

(** X15. Whatever the letter service answers, on a file system that
    accepts the writes the batch returns: it sends exactly one request per
    organization, in the order of the table; the dictionary it returns has
    exactly the keys of the table; the letter of an organization is the
    line "Date: " with the date, an empty line, and then what the generator
    returned for that organization, a string as it is and a null as the
    text None; and one file per organization was written, at
    output/letter_<key>_<stamp>.txt, holding exactly the letter of the
    dictionary. *)
Theorem batch_writes_every_letter_it_returns (env : MarineBatch.HostEnv)
    (api_key : string) (h : MarineBatch.Host) :
  MarineBatch.fs_makedirs env (MarineBatch.files h) "output" = Ok tt →
  (∀ hist path content, MarineBatch.fs_write env hist path content = Ok tt) →
  ∃ letters h' bodies,
    MarineBatch.generate_all_letters env api_key h = (Ok letters, h')
    ∧ Forall2 (λ key body, letter_answer env api_key key = Ok body)
              MarineBatch.organization_keys bodies
    ∧ letters = list_to_map (zip MarineBatch.organization_keys
                                 (batch_letters_of env bodies))
    ∧ dom letters = dom MarineAi.organizations
    ∧ (∀ key body,
         (key, body) ∈ zip MarineBatch.organization_keys bodies →
         letters !! key =
         Some ("Date: " +:+ MarineBatch.letter_date env key
               +:+ newline +:+ newline +:+ MarineBatch.letter_str env body))
    ∧ (∀ s, MarineBatch.letter_str env (MarineAi.JStr s) = s)
    ∧ MarineBatch.letter_str env MarineAi.JNull = "None"
    ∧ written (MarineBatch.files h') =
      written (MarineBatch.files h)
      ++ zip_with
           (λ key body,
              ("output/letter_" +:+ key +:+ "_"
               +:+ MarineBatch.file_stamp env key +:+ ".txt",
               "Date: " +:+ MarineBatch.letter_date env key
               +:+ newline +:+ newline +:+ MarineBatch.letter_str env body))
           MarineBatch.organization_keys bodies
    ∧ http_posts (trace (MarineBatch.world h')) =
      http_posts (trace (MarineBatch.world h)) ++ batch_prompts env api_key.
Proof.
  intros Hmk Hwr.
  destruct (generate_all_letters_success env api_key h Hmk Hwr)
    as (o1 & o2 & o3 & b1 & b2 & b3 & e1 & e2 & e3
        & Hitems & Hans & Hposts & Hrun).
  eexists _, _, [b1; b2; b3]. split; [exact Hrun|].
  split; [exact Hans|].
  apply Forall_cons in Hposts as [P1 Hposts].
  apply Forall_cons in Hposts as [P2 Hposts].
  apply Forall_cons in Hposts as [P3 _].
  split; [|split; [|split; [|split; [|split; [|split]]]]].
  - apply three_letters_map.
  - rewrite three_letters_map, dom_list_to_map_L, organizations_dom.
    reflexivity.
  - intros key body Hin.
    cbn [MarineBatch.organization_keys zip zip_with] in Hin.
    apply elem_of_cons in Hin as [Hin|Hin];
      [|apply elem_of_cons in Hin as [Hin|Hin];
        [|apply elem_of_cons in Hin as [Hin|Hin];
          [|by apply elem_of_nil in Hin]]];
      injection Hin as -> ->; reflexivity.
  - reflexivity.
  - reflexivity.
  - cbn [MarineBatch.files]. rewrite written_app. reflexivity.
  - cbn [MarineBatch.world]. rewrite trace_add_events.
    rewrite !http_posts_app, !http_posts_round by assumption.
    unfold batch_prompts. rewrite Hitems. reflexivity.
Qed.

(** X15 on a host whose service answers 503: three fallback letters are
    returned and written, each behind its date line. *)
Lemma batch_writes_every_letter_it_returns_witness :
  ∃ letter,
    written (MarineBatch.files
               (snd (MarineBatch.generate_all_letters
                       host_service_down "sk-or-v1-0000"
                       MarineBatch.empty_host))) !! 0%nat
    = Some ("output/letter_policy_makers_20250920_120000.txt",
            "Date: September 20, 2025" +:+ newline +:+ newline +:+ letter).
Proof.
  destruct (batch_writes_every_letter_it_returns
              host_service_down "sk-or-v1-0000" MarineBatch.empty_host
              eq_refl (λ _ _ _, eq_refl))
    as (letters & h' & bodies & Hrun & Hans & _ & _ & _ & _ & _ & Hfiles & _).
  rewrite Hrun. cbn [snd]. rewrite Hfiles.
  apply Forall2_length in Hans.
  destruct bodies as [|b1 [|b2 [|b3 [|]]]]; try discriminate Hans.
  eexists. reflexivity.
Defined.

(** X16. Without an API key, missing or empty, the entry point prints its
    banner and the error line and returns normally: no request is sent, no
    directory made, no file written. *)
Theorem main_without_key_only_prints (env : MarineBatch.HostEnv)
    (h : MarineBatch.Host) :
  (MarineBatch.getenv_api_key env = None
   ∨ MarineBatch.getenv_api_key env = Some EmptyString) →
  MarineBatch.main env h =
  (Ok tt,
   MarineBatch.mkHost
     (add_events (MarineBatch.world h)
        [Stdout "Marine Health AI Letter Generator Starting...";
         Stdout "==================================================";
         Stdout "Error: OPENROUTER_API_KEY not found in .env"])
     (MarineBatch.files h)).
Proof.
  intros Hkey. unfold MarineBatch.main. cbv zeta.
  assert (truthy (from_option PyStr PyNone (MarineBatch.getenv_api_key env))
          = false) as -> by (by destruct Hkey as [-> | ->]).
  cbn [negb]. unfold mbind, MarineBatch.MH_bind.
  rewrite !hprint_run. cbn [MarineBatch.world MarineBatch.files].
  by rewrite !add_events_add_events.
Qed.

(** X16 on a host without the variable. *)
Lemma main_without_key_only_prints_witness :
  printed (trace (MarineBatch.world
                    (snd (MarineBatch.main host_no_key
                                           MarineBatch.empty_host))))
  = ["Marine Health AI Letter Generator Starting...";
     "==================================================";
     "Error: OPENROUTER_API_KEY not found in .env"]
  ∧ MarineBatch.files (snd (MarineBatch.main host_no_key
                                             MarineBatch.empty_host)) = [].
Proof.
  rewrite (main_without_key_only_prints
             host_no_key MarineBatch.empty_host (or_introl eq_refl)).
  split; reflexivity.
Defined.

(** X17. With an API key and a file system that accepts every action, the
    entry point returns normally after one request per organization; the
    files it wrote are the three letters followed by the daily report,
    whose content is the dump of exactly the letters written; and its last
    console lines announce the report and the success. *)
Theorem main_end_to_end (env : MarineBatch.HostEnv) (api_key : string)
    (h : MarineBatch.Host) :
  MarineBatch.getenv_api_key env = Some api_key →
  api_key ≠ EmptyString →
  (∀ hist path, MarineBatch.fs_makedirs env hist path = Ok tt) →
  (∀ hist path content, MarineBatch.fs_write env hist path content = Ok tt) →
  ∃ h' bodies,
    MarineBatch.main env h = (Ok tt, h')
    ∧ Forall2 (λ key body, letter_answer env api_key key = Ok body)
              MarineBatch.organization_keys bodies
    ∧ written (MarineBatch.files h') =
      written (MarineBatch.files h)
      ++ letter_files env bodies
      ++ [(MarineBatch.report_filename env,
           MarineBatch.json_dump
             env (MarineBatch.report_isoformat env)
             (list_to_map (zip MarineBatch.organization_keys
                               (batch_letters_of env bodies))))]
    ∧ http_posts (trace (MarineBatch.world h')) =
      http_posts (trace (MarineBatch.world h)) ++ batch_prompts env api_key
    ∧ ∃ lines,
        printed (trace (MarineBatch.world h')) =
        printed (trace (MarineBatch.world h))
        ++ lines
        ++ ["Daily report saved to " +:+ MarineBatch.report_filename env;
            "All letters generated successfully!";
            "Check the 'output' folder for generated files";
            "=================================================="].
Proof.
  intros Hkey Hne Hmk Hwr.
  rewrite (main_with_key env api_key h Hkey Hne).
  match goal with
  | |- context [MarineBatch.generate_all_letters env api_key ?h0] =>
      destruct (generate_all_letters_success env api_key h0
                  (Hmk _ _) Hwr)
        as (o1 & o2 & o3 & b1 & b2 & b3 & e1 & e2 & e3
            & Hitems & Hans & Hposts & ->)
  end.
  cbv zeta. rewrite Hmk, Hwr.
  apply Forall_cons in Hposts as [P1 Hposts].
  apply Forall_cons in Hposts as [P2 Hposts].
  apply Forall_cons in Hposts as [P3 _].
  eexists _, [b1; b2; b3]. split; [reflexivity|].
  split; [exact Hans|].
  cbn [MarineBatch.world MarineBatch.files].
  split; [|split].
  - rewrite three_letters_map.
    rewrite <- !app_assoc, !written_app. reflexivity.
  - rewrite !trace_add_events, <- !app_assoc.
    rewrite !http_posts_app, !http_posts_round by assumption.
    unfold batch_prompts. rewrite Hitems. reflexivity.
  - rewrite !trace_add_events.
    match goal with
    | |- ∃ _, printed (((_ ++ ?a) ++ ?b) ++ _) = _ =>
        exists (printed (a ++ b))
    end.
    rewrite !printed_app, <- !app_assoc. reflexivity.
Qed.

(** X17 on a host whose service answers 503: the run ends with the report
    as the fourth file. *)
Lemma main_end_to_end_witness :
  fst (MarineBatch.main host_service_down MarineBatch.empty_host) = Ok tt
  ∧ last (fst <$> written
                    (MarineBatch.files
                       (snd (MarineBatch.main host_service_down
                                              MarineBatch.empty_host))))
    = Some "output/daily_report_2025-09-20.json".
Proof.
  assert ("sk-or-v1-0000" ≠ EmptyString) as Hne by discriminate.
  destruct (main_end_to_end
              host_service_down "sk-or-v1-0000" MarineBatch.empty_host
              eq_refl Hne (λ _ _, eq_refl) (λ _ _ _, eq_refl))
    as (h' & bodies & Hrun & Hans & Hfiles & _).
  rewrite Hrun. cbn [fst snd]. split; [reflexivity|].
  rewrite Hfiles, app_assoc, fmap_app. apply last_snoc.
Defined.

(** X18. If the output directory cannot be made, the entry point raises
    that error before anything is asked of the letter service: no request
    was sent and no file write attempted. *)
Theorem no_request_without_output_directory (env : MarineBatch.HostEnv)
    (api_key : string) (h : MarineBatch.Host) (e : exn) :
  MarineBatch.getenv_api_key env = Some api_key →
  api_key ≠ EmptyString →
  MarineBatch.fs_makedirs env (MarineBatch.files h) "output" = Raise e →
  ∃ h',
    MarineBatch.main env h = (Raise e, h')
    ∧ http_posts (trace (MarineBatch.world h')) =
      http_posts (trace (MarineBatch.world h))
    ∧ MarineBatch.files h' =
      MarineBatch.files h ++ [MarineBatch.Makedirs "output"].
Proof.
  intros Hkey Hne Hmk.
  rewrite (main_with_key env api_key h Hkey Hne).
  rewrite generate_all_letters_unfold. cbv zeta.
  cbn [MarineBatch.world MarineBatch.files]. rewrite Hmk.
  eexists. split; [reflexivity|]. cbn [MarineBatch.world MarineBatch.files].
  split; [|reflexivity].
  rewrite !trace_add_events, !http_posts_app.
  change (http_posts (batch_header env)) with (@nil string).
  cbn [http_posts omap list_omap app]. by rewrite !app_nil_r.
Qed.

(** X18 on a host whose output directory is read-only. *)
Lemma no_request_without_output_directory_witness :
  let env :=
    MarineBatch.mkHostEnv
      (Some "sk-or-v1-0000")
      (λ _ _ _ _, Ok (MarineAi.mkResponse 200 "" (Ok MarineAi.JNull)))
      (λ _, "78.5") (λ _, "+0.5") 0.5%float (take 3)
      (λ _, "September 20, 2025") (λ _, "September 20, 2025")
      (λ _, "20250920_120000")
      "2025-09-20" "2025-09-20T12:00:03.000000"
      (λ _ _, Raise (ExternalError "[Errno 13] Permission denied: 'output'"))
      (λ _ _ _, Ok tt)
      (λ _, "...") (λ _ _, "{...}") in
  fst (MarineBatch.main env MarineBatch.empty_host)
  = Raise (ExternalError "[Errno 13] Permission denied: 'output'").
Proof.
  cbv zeta.
  assert ("sk-or-v1-0000" ≠ EmptyString) as Hne by discriminate.
  match goal with
  | |- fst (MarineBatch.main ?env _) = Raise ?e =>
      destruct (no_request_without_output_directory
                  env "sk-or-v1-0000" MarineBatch.empty_host e
                  eq_refl Hne eq_refl) as (h' & -> & _)
  end.
  reflexivity.
Defined.

Lemma length_written_snoc_write (fs : list MarineBatch.file_event)
    (path content : string) :
  length (written (fs ++ [MarineBatch.OpenWrite path content])) =
  S (length (written fs)).
Proof. rewrite written_app, length_app. cbn. lia. Qed.

Lemma length_written_snoc_sleep (fs : list MarineBatch.file_event) (n : Z) :
  length (written (fs ++ [MarineBatch.Sleep n])) = length (written fs).
Proof. rewrite written_app, length_app. cbn. lia. Qed.

Lemma length_written_snoc_makedirs (fs : list MarineBatch.file_event)
    (path : string) :
  length (written (fs ++ [MarineBatch.Makedirs path])) = length (written fs).
Proof. rewrite written_app, length_app. cbn. lia. Qed.

(** X19. A letter that cannot be written stops the run. When the file
    system accepts the first [k] letters and refuses the next one, the
    entry point raises that error: the organizations after it were never
    asked about, the letters before it stay written, and neither the report
    nor any later file is attempted. *)
Theorem failed_write_stops_the_run (env : MarineBatch.HostEnv)
    (api_key : string) (h : MarineBatch.Host) (k : nat) (e : exn) :
  MarineBatch.getenv_api_key env = Some api_key →
  api_key ≠ EmptyString →
  MarineBatch.fs_makedirs env (MarineBatch.files h) "output" = Ok tt →
  (k < 3)%nat →
  (∀ hist path content,
     MarineBatch.fs_write env hist path content =
     if (length (written hist)
         <? length (written (MarineBatch.files h)) + k)%nat
     then Ok tt else Raise e) →
  ∃ h',
    MarineBatch.main env h = (Raise e, h')
    ∧ http_posts (trace (MarineBatch.world h')) =
      http_posts (trace (MarineBatch.world h))
      ++ take (S k) (batch_prompts env api_key)
    ∧ fst <$> written (MarineBatch.files h') =
      (fst <$> written (MarineBatch.files h))
      ++ take (S k) (MarineBatch.letter_filename env
                       <$> MarineBatch.organization_keys).
Proof.
  intros Hkey Hne Hmk Hk Hwr.
  rewrite (main_with_key env api_key h Hkey Hne).
  rewrite generate_all_letters_unfold. cbv zeta.
  cbn [MarineBatch.world MarineBatch.files]. rewrite Hmk.
  destruct (batch_letters env api_key)
    as (o1 & o2 & o3 & b1 & b2 & b3 & e1 & e2 & e3
        & Hitems & _ & Hposts & Hgen).
  rewrite Hitems in Hgen.
  inversion_clear Hgen as [|? ? ? ? ? ? G1 Hgen2].
  inversion_clear Hgen2 as [|? ? ? ? ? ? G2 Hgen3].
  inversion_clear Hgen3 as [|? ? ? ? ? ? G3 _].
  cbn [fst snd] in G1, G2, G3.
  apply Forall_cons in Hposts as [P1 Hposts].
  apply Forall_cons in Hposts as [P2 Hposts].
  apply Forall_cons in Hposts as [P3 _].
  unfold batch_prompts. rewrite Hitems.
  set (n0 := length (written (MarineBatch.files h))) in *.
  assert (∀ n, (n0 + n <? n0 + k)%nat = (n <? k)%nat) as Hlt.
  { intros n. destruct (Nat.ltb_spec n k), (Nat.ltb_spec (n0 + n) (n0 + k));
      (reflexivity || lia). }
  assert ((n0 <? n0 + k)%nat = (0 <? k)%nat) as E0
    by (rewrite <- (Hlt 0%nat); f_equal; lia).
  assert ((S n0 <? n0 + k)%nat = (1 <? k)%nat) as E1
    by (rewrite <- (Hlt 1%nat); f_equal; lia).
  assert ((S (S n0) <? n0 + k)%nat = (2 <? k)%nat) as E2
    by (rewrite <- (Hlt 2%nat); f_equal; lia).
  rewrite (for_each_round _ _ _ _ _ _ _ _ _ G1). cbv zeta.
  cbn [MarineBatch.world MarineBatch.files].
  rewrite Hwr, length_written_snoc_makedirs.
  fold n0. rewrite E0.
  destruct k as [|k]; cbn [Nat.ltb Nat.leb].
  { eexists. split; [reflexivity|].
    cbn [MarineBatch.world MarineBatch.files]. split.
    - rewrite !trace_add_events, <- !app_assoc.
      rewrite !http_posts_app, !http_posts_round by assumption. reflexivity.
    - rewrite <- !app_assoc, !written_app, !fmap_app. reflexivity. }
  rewrite (for_each_round _ _ _ _ _ _ _ _ _ G2). cbv zeta.
  cbn [MarineBatch.world MarineBatch.files].
  rewrite Hwr, length_written_snoc_sleep, length_written_snoc_write,
    length_written_snoc_makedirs.
  fold n0. rewrite E1.
  destruct k as [|k]; cbn [Nat.ltb Nat.leb].
  { eexists. split; [reflexivity|].
    cbn [MarineBatch.world MarineBatch.files]. split.
    - rewrite !trace_add_events, <- !app_assoc.
      rewrite !http_posts_app, !http_posts_round by assumption. reflexivity.
    - rewrite <- !app_assoc, !written_app, !fmap_app. reflexivity. }
  rewrite (for_each_round _ _ _ _ _ _ _ _ _ G3). cbv zeta.
  cbn [MarineBatch.world MarineBatch.files].
  rewrite Hwr, length_written_snoc_sleep, length_written_snoc_write,
    length_written_snoc_sleep, length_written_snoc_write,
    length_written_snoc_makedirs.
  fold n0. rewrite E2.
  destruct k as [|k]; [|lia]. cbn [Nat.ltb Nat.leb].
  eexists. split; [reflexivity|].
  cbn [MarineBatch.world MarineBatch.files]. split.
  - rewrite !trace_add_events, <- !app_assoc.
    rewrite !http_posts_app, !http_posts_round by assumption. reflexivity.
  - rewrite <- !app_assoc, !written_app, !fmap_app. reflexivity.
Qed.

(** X19 on a disk that is full after the first letter: the run raises with
    two requests sent and the third organization never asked about. *)
Lemma failed_write_stops_the_run_witness :
  fst (MarineBatch.main host_disk_full MarineBatch.empty_host)
  = Raise (ExternalError "[Errno 28] No space left on device")
  ∧ length (http_posts
              (trace (MarineBatch.world
                        (snd (MarineBatch.main host_disk_full
                                               MarineBatch.empty_host)))))
    = 2%nat.
Proof.
  assert ("sk-or-v1-0000" ≠ EmptyString) as Hne by discriminate.
  assert (1 < 3)%nat as Hk by lia.
  destruct (failed_write_stops_the_run
              host_disk_full "sk-or-v1-0000" MarineBatch.empty_host 1
              (ExternalError "[Errno 28] No space left on device")
              eq_refl Hne eq_refl Hk (λ _ _ _, eq_refl))
    as (h' & -> & Hposts & _).
  cbn [fst snd]. split; [reflexivity|]. rewrite Hposts. reflexivity.
Defined.

(** A request that fails at once is answered by the fallback letter. *)
Lemma letter_answer_fallback (env : MarineBatch.HostEnv)
    (api_key org_key : string) (org : MarineAi.OrganizationProfile) :
  MarineAi.organizations !! org_key = Some org →
  (∀ url text,
     request_fails (MarineBatch.http_post env api_key org_key url text)
     = true) →
  ∃ a0 a1 a2,
    letter_answer env api_key org_key =
    Ok (MarineAi.JStr
          (MarineAi.fallback_text
             (MarineBatch.lenv_of env api_key org_key) org
             (MarineBatch.get_current_marine_data env) a0 a1 a2)).
Proof.
  intros Horg Hfail. unfold letter_answer.
  destruct (generate_letter_run
              (MarineBatch.lenv_of env api_key org_key) org_key org
              (MarineBatch.get_current_marine_data env) empty_world Horg)
    as (a0 & a1 & a2 & rest & _ & ->).
  exists a0, a1, a2.
  unfold MarineAi.request_letter, MarineAi.raise_for_status.
  unfold mbind, M_bind, emit, lift, raise, mret, M_ret. cbn [fst snd].
  cbn [MarineBatch.lenv_of MarineAi.http_post].
  specialize (Hfail MarineAi.base_url
                (MarineAi.letter_prompt
                   (MarineBatch.lenv_of env api_key org_key) org
                   (MarineBatch.get_current_marine_data env))).
  destruct (MarineBatch.http_post env api_key org_key _ _) as [resp|e];
    [|reflexivity].
  cbn [request_fails] in Hfail. rewrite Hfail. reflexivity.
Qed.

(** X20. With the letter service failing on every request, by an exception
    or an error status, and a file system that accepts the writes, the
    batch still returns a letter for every organization: the fallback
    template, which opens with its own date line, behind the date line of
    the loop, so that every such letter carries the date twice. *)
Theorem batch_falls_back_for_every_letter (env : MarineBatch.HostEnv)
    (api_key : string) (h : MarineBatch.Host) :
  MarineBatch.fs_makedirs env (MarineBatch.files h) "output" = Ok tt →
  (∀ hist path content, MarineBatch.fs_write env hist path content = Ok tt) →
  (∀ org_key url text,
     request_fails (MarineBatch.http_post env api_key org_key url text)
     = true) →
  ∃ letters h',
    MarineBatch.generate_all_letters env api_key h = (Ok letters, h')
    ∧ ∀ org_key org,
        MarineAi.organizations !! org_key = Some org →
        ∃ letter tail,
          letters !! org_key = Some letter
          ∧ letter =
            "Date: " +:+ MarineBatch.letter_date env org_key
            +:+ newline +:+ newline +:+ newline
            +:+ "Date: " +:+ MarineBatch.fallback_date env org_key
            +:+ newline +:+ MarineAi.name org +:+ newline +:+ tail.
Proof.
  intros Hmk Hwr Hfail.
  destruct (generate_all_letters_success env api_key h Hmk Hwr)
    as (o1 & o2 & o3 & b1 & b2 & b3 & e1 & e2 & e3
        & Hitems & Hans & _ & Hrun).
  eexists _, _. split; [exact Hrun|].
  inversion_clear Hans as [|? ? ? ? A1 Hans2].
  inversion_clear Hans2 as [|? ? ? ? A2 Hans3].
  inversion_clear Hans3 as [|? ? ? ? A3 _].
  assert (∀ key org body,
            MarineAi.organizations !! key = Some org →
            letter_answer env api_key key = Ok body →
            ∃ tail,
              MarineBatch.dated_letter env key body =
              "Date: " +:+ MarineBatch.letter_date env key
              +:+ newline +:+ newline +:+ newline
              +:+ "Date: " +:+ MarineBatch.fallback_date env key
              +:+ newline +:+ MarineAi.name org +:+ newline +:+ tail)
    as Hshape.
  { intros key org body Horg Hbody.
    destruct (letter_answer_fallback env api_key key org Horg
                (Hfail key)) as (a0 & a1 & a2 & Hfb).
    rewrite Hfb in Hbody. injection Hbody as <-.
    eexists. unfold MarineBatch.dated_letter, MarineBatch.letter_str,
      MarineAi.fallback_text. cbv zeta.
    cbn [MarineBatch.lenv_of MarineAi.today]. reflexivity. }
  intros org_key org Horg.
  assert (org_key ∈ dom MarineAi.organizations) as Hdom
    by (apply elem_of_dom; eauto).
  rewrite organizations_dom in Hdom.
  cbn [MarineBatch.organization_keys list_to_set foldr] in Hdom.
  apply elem_of_union in Hdom as [Hk|Hdom];
    [|apply elem_of_union in Hdom as [Hk|Hdom];
      [|apply elem_of_union in Hdom as [Hk|Hdom];
        [|by apply elem_of_empty in Hdom]]];
    apply elem_of_singleton in Hk; subst org_key.
  - destruct (Hshape _ org _ Horg A1) as [tail Htail].
    eexists _, tail. split; [reflexivity|exact Htail].
  - destruct (Hshape _ org _ Horg A2) as [tail Htail].
    eexists _, tail. split; [reflexivity|exact Htail].
  - destruct (Hshape _ org _ Horg A3) as [tail Htail].
    eexists _, tail. split; [reflexivity|exact Htail].
Qed.

(** X20 on a host whose service answers 503. *)
Lemma batch_falls_back_for_every_letter_witness :
  ∃ letters tail,
    fst (MarineBatch.generate_all_letters
           host_service_down "sk-or-v1-0000" MarineBatch.empty_host)
    = Ok letters
    ∧ letters !! "communities" =
      Some ("Date: September 20, 2025" +:+ newline +:+ newline +:+ newline
            +:+ "Date: September 20, 2025" +:+ newline
            +:+ "Coastal Communities Alliance" +:+ newline +:+ tail).
Proof.
  destruct (batch_falls_back_for_every_letter
              host_service_down "sk-or-v1-0000" MarineBatch.empty_host
              eq_refl (λ _ _ _, eq_refl) (λ _ _ _, eq_refl))
    as (letters & h' & Hrun & Hletters).
  assert (MarineAi.organizations !! "communities" =
          Some (MarineAi.mkOrganizationProfile
                  "Coastal Communities Alliance"
                  "Local Communities, Volunteers, Community Leaders, Residents"
                  "passionate, community-focused, inspiring"
                  ["grassroots action"; "local impact";
                   "community engagement"; "educational programs"]
                  "join local conservation efforts and engage in community marine protection"
                  "dheunsac@gmail.com")) as Horg by (by vm_compute).
  destruct (Hletters _ _ Horg) as (letter & tail & Hlook & ->).
  exists letters, tail. rewrite Hrun. split; [reflexivity|exact Hlook].
Defined.

(** X21. The files of one run never collide: whatever the clock says, the
    three letter files and the report have four different paths, so none of
    them overwrites another. *)
Theorem run_files_are_distinct (env : MarineBatch.HostEnv) :
  NoDup (MarineBatch.report_filename env
         :: (MarineBatch.letter_filename env
               <$> MarineBatch.organization_keys)).
Proof.
  unfold MarineBatch.report_filename, MarineBatch.letter_filename.
  cbn [MarineBatch.organization_keys fmap list_fmap].
  repeat (apply NoDup_cons; split);
    [..|apply NoDup_nil_2];
    rewrite ?elem_of_cons, ?elem_of_nil; cbn [String.append];
    intros H; repeat destruct H as [H|H]; try discriminate H; exact H.
Qed.
